(** * PendingStateManager: pending-op tracking, ack correlation and replay

    A shallow embedding of the container runtime's [PendingStateManager]
    (pendingStateManager.ts).  The class is a mutable object; here its
    fields, together with what it observes of its collaborators, form a
    record [World], and every method is a function in a small monad that
    threads the world and may throw.  A thrown exception keeps the world
    as it was at the throw: JavaScript does not roll mutations back.

    Conventions
    - JavaScript numbers that the code uses as counters and sequence
      numbers are integers ([Z]); [undefined] is [None] or [JUndefined].
    - The [double-ended-queue] [Deque] is a list whose head is the front.
    - Names follow the source. *)

From Stdlib Require Import String Ascii List ZArith Lia Bool Arith DecimalString.
Import ListNotations.
Local Open Scope string_scope.
Local Open Scope list_scope.

Set Implicit Arguments.
Set Warnings "-register-all".

(** ** JavaScript values *)

(** What [JSON.parse] can return, plus [undefined] for an absent property.
    Numbers are restricted to integers.  The field list of [JObj] is in
    JavaScript's property enumeration order. *)
Inductive JsValue : Type :=
| JUndefined
| JNull
| JBool (b : bool)
| JNum (z : Z)
| JStr (s : string)
| JArr (items : list JsValue)
| JObj (fields : list (string * JsValue)).

(** [typeof v] *)
Definition typeOf (v : JsValue) : string :=
  match v with
  | JUndefined => "undefined"
  | JNull | JArr _ | JObj _ => "object"
  | JBool _ => "boolean"
  | JNum _ => "number"
  | JStr _ => "string"
  end.

Fixpoint lookupField (k : string) (fields : list (string * JsValue)) : JsValue :=
  match fields with
  | [] => JUndefined
  | (k', v) :: rest => if String.eqb k k' then v else lookupField k rest
  end.

(** [obj[k] = v] on an object literal: replace in place, else append. *)
Fixpoint setField (k : string) (v : JsValue) (fields : list (string * JsValue))
  : list (string * JsValue) :=
  match fields with
  | [] => [(k, v)]
  | (k', v') :: rest =>
      if String.eqb k k' then (k, v) :: rest else (k', v') :: setField k v rest
  end.

(** [v.k]: reading a property of [null] or [undefined] is a TypeError
    ([None]); any other value without that property yields [undefined]. *)
Definition getProp (v : JsValue) (k : string) : option JsValue :=
  match v with
  | JUndefined | JNull => None
  | JObj fields => Some (lookupField k fields)
  | _ => Some JUndefined
  end.

(** [v?.length] *)
Definition optLength (v : JsValue) : JsValue :=
  match v with
  | JUndefined | JNull => JUndefined
  | JArr items => JNum (Z.of_nat (List.length items))
  | JStr s => JNum (Z.of_nat (String.length s))
  | JObj fields => lookupField "length" fields
  | _ => JUndefined
  end.

(** Falsy values, for [a && b]. *)
Definition falsy (v : JsValue) : bool :=
  match v with
  | JUndefined | JNull | JBool false => true
  | JNum z => Z.eqb z 0
  | JStr s => String.eqb s EmptyString
  | _ => false
  end.

(** [a === b].  Two objects obtained from two calls of [JSON.parse] are
    never the same reference. *)
Definition strictEq (a b : JsValue) : bool :=
  match a, b with
  | JUndefined, JUndefined | JNull, JNull => true
  | JBool x, JBool y => Bool.eqb x y
  | JNum x, JNum y => Z.eqb x y
  | JStr x, JStr y => String.eqb x y
  | _, _ => false
  end.

(** Decimal rendering of an array index, as [Object.keys] gives it. *)
Definition indexKey (i : nat) : string :=
  NilZero.string_of_uint (Nat.to_uint i).

(** [Object.keys(v)] paired with the value at each key; [None] is the
    TypeError on [null] and [undefined]. *)
Definition ownEntries (v : JsValue) : option (list (string * JsValue)) :=
  match v with
  | JUndefined | JNull => None
  | JObj fields => Some fields
  | JArr items =>
      Some (combine (map indexKey (seq 0 (List.length items))) items)
  | JStr s =>
      Some (map (fun i => (indexKey i, JStr (String.substring i 1 s)))
                (seq 0 (String.length s)))
  | JBool _ | JNum _ => Some []
  end.

(** ** Errors and the method monad *)

Inductive Error : Type :=
| AssertionError (code : string)                  (* assert(cond, 0x...) *)
| DataProcessingError (message codepath : string) (* DataProcessingError.create *)
| GenericError (message : string)                 (* new Error(message) *)
| TypeError                                       (* property of undefined/null *)
| SyntaxError                                     (* JSON.parse *)
| WrappedError (inner : Error) (codepath : string)
| Diverged.   (* not a JavaScript error: the fuel of a modelled loop ran out *)

Inductive Outcome (A : Type) : Type :=
| Ok (a : A)
| Throw (e : Error).
Arguments Throw {A} e.

(** ** Data model *)

(** [LocalContainerRuntimeMessage | EmptyGroupedBatch] *)
Record RuntimeOp : Type := {
  op_type : JsValue;      (* a string for every typed producer *)
  op_contents : JsValue;
}.

(** [localOpMetadata: unknown].  [LomEmptyBatch] is [{ emptyBatch: true }]. *)
Inductive LocalOpMetadata : Type :=
| LomUndefined
| LomEmptyBatch
| LomData (d : JsValue).

(** The batch fields of [opMetadata]. *)
Record OpMetadata : Type := {
  md_batch : option bool;       (* opMetadata.batch *)
  md_batchId : option string;   (* opMetadata.batchId *)
}.

Record BatchInfo : Type := {
  clientId : string;
  batchStartCsn : Z;
  batchLength : Z;              (* batchInfo.length *)
  ignoreBatchId : option bool;
  staged : bool;
}.

(** [IPendingMessage], generic in the type of [batchInfo] so that the
    stash schema ([Patch<IPendingMessage, { batchInfo?: undefined }>]) is
    the same record at another instance. *)
Record PendingMessageOf (BI : Type) : Type := {
  referenceSequenceNumber : Z;
  content : string;
  runtimeOp : option RuntimeOp;
  localOpMetadata : LocalOpMetadata;
  opMetadata : option OpMetadata;
  sequenceNumber : option Z;
  batchInfo : BI;
}.

Abbreviation IPendingMessage := (PendingMessageOf BatchInfo).
Abbreviation IPendingMessageFromStash := (PendingMessageOf (option BatchInfo)).

(** [LocalBatchMessage | LocalEmptyBatchPlaceholder], as [onFlushBatch]
    destructures them. *)
Record LocalBatchMessage : Type := {
  lbm_runtimeOp : RuntimeOp;
  lbm_referenceSequenceNumber : Z;
  lbm_localOpMetadata : LocalOpMetadata;
  lbm_metadata : option OpMetadata;
}.

Record PendingMessageResubmitData : Type := {
  rd_runtimeOp : RuntimeOp;
  rd_localOpMetadata : LocalOpMetadata;
  rd_opMetadata : option OpMetadata;
}.

Record PendingBatchResubmitMetadata : Type := {
  rm_batchId : option string;
  rm_staged : bool;
  rm_squash : bool;
}.

Record ReplayPendingStateOptions : Type := {
  committingStagedBatches : bool;
  squash : bool;
}.

Definition defaultReplayPendingStatesOptions : ReplayPendingStateOptions :=
  {| committingStagedBatches := false; squash := false |}.

Record InboundSequencedContainerRuntimeMessage : Type := {
  im_type : string;
  im_contents : JsValue;
  im_sequenceNumber : Z;
}.

Record KeyMessage : Type := { km_sequenceNumber : Z }.

Record BatchStartInfo : Type := {
  bs_batchId : option string;
  bs_clientId : string;
  bs_batchStartCsn : Z;
  bs_keyMessage : KeyMessage;
}.

(** [InboundMessageResult], by its discriminant [type]. *)
Inductive InboundMessageResult : Type :=
| FullBatch (messages : list InboundSequencedContainerRuntimeMessage)
            (batchStart : BatchStartInfo) (len : Z)
| BatchStartingMessage (batchStart : BatchStartInfo)
                       (nextMessage : InboundSequencedContainerRuntimeMessage)
| NextBatchMessage (nextMessage : InboundSequencedContainerRuntimeMessage).

(** ["batchStart" in inbound] *)
Definition inboundBatchStart (inbound : InboundMessageResult) : option BatchStartInfo :=
  match inbound with
  | FullBatch _ bs _ | BatchStartingMessage bs _ => Some bs
  | NextBatchMessage _ => None
  end.

(** [inbound.length] *)
Definition inboundLength (inbound : InboundMessageResult) : option Z :=
  match inbound with
  | FullBatch _ _ n => Some n
  | _ => None
  end.

(** [inbound.type === "fullBatch" ? inbound.messages : [inbound.nextMessage]] *)
Definition inboundMessages (inbound : InboundMessageResult)
  : list InboundSequencedContainerRuntimeMessage :=
  match inbound with
  | FullBatch ms _ _ => ms
  | BatchStartingMessage _ m | NextBatchMessage m => [m]
  end.

(** One element of what [processInboundMessages] returns. *)
Record ProcessedMessage : Type := {
  pr_message : InboundSequencedContainerRuntimeMessage;
  pr_localOpMetadata : option LocalOpMetadata;   (* absent for remote messages *)
}.

(** The arguments of one call of [onFlushBatch]. *)
Record FlushCall : Type := {
  fc_batch : list LocalBatchMessage;
  fc_clientSequenceNumber : option Z;
  fc_staged : bool;
  fc_ignoreBatchId : option bool;
}.

Record TelemetryEvent : Type := {
  ev_error : bool;      (* sendErrorEvent / sendTelemetryEvent *)
  eventName : string;
  details : list (string * JsValue);
}.

(** ** The world: the manager's fields and what it sees of its collaborators *)

Record World : Type := {
  pendingMessages : list IPendingMessage;
  initialMessages : list IPendingMessageFromStash;
  savedOps : list IPendingMessage;
  clientIdFromLastReplay : option string;
  (* IRuntimeStateHandler, observable part *)
  h_connected : bool;
  h_clientId : option string;
  h_isActiveConnection : bool;
  h_isAttached : bool;
  (* effects on collaborators, recorded in call order *)
  uuidCalls : nat;
  reSubmitted : list (list PendingMessageResubmitData * PendingBatchResubmitMetadata);
  appliedStashedOps : list string;
  telemetry : list TelemetryEvent;
}.

Definition set_pendingMessages (q : list IPendingMessage) (w : World) : World :=
  {| pendingMessages := q; initialMessages := initialMessages w;
     savedOps := savedOps w; clientIdFromLastReplay := clientIdFromLastReplay w;
     h_connected := h_connected w; h_clientId := h_clientId w;
     h_isActiveConnection := h_isActiveConnection w; h_isAttached := h_isAttached w;
     uuidCalls := uuidCalls w; reSubmitted := reSubmitted w;
     appliedStashedOps := appliedStashedOps w; telemetry := telemetry w |}.

Definition set_initialMessages (q : list IPendingMessageFromStash) (w : World) : World :=
  {| pendingMessages := pendingMessages w; initialMessages := q;
     savedOps := savedOps w; clientIdFromLastReplay := clientIdFromLastReplay w;
     h_connected := h_connected w; h_clientId := h_clientId w;
     h_isActiveConnection := h_isActiveConnection w; h_isAttached := h_isAttached w;
     uuidCalls := uuidCalls w; reSubmitted := reSubmitted w;
     appliedStashedOps := appliedStashedOps w; telemetry := telemetry w |}.

Definition set_savedOps (l : list IPendingMessage) (w : World) : World :=
  {| pendingMessages := pendingMessages w; initialMessages := initialMessages w;
     savedOps := l; clientIdFromLastReplay := clientIdFromLastReplay w;
     h_connected := h_connected w; h_clientId := h_clientId w;
     h_isActiveConnection := h_isActiveConnection w; h_isAttached := h_isAttached w;
     uuidCalls := uuidCalls w; reSubmitted := reSubmitted w;
     appliedStashedOps := appliedStashedOps w; telemetry := telemetry w |}.

Definition set_clientIdFromLastReplay (c : option string) (w : World) : World :=
  {| pendingMessages := pendingMessages w; initialMessages := initialMessages w;
     savedOps := savedOps w; clientIdFromLastReplay := c;
     h_connected := h_connected w; h_clientId := h_clientId w;
     h_isActiveConnection := h_isActiveConnection w; h_isAttached := h_isAttached w;
     uuidCalls := uuidCalls w; reSubmitted := reSubmitted w;
     appliedStashedOps := appliedStashedOps w; telemetry := telemetry w |}.

Definition set_uuidCalls (n : nat) (w : World) : World :=
  {| pendingMessages := pendingMessages w; initialMessages := initialMessages w;
     savedOps := savedOps w; clientIdFromLastReplay := clientIdFromLastReplay w;
     h_connected := h_connected w; h_clientId := h_clientId w;
     h_isActiveConnection := h_isActiveConnection w; h_isAttached := h_isAttached w;
     uuidCalls := n; reSubmitted := reSubmitted w;
     appliedStashedOps := appliedStashedOps w; telemetry := telemetry w |}.

Definition set_reSubmitted
  (l : list (list PendingMessageResubmitData * PendingBatchResubmitMetadata))
  (w : World) : World :=
  {| pendingMessages := pendingMessages w; initialMessages := initialMessages w;
     savedOps := savedOps w; clientIdFromLastReplay := clientIdFromLastReplay w;
     h_connected := h_connected w; h_clientId := h_clientId w;
     h_isActiveConnection := h_isActiveConnection w; h_isAttached := h_isAttached w;
     uuidCalls := uuidCalls w; reSubmitted := l;
     appliedStashedOps := appliedStashedOps w; telemetry := telemetry w |}.

Definition set_appliedStashedOps (l : list string) (w : World) : World :=
  {| pendingMessages := pendingMessages w; initialMessages := initialMessages w;
     savedOps := savedOps w; clientIdFromLastReplay := clientIdFromLastReplay w;
     h_connected := h_connected w; h_clientId := h_clientId w;
     h_isActiveConnection := h_isActiveConnection w; h_isAttached := h_isAttached w;
     uuidCalls := uuidCalls w; reSubmitted := reSubmitted w;
     appliedStashedOps := l; telemetry := telemetry w |}.

Definition set_telemetry (l : list TelemetryEvent) (w : World) : World :=
  {| pendingMessages := pendingMessages w; initialMessages := initialMessages w;
     savedOps := savedOps w; clientIdFromLastReplay := clientIdFromLastReplay w;
     h_connected := h_connected w; h_clientId := h_clientId w;
     h_isActiveConnection := h_isActiveConnection w; h_isAttached := h_isAttached w;
     uuidCalls := uuidCalls w; reSubmitted := reSubmitted w;
     appliedStashedOps := appliedStashedOps w; telemetry := l |}.

(** A method: runs in a world, returns or throws, and leaves a world. *)
Definition M (A : Type) : Type := World -> Outcome A * World.

Definition ret {A} (a : A) : M A := fun w => (Ok a, w).

Definition bind {A B} (m : M A) (k : A -> M B) : M B :=
  fun w =>
    match m w with
    | (Ok a, w') => k a w'
    | (Throw e, w') => (Throw e, w')
    end.

Definition throw {A} (e : Error) : M A := fun w => (Throw e, w).

Definition gets {A} (f : World -> A) : M A := fun w => (Ok (f w), w).

Definition modify (f : World -> World) : M unit := fun w => (Ok tt, f w).

(** [assert(cond, code)] of core-utils *)
Definition assert (cond : bool) (code : string) : M unit :=
  if cond then ret tt else throw (AssertionError code).

(** [try { m } catch (error) { throw h(error) }] *)
Definition rethrowing {A} (h : Error -> Error) (m : M A) : M A :=
  fun w =>
    match m w with
    | (Ok a, w') => (Ok a, w')
    | (Throw e, w') => (Throw (h e), w')
    end.

Declare Scope method_scope.
Delimit Scope method_scope with method.
Notation "x <- m ;; k" := (bind m (fun x => k))
  (at level 100, m at next level, right associativity) : method_scope.
Notation "m ;; k" := (bind m (fun _ => k))
  (at level 100, right associativity) : method_scope.
Local Open Scope method_scope.

(** [array.map(f)] with an effectful callback: left to right, stopping at
    the first throw. *)
Fixpoint mapM {A B} (f : A -> M B) (l : list A) : M (list B) :=
  match l with
  | [] => ret []
  | a :: rest => b <- f a ;; bs <- mapM f rest ;; ret (b :: bs)
  end.

(** [for (const x of l) f(x)] *)
Fixpoint forM_ {A} (f : A -> M unit) (l : list A) : M unit :=
  match l with
  | [] => ret tt
  | a :: rest => f a ;; forM_ f rest
  end.

(** ** Collaborators *)

(** What the module imports and does not define: the JSON built-ins,
    [uuid], and the helpers of [./opLifecycle] and of telemetry-utils. *)
Class Platform : Type := {
  JSON_stringify : JsValue -> string;
  JSON_parse : string -> option JsValue;          (* [None]: SyntaxError *)
  uuid : nat -> string;                           (* what the n-th call returns *)
  serializeOp : RuntimeOp -> string;
  getEffectiveBatchId : IPendingMessage -> string;
  getEffectiveBatchIdOfBatchStart : BatchStartInfo -> string;
  wrapIfUnrecognized : Error -> string -> Error;  (* DataProcessingError.wrapIfUnrecognized *)
}.

(** [IRuntimeStateHandler]: the two callbacks that act.  [connected],
    [clientId], [isActiveConnection] and [isAttached] are read from the
    world.  [reSubmitBatch] re-enters the submit path: [reSubmitBatch_flushes]
    gives the flushes it performs on the manager before it returns. *)
Class IRuntimeStateHandler : Type := {
  applyStashedOp : string -> Outcome LocalOpMetadata;
  reSubmitBatch_flushes :
    list PendingMessageResubmitData -> PendingBatchResubmitMetadata -> list FlushCall;
}.

(** Modelled from the spec: [asBatchMetadata] and [asEmptyBatchLocalOpMetadata]
    of [./metadata.js] are not among the sources; they are type-narrowing
    views, of [opMetadata] as its batch fields and of [localOpMetadata] as a
    possible [{ emptyBatch: true }] marker. *)
Definition asBatchMetadata (metadata : option OpMetadata) : option OpMetadata := metadata.

(** [asEmptyBatchLocalOpMetadata(x)?.emptyBatch === true] *)
Definition isEmptyBatchMarker (localOpMetadata : LocalOpMetadata) : bool :=
  match localOpMetadata with
  | LomEmptyBatch => true
  | _ => false
  end.

(** [asBatchMetadata(m)?.batch] *)
Definition batchFlag (metadata : option OpMetadata) : option bool :=
  match asBatchMetadata metadata with
  | Some md => md_batch md
  | None => None
  end.

(** [asBatchMetadata(m)?.batchId] *)
Definition stampedBatchId (metadata : option OpMetadata) : option string :=
  match asBatchMetadata metadata with
  | Some md => md_batchId md
  | None => None
  end.

(** ** Record updates *)

Definition with_sequenceNumber {BI} (n : Z) (m : PendingMessageOf BI) : PendingMessageOf BI :=
  {| referenceSequenceNumber := referenceSequenceNumber m; content := content m;
     runtimeOp := runtimeOp m; localOpMetadata := localOpMetadata m;
     opMetadata := opMetadata m; sequenceNumber := Some n; batchInfo := batchInfo m |}.

Definition with_localOpMetadata {BI} (l : LocalOpMetadata) (m : PendingMessageOf BI)
  : PendingMessageOf BI :=
  {| referenceSequenceNumber := referenceSequenceNumber m; content := content m;
     runtimeOp := runtimeOp m; localOpMetadata := l;
     opMetadata := opMetadata m; sequenceNumber := sequenceNumber m;
     batchInfo := batchInfo m |}.

Definition with_runtimeOp {BI} (r : option RuntimeOp) (m : PendingMessageOf BI)
  : PendingMessageOf BI :=
  {| referenceSequenceNumber := referenceSequenceNumber m; content := content m;
     runtimeOp := r; localOpMetadata := localOpMetadata m;
     opMetadata := opMetadata m; sequenceNumber := sequenceNumber m;
     batchInfo := batchInfo m |}.

Definition with_batchInfo {BI BI'} (b : BI') (m : PendingMessageOf BI) : PendingMessageOf BI' :=
  {| referenceSequenceNumber := referenceSequenceNumber m; content := content m;
     runtimeOp := runtimeOp m; localOpMetadata := localOpMetadata m;
     opMetadata := opMetadata m; sequenceNumber := sequenceNumber m;
     batchInfo := b |}.

Definition with_staged (b : bool) (bi : BatchInfo) : BatchInfo :=
  {| clientId := clientId bi; batchStartCsn := batchStartCsn bi;
     batchLength := batchLength bi; ignoreBatchId := ignoreBatchId bi; staged := b |}.

(** ** Pure helpers of the module *)

(** Returns a shallow copy of the message with the non-serializable
    properties removed. *)
Definition toSerializableForm (m : IPendingMessage) : IPendingMessage :=
  with_runtimeOp None (with_localOpMetadata LomUndefined m).

(** [message.runtimeOp !== undefined && message.runtimeOp.type !== "groupedBatch"] *)
Definition hasTypicalRuntimeOp {BI} (m : PendingMessageOf BI) : bool :=
  match runtimeOp m with
  | Some op => negb (strictEq (op_type op) (JStr "groupedBatch"))
  | None => false
  end.

(** The resubmit data of a message that passed [hasTypicalRuntimeOp]. *)
Definition resubmitData (m : IPendingMessage) : option PendingMessageResubmitData :=
  match runtimeOp m with
  | Some op =>
      if negb (strictEq (op_type op) (JStr "groupedBatch"))
      then Some {| rd_runtimeOp := op; rd_localOpMetadata := localOpMetadata m;
                   rd_opMetadata := opMetadata m |}
      else None
  | None => None
  end.

Fixpoint findFirstRawFrom (i : nat) (a b : string) : Z * option ascii * option ascii :=
  match a, b with
  | String x a', String y b' =>
      if Ascii.eqb x y then findFirstRawFrom (S i) a' b'
      else (Z.of_nat i, Some x, Some y)
  | EmptyString, EmptyString => ((-1)%Z, None, None)
  | String x _, EmptyString => (Z.of_nat i, Some x, None)
  | EmptyString, String y _ => (Z.of_nat i, None, Some y)
  end.

(** Index where the strings diverge ([-1] when identical) and the
    character there in each. *)
Definition findFirstRawCharacterMismatched (a b : string) := findFirstRawFrom 0 a b.

(** [(raw?.codePointAt(0) ?? 0) <= 0x7f ? raw : "[non-ASCII]"] *)
Definition scrubChar (raw : option ascii) : JsValue :=
  match raw with
  | None => JUndefined
  | Some c => if Nat.leb (nat_of_ascii c) 127 then JStr (String c EmptyString)
              else JStr "[non-ASCII]"
  end.

Definition findFirstCharacterMismatched (a b : string) : Z * JsValue * JsValue :=
  let '(index, rawCharA, rawCharB) := findFirstRawCharacterMismatched a b in
  (index, scrubChar rawCharA, scrubChar rawCharB).

(** [Object.keys(obj).reduce((acc, key) => { acc[key] = typeof obj[key]; ... }, {})];
    [None] is the TypeError of [Object.keys] on [null]. *)
Definition typesOfKeys (obj : JsValue) : option (list (string * JsValue)) :=
  match ownEntries obj with
  | None => None
  | Some entries =>
      Some (fold_left (fun acc kv => setField (fst kv) (JStr (typeOf (snd kv))) acc)
                      entries [])
  end.

Definition option_eqb {A} (eqb : A -> A -> bool) (a b : option A) : bool :=
  match a, b with
  | Some x, Some y => eqb x y
  | None, None => true
  | _, _ => false
  end.

Definition isSome {A} (o : option A) : bool :=
  match o with Some _ => true | None => false end.

Definition isEmpty {A} (l : list A) : bool :=
  match l with [] => true | _ => false end.

(** [Array.from({ length: n }).findIndex((_, i) => p(i))]; [None] is [-1]. *)
Definition findIndex (n : nat) (p : nat -> bool) : option nat := find p (seq 0 n).

Definition jsOfOption {A} (f : A -> JsValue) (o : option A) : JsValue :=
  match o with Some a => f a | None => JUndefined end.

(** ** The methods *)

Section Methods.

Context {platform : Platform} {stateHandler : IRuntimeStateHandler}.

Definition liftOutcome {A} (o : Outcome A) : M A := fun w => (o, w).

(** *** Deque operations on [pendingMessages] and [initialMessages] *)

Definition peekFront : M (option IPendingMessage) :=
  gets (fun w => hd_error (pendingMessages w)).

Definition peekBack : M (option IPendingMessage) :=
  gets (fun w => hd_error (rev (pendingMessages w))).

Definition shift : M (option IPendingMessage) :=
  fun w =>
    match pendingMessages w with
    | [] => (Ok None, w)
    | m :: q => (Ok (Some m), set_pendingMessages q w)
    end.

Definition pop : M unit :=
  modify (fun w => set_pendingMessages (removelast (pendingMessages w)) w).

Definition push (m : IPendingMessage) : M unit :=
  modify (fun w => set_pendingMessages (pendingMessages w ++ [m]) w).

Definition shiftInitial : M (option IPendingMessageFromStash) :=
  fun w =>
    match initialMessages w with
    | [] => (Ok None, w)
    | m :: q => (Ok (Some m), set_initialMessages q w)
    end.

(** *** Collaborator calls *)

Definition callUuid : M string :=
  fun w => (Ok (uuid (uuidCalls w)), set_uuidCalls (S (uuidCalls w)) w).

Definition sendEvent (isError : bool) (name : string) (d : list (string * JsValue)) : M unit :=
  modify (fun w =>
    set_telemetry (telemetry w ++ [{| ev_error := isError; eventName := name; details := d |}]) w).

Definition callApplyStashedOp (serializedOp : string) : M LocalOpMetadata :=
  modify (fun w => set_appliedStashedOps (appliedStashedOps w ++ [serializedOp]) w) ;;
  liftOutcome (applyStashedOp serializedOp).

(** *** Module-level functions *)

(** [content.type === "groupedBatch" && content.contents?.length === 0] on
    the parsed content. *)
Definition isEmptyBatchPendingMessage (m : IPendingMessageFromStash) : Outcome bool :=
  match JSON_parse (content m) with
  | None => Throw SyntaxError
  | Some parsed =>
      match getProp parsed "type", getProp parsed "contents" with
      | Some t, Some c =>
          Ok (strictEq t (JStr "groupedBatch") && strictEq (optLength c) (JNum 0))
      | _, _ => Throw TypeError
      end
  end.

(** [JSON.stringify({ type, contents })]: the order of the two properties
    is the order used when the message was submitted. *)
Definition buildPendingMessageContent (m : InboundSequencedContainerRuntimeMessage) : string :=
  JSON_stringify (JObj [("type", JStr (im_type m)); ("contents", im_contents m)]).

Definition scrubAndStringify (m : JsValue) : option string :=
  match typesOfKeys m, getProp m "contents", getProp m "type" with
  | Some scrubbed, Some contents, Some type =>
      match (if falsy contents then Some contents
             else option_map JObj (typesOfKeys contents)) with
      | Some scrubbedContents =>
          Some (JSON_stringify
                  (JObj (setField "type" type (setField "contents" scrubbedContents scrubbed))))
      | None => None
      end
  | _, _, _ => None
  end.

(** For back-compat if trying to apply stashed ops that pre-date batchInfo. *)
Definition patchbatchInfo (m : IPendingMessageFromStash) : M IPendingMessage :=
  match batchInfo m with
  | Some bi => ret (with_batchInfo bi m)
  | None =>
      u <- callUuid ;;
      ret (with_batchInfo {| clientId := u; batchStartCsn := (-1)%Z; batchLength := (-1)%Z;
                             ignoreBatchId := None; staged := false |} m)
  end.

(** *** Flushing *)

Definition onFlushBatch (batch : list LocalBatchMessage) (clientSequenceNumber : option Z)
    (isStaged : bool) (ignore : option bool) : M unit :=
  (if isSome clientSequenceNumber then assert (negb isStaged) "0xb84" else ret tt) ;;
  ids <- match clientSequenceNumber with
         | Some csn => c <- gets h_clientId ;; ret (c, csn)
         | None => u <- callUuid ;; ret (Some u, (-1)%Z)
         end ;;
  match fst ids with
  | None => throw (AssertionError "0xa33")
  | Some cid =>
      forM_ (fun m =>
               push {| referenceSequenceNumber := lbm_referenceSequenceNumber m;
                       content := serializeOp (lbm_runtimeOp m);
                       runtimeOp := Some (lbm_runtimeOp m);
                       localOpMetadata := lbm_localOpMetadata m;
                       opMetadata := lbm_metadata m;
                       sequenceNumber := None;
                       batchInfo := {| clientId := cid; batchStartCsn := snd ids;
                                       batchLength := Z.of_nat (List.length batch);
                                       ignoreBatchId := ignore; staged := isStaged |} |})
            batch
  end.

Definition onFlushEmptyBatch (placeholder : LocalBatchMessage)
    (clientSequenceNumber : option Z) (isStaged : bool) : M unit :=
  onFlushBatch [placeholder] clientSequenceNumber isStaged None.

Definition flush (c : FlushCall) : M unit :=
  onFlushBatch (fc_batch c) (fc_clientSequenceNumber c) (fc_staged c) (fc_ignoreBatchId c).

(** [stateHandler.reSubmitBatch(batch, metadata)]: the sink receives the
    batch, then the runtime flushes what it resubmits, re-entering
    [onFlushBatch]. *)
Definition reSubmitBatch (batch : list PendingMessageResubmitData)
    (metadata : PendingBatchResubmitMetadata) : M unit :=
  modify (fun w => set_reSubmitted (reSubmitted w ++ [(batch, metadata)]) w) ;;
  forM_ flush (reSubmitBatch_flushes batch metadata).

(** *** Ack correlation *)

(** The diagnostics gathered on a content mismatch.  [JSON.parse] may
    throw, and so may a property read on a parsed [null]. *)
Definition mismatchDetails (pendingContent messageContent : string)
  : Outcome (list (string * JsValue)) :=
  let pendingLength := Z.of_nat (String.length pendingContent) in
  let incomingLength := Z.of_nat (String.length messageContent) in
  let '(mismatchStartIndex, pendingChar, incomingChar) :=
    findFirstCharacterMismatched pendingContent messageContent in
  match JSON_parse pendingContent, JSON_parse messageContent with
  | Some pendingContentObj, Some incomingContentObj =>
      match getProp pendingContentObj "contents", getProp incomingContentObj "contents" with
      | Some pc, Some ic =>
          let contentsMatch :=
            strictEq pc ic ||
            (negb (strictEq pc JUndefined) && negb (strictEq ic JUndefined) &&
             String.eqb (JSON_stringify pc) (JSON_stringify ic)) in
          match scrubAndStringify pendingContentObj, scrubAndStringify incomingContentObj with
          | Some ps, Some is_ =>
              Ok [("pendingContentScrubbed", JStr ps);
                  ("incomingContentScrubbed", JStr is_);
                  ("contentsMatch", JBool contentsMatch);
                  ("pendingLength", JNum pendingLength);
                  ("incomingLength", JNum incomingLength);
                  ("mismatchStartIndex", JNum mismatchStartIndex);
                  ("pendingChar", pendingChar);
                  ("incomingChar", incomingChar)]
          | _, _ => Throw TypeError
          end
      | _, _ => Throw TypeError
      end
  | _, _ => Throw SyntaxError
  end.

(** Processes the pending local copy of a message that has been ack'd.
    [message] is [None] in the empty-batch case. *)
Definition processNextPendingMessage (seqNum : Z)
    (message : option InboundSequencedContainerRuntimeMessage) : M LocalOpMetadata :=
  front <- peekFront ;;
  match front with
  | None => throw (AssertionError "0x169")
  | Some front =>
      let pendingMessage := with_sequenceNumber seqNum front in
      modify (fun w => set_savedOps (savedOps w ++ [toSerializableForm pendingMessage]) w) ;;
      shift ;;
      match message with
      | Some message =>
          let messageContent := buildPendingMessageContent message in
          if negb (String.eqb (content pendingMessage) messageContent) then
            d <- liftOutcome (mismatchDetails (content pendingMessage) messageContent) ;;
            sendEvent true "unexpectedAckReceived" d ;;
            throw (DataProcessingError "pending local message content mismatch"
                                       "unexpectedAckReceived")
          else ret (localOpMetadata pendingMessage)
      | None => ret (localOpMetadata pendingMessage)
      end
  end.

(** Check if the incoming batch matches the batch info of the next
    pending message; a mismatch is logged, not thrown.  Of the logged
    details, the two read from the key message are left out. *)
Definition onLocalBatchBegin (batchStart : BatchStartInfo) (batchLen : option Z) : M unit :=
  front <- peekFront ;;
  match front with
  | None => throw (AssertionError "0xa21")
  | Some pendingMessage =>
      assert (negb (staged (batchInfo pendingMessage))) "0xb85" ;;
      let skipLengthCheck :=
        Z.eqb (batchLength (batchInfo pendingMessage)) (-1) || negb (isSome batchLen) in
      let expectedPendingBatchLength :=
        match batchLen with
        | Some n => if Z.eqb n 0 then Some 1%Z else Some n
        | None => None
        end in
      let pendingBatchId := stampedBatchId (opMetadata pendingMessage) in
      let inboundBatchId := bs_batchId batchStart in
      if negb (Z.eqb (batchStartCsn (batchInfo pendingMessage)) (bs_batchStartCsn batchStart))
         || (negb skipLengthCheck &&
             negb (option_eqb Z.eqb (Some (batchLength (batchInfo pendingMessage)))
                              expectedPendingBatchLength))
         || negb (option_eqb String.eqb pendingBatchId inboundBatchId)
      then
        sendEvent true "BatchInfoMismatch"
          [("pendingBatchCsn", JNum (batchStartCsn (batchInfo pendingMessage)));
           ("batchStartCsn", JNum (bs_batchStartCsn batchStart));
           ("pendingBatchLength", JNum (batchLength (batchInfo pendingMessage)));
           ("expectedPendingBatchLength", jsOfOption JNum expectedPendingBatchLength);
           ("batchLength", jsOfOption JNum batchLen);
           ("pendingBatchId", jsOfOption JStr pendingBatchId);
           ("inboundBatchId", jsOfOption JStr inboundBatchId);
           ("pendingMessageBatchMetadata",
            jsOfOption JBool (batchFlag (opMetadata pendingMessage)))]
      else ret tt
  end.

(** Processes the incoming messages that were submitted by this client. *)
Definition processPendingLocalMessages (inbound : InboundMessageResult)
  : M (list ProcessedMessage) :=
  match inboundBatchStart inbound with
  | Some batchStart => onLocalBatchBegin batchStart (inboundLength inbound)
  | None => ret tt
  end ;;
  match inbound with
  | FullBatch _ batchStart 0%Z =>
      (* Empty batch *)
      localOpMetadata <-
        processNextPendingMessage (km_sequenceNumber (bs_keyMessage batchStart)) None ;;
      assert (isEmptyBatchMarker localOpMetadata) "0xa20" ;;
      ret []
  | _ =>
      mapM (fun m =>
              l <- processNextPendingMessage (im_sequenceNumber m) (Some m) ;;
              ret {| pr_message := m; pr_localOpMetadata := Some l |})
           (inboundMessages inbound)
  end.

(** Compares the batch ID of the incoming batch with the pending batch ID
    for this client. *)
Definition remoteBatchMatchesPendingBatch (remoteBatchStart : BatchStartInfo) : M bool :=
  q <- gets pendingMessages ;;
  let firstIndexUsingBatchId :=
    findIndex (List.length q)
      (fun i => match nth_error q i with
                | Some m => negb (option_eqb Bool.eqb (ignoreBatchId (batchInfo m)) (Some true))
                | None => true
                end) in
  let pendingMessageUsingBatchId :=
    match firstIndexUsingBatchId with
    | None => None
    | Some i => nth_error q i
    end in
  match pendingMessageUsingBatchId with
  | None => ret false
  | Some m =>
      ret (String.eqb (getEffectiveBatchId m)
                      (getEffectiveBatchIdOfBatchStart remoteBatchStart))
  end.

(** Processes an inbound message or batch of messages, local or remote. *)
Definition processInboundMessages (inbound : InboundMessageResult) (local : bool)
  : M (list ProcessedMessage) :=
  if local then processPendingLocalMessages inbound
  else
    forked <- match inboundBatchStart inbound with
              | Some batchStart => remoteBatchMatchesPendingBatch batchStart
              | None => ret false
              end ;;
    if forked : bool then
      throw (DataProcessingError
               "Forked Container Error! Matching batchIds but mismatched clientId"
               "PendingStateManager.processInboundMessages")
    else
      ret (map (fun m => {| pr_message := m; pr_localOpMetadata := None |})
               (inboundMessages inbound)).

(** *** Stash rehydration *)

(** One pass of the body of the [try] block of [applyStashedOpsAt]. *)
Definition applyStashedMessage (nextMessage : IPendingMessageFromStash) : M unit :=
  emptyBatch <- liftOutcome (isEmptyBatchPendingMessage nextMessage) ;;
  if emptyBatch : bool then
    (* Nothing to apply; still tracked for resubmission. *)
    patched <- patchbatchInfo (with_localOpMetadata LomEmptyBatch nextMessage) ;;
    push patched
  else
    localOpMetadata <- callApplyStashedOp (content nextMessage) ;;
    attached <- gets h_isAttached ;;
    if attached : bool then
      (* the parse cannot fail here: isEmptyBatchPendingMessage parsed the
         same string and read its properties *)
      match JSON_parse (content nextMessage) with
      | None => throw SyntaxError
      | Some parsed =>
          match getProp parsed "type", getProp parsed "contents" with
          | Some t, Some c =>
              patched <- patchbatchInfo
                           (with_runtimeOp (Some {| op_type := t; op_contents := c |})
                              (with_localOpMetadata localOpMetadata nextMessage)) ;;
              push patched
          | _, _ => throw TypeError
          end
      end
    else
      match localOpMetadata with
      | LomUndefined => ret tt
      | _ => throw (GenericError "Local Op Metadata must be undefined when not attached")
      end.

(** The [while (!this.initialMessages.isEmpty())] loop.  Every iteration
    that does not leave the loop shifts one stashed message, so the length
    of the stash queue is enough fuel. *)
Fixpoint applyStashedOpsLoop (fuel : nat) (seqNum : option Z) : M unit :=
  peek <- gets (fun w => hd_error (initialMessages w)) ;;
  match peek with
  | None => ret tt
  | Some peekMessage =>
      let tooLate :=
        match seqNum with
        | Some n => Z.ltb n (referenceSequenceNumber peekMessage)
        | None => false
        end in
      let tooRecent :=
        match seqNum with
        | Some n => Z.ltb (referenceSequenceNumber peekMessage) n
        | None => false
        end in
      if tooLate then ret tt   (* break: nothing left to do at this sequence number *)
      else if tooRecent then
        throw (GenericError "loaded from snapshot too recent to apply stashed ops")
      else
        match fuel with
        | O => throw Diverged
        | S fuel' =>
            shifted <- shiftInitial ;;
            match shifted with
            | None => throw TypeError
            | Some nextMessage =>
                rethrowing (fun e => wrapIfUnrecognized e "applyStashedOp")
                           (applyStashedMessage nextMessage) ;;
                applyStashedOpsLoop fuel' seqNum
            end
        end
  end.

(** Applies stashed ops at their reference sequence number so they are
    ready to be ACKed or resubmitted. *)
Definition applyStashedOpsAt (seqNum : option Z) : M unit :=
  n <- gets (fun w => List.length (initialMessages w)) ;;
  applyStashedOpsLoop n seqNum.

(** *** Replay *)

(** The inner [while (remainingPendingMessagesCount >= 0)] loop: gathers
    the messages of a multi-message batch, starting with [pendingMessage],
    and returns the batch with the count that remains. *)
Fixpoint collectBatch (remaining : nat) (pendingMessage : IPendingMessage)
    (acc : list PendingMessageResubmitData)
  : M (list PendingMessageResubmitData * nat) :=
  match resubmitData pendingMessage with
  | None => throw (AssertionError "0xb88")
  | Some d =>
      let acc := acc ++ [d] in
      if option_eqb Bool.eqb (batchFlag (opMetadata pendingMessage)) (Some false)
      then ret (acc, remaining)          (* End of the batch *)
      else
        match remaining with
        | O => throw (AssertionError "0x555")
        | S remaining' =>
            shifted <- shift ;;
            match shifted with
            | None => throw TypeError
            | Some next =>
                assert (negb (option_eqb Bool.eqb (batchFlag (opMetadata next)) (Some true)))
                       "0x556" ;;
                collectBatch remaining' next acc
            end
        end
  end.

(** The outer [while (remainingPendingMessagesCount > 0)] loop.  Every
    iteration lowers the count, so the count at entry is enough fuel. *)
Fixpoint replayLoop (committing squashing : bool) (fuel remaining : nat)
    (seenStagedBatch : bool) : M unit :=
  match remaining with
  | O => ret tt
  | S remaining =>
      match fuel with
      | O => throw Diverged
      | S fuel =>
          shifted <- shift ;;
          match shifted with
          | None => throw TypeError
          | Some pendingMessage =>
              if committing && negb (staged (batchInfo pendingMessage)) then
                (* Re-queue pre-staging messages *)
                assert (negb seenStagedBatch) "0xb86" ;;
                push pendingMessage ;;
                replayLoop committing squashing fuel remaining seenStagedBatch
              else
                let seenStagedBatch := if committing then true else seenStagedBatch in
                let pendingMessage : IPendingMessage :=
                  if committing
                  then with_batchInfo (with_staged false (batchInfo pendingMessage)) pendingMessage
                  else pendingMessage in
                let batchMetadataFlag := batchFlag (opMetadata pendingMessage) in
                assert (negb (option_eqb Bool.eqb batchMetadataFlag (Some false))) "0x41b" ;;
                let metadata :=
                  {| rm_batchId :=
                       match ignoreBatchId (batchInfo pendingMessage) with
                       | Some true => None
                       | _ => Some (getEffectiveBatchId pendingMessage)
                       end;
                     rm_staged := staged (batchInfo pendingMessage);
                     rm_squash := squashing |} in
                if isEmptyBatchMarker (localOpMetadata pendingMessage) then
                  reSubmitBatch [] metadata ;;
                  replayLoop committing squashing fuel remaining seenStagedBatch
                else
                  match resubmitData pendingMessage with
                  | None => throw (AssertionError "0xb87")
                  | Some d =>
                      match batchMetadataFlag with
                      | None =>
                          (* Single-message batch *)
                          reSubmitBatch [d] metadata ;;
                          replayLoop committing squashing fuel remaining seenStagedBatch
                      | Some _ =>
                          assert (Nat.ltb 0 remaining) "0x554" ;;
                          r <- collectBatch remaining pendingMessage [] ;;
                          reSubmitBatch (fst r) metadata ;;
                          replayLoop committing squashing fuel (snd r) seenStagedBatch
                      end
                  end
          end
      end
  end.

(** Called when the connection state changes: replays all the pending
    states in the queue, triggering resubmission of unacked ops. *)
Definition replayPendingStates (options : option ReplayPendingStateOptions) : M unit :=
  let opts := match options with
              | Some o => o
              | None => defaultReplayPendingStatesOptions
              end in
  connected <- gets h_connected ;;
  assert (connected || committingStagedBatches opts) "0x172" ;;
  (if negb (committingStagedBatches opts) then
     lastReplay <- gets clientIdFromLastReplay ;;
     current <- gets h_clientId ;;
     assert (negb (option_eqb String.eqb lastReplay current)) "0x173"
   else ret tt) ;;
  current <- gets h_clientId ;;
  modify (set_clientIdFromLastReplay current) ;;
  initial <- gets initialMessages ;;
  assert (isEmpty initial) "0x174" ;;
  initialPendingMessagesCount <- gets (fun w => List.length (pendingMessages w)) ;;
  replayLoop (committingStagedBatches opts) (squash opts)
             initialPendingMessagesCount initialPendingMessagesCount false ;;
  modify (set_savedOps []) ;;
  active <- gets h_isActiveConnection ;;
  if active : bool then
    current <- gets h_clientId ;;
    sendEvent false "PendingStatesReplayed"
      [("count", JNum (Z.of_nat initialPendingMessagesCount));
       ("clientId", jsOfOption JStr current)]
  else ret tt.

(** *** Popping staged batches *)

(** The [while (!this.pendingMessages.isEmpty())] loop.  The callback is
    modelled by what it is given: [called] lists its arguments in call
    order.  Every iteration that stays in the loop pops one message. *)
Fixpoint popStagedLoop (fuel : nat) (called : list IPendingMessage)
  : M (list IPendingMessage) :=
  back <- peekBack ;;
  match back with
  | None => ret called
  | Some stagedMessage =>
      if staged (batchInfo stagedMessage) then
        match fuel with
        | O => throw Diverged
        | S fuel' =>
            pop ;;
            popStagedLoop fuel'
              (if hasTypicalRuntimeOp stagedMessage then called ++ [stagedMessage] else called)
        end
      else ret called   (* no more staged messages *)
  end.

(** Pops all staged batches, invoking the callback on each constituent op
    in order (LIFO).  Returns the messages the callback was invoked on. *)
Definition popStagedBatches : M (list IPendingMessage) :=
  n <- gets (fun w => List.length (pendingMessages w)) ;;
  called <- popStagedLoop n [] ;;
  q <- gets pendingMessages ;;
  assert (forallb (fun m => negb (staged (batchInfo m))) q) "0xb89" ;;
  ret called.

End Methods.

(** ** A concrete platform and handler

    Used to run the methods on concrete worlds.  The serializer prints
    compact JSON; the parser is the inverse of the printer on a table of
    known values, which is all a concrete run needs. *)

Definition stringOfZ (z : Z) : string := NilZero.string_of_int (Z.to_int z).

Definition doubleQuote : ascii := ascii_of_nat 34.
Definition backslash : ascii := ascii_of_nat 92.

Fixpoint escapeString (s : string) : string :=
  match s with
  | EmptyString => EmptyString
  | String c rest =>
      if Ascii.eqb c doubleQuote || Ascii.eqb c backslash
      then String backslash (String c (escapeString rest))
      else String c (escapeString rest)
  end.

Definition quoteString (s : string) : string :=
  (String doubleQuote (escapeString s) ++ String doubleQuote EmptyString)%string.

Fixpoint joinWith (sep : string) (l : list string) : string :=
  match l with
  | [] => EmptyString
  | [x] => x
  | x :: rest => (x ++ sep ++ joinWith sep rest)%string
  end.

Definition isUndefined (v : JsValue) : bool :=
  match v with JUndefined => true | _ => false end.

Fixpoint somes {A} (l : list (option A)) : list A :=
  match l with
  | [] => []
  | Some a :: rest => a :: somes rest
  | None :: rest => somes rest
  end.

Fixpoint sampleStringify (v : JsValue) : string :=
  match v with
  | JUndefined | JNull => "null"
  | JBool true => "true"
  | JBool false => "false"
  | JNum z => stringOfZ z
  | JStr s => quoteString s
  | JArr items => ("[" ++ joinWith "," (map sampleStringify items) ++ "]")%string
  | JObj fields =>
      (* a property whose value is undefined is not emitted *)
      ("{" ++ joinWith ","
                (somes (map (fun kv => let '(k, x) := kv in
                                       if isUndefined x then None
                                       else Some (quoteString k ++ ":" ++ sampleStringify x))
                            fields))
           ++ "}")%string
  end.

Definition opX (n : Z) : JsValue :=
  JObj [("type", JStr "op"); ("contents", JObj [("x", JNum n)])].

Definition emptyGroupedBatch : JsValue :=
  JObj [("type", JStr "groupedBatch"); ("contents", JArr [])].

Definition knownValues : list JsValue :=
  [opX 1; opX 2; opX 3; emptyGroupedBatch].

Definition generateBatchId (originalClientId : string) (csn : Z) : string :=
  (originalClientId ++ "_[" ++ stringOfZ csn ++ "]")%string.

Definition samplePlatform : Platform :=
  {| JSON_stringify := sampleStringify;
     JSON_parse := fun s => find (fun v => String.eqb (sampleStringify v) s) knownValues;
     uuid := fun n => ("uuid-" ++ indexKey n)%string;
     serializeOp := fun op =>
       sampleStringify (JObj [("type", op_type op); ("contents", op_contents op)]);
     getEffectiveBatchId := fun m =>
       match stampedBatchId (opMetadata m) with
       | Some id => id
       | None => generateBatchId (clientId (batchInfo m)) (batchStartCsn (batchInfo m))
       end;
     getEffectiveBatchIdOfBatchStart := fun bs =>
       match bs_batchId bs with
       | Some id => id
       | None => generateBatchId (bs_clientId bs) (bs_batchStartCsn bs)
       end;
     wrapIfUnrecognized := fun e codepath =>
       match e with
       | DataProcessingError _ _ => e
       | _ => WrappedError e codepath
       end |}.

(** A runtime that resubmits what it is handed: one flush of the same ops
    (a placeholder for an empty batch), not sent yet. *)
Definition emptyBatchPlaceholder (refSeq : Z) : LocalBatchMessage :=
  {| lbm_runtimeOp := {| op_type := JStr "groupedBatch"; op_contents := JArr [] |};
     lbm_referenceSequenceNumber := refSeq;
     lbm_localOpMetadata := LomEmptyBatch;
     lbm_metadata := None |}.

Definition sampleHandler : IRuntimeStateHandler :=
  {| applyStashedOp := fun s => Ok (LomData (JStr s));
     reSubmitBatch_flushes := fun ops metadata =>
       [{| fc_batch :=
             match ops with
             | [] => [emptyBatchPlaceholder 0]
             | _ => map (fun d => {| lbm_runtimeOp := rd_runtimeOp d;
                                     lbm_referenceSequenceNumber := 0;
                                     lbm_localOpMetadata := rd_localOpMetadata d;
                                     lbm_metadata := rd_opMetadata d |}) ops
             end;
           fc_clientSequenceNumber := None;
           fc_staged := rm_staged metadata;
           fc_ignoreBatchId := None |}] |}.

(** A runtime whose [reSubmitBatch] does not flush. *)
Definition quietHandler : IRuntimeStateHandler :=
  {| applyStashedOp := fun s => Ok LomUndefined;
     reSubmitBatch_flushes := fun _ _ => [] |}.

Definition emptyWorld : World :=
  {| pendingMessages := []; initialMessages := []; savedOps := [];
     clientIdFromLastReplay := None;
     h_connected := true; h_clientId := Some "client-A";
     h_isActiveConnection := true; h_isAttached := true;
     uuidCalls := 0; reSubmitted := []; appliedStashedOps := []; telemetry := [] |}.

Definition localOp (n : Z) (flag : option bool) : LocalBatchMessage :=
  {| lbm_runtimeOp := {| op_type := JStr "op"; op_contents := JObj [("x", JNum n)] |};
     lbm_referenceSequenceNumber := 10;
     lbm_localOpMetadata := LomData (JNum n);
     lbm_metadata := match flag with
                     | Some b => Some {| md_batch := Some b; md_batchId := None |}
                     | None => None
                     end |}.

Definition inboundOp (n : Z) (seqNum : Z) : InboundSequencedContainerRuntimeMessage :=
  {| im_type := "op"; im_contents := JObj [("x", JNum n)]; im_sequenceNumber := seqNum |}.

(** The world after running a method, whatever it returned. *)
Definition worldAfter {A} (m : M A) (w : World) : World := snd (m w).


(** *** Concrete worlds *)

Definition sentCall (csn : Z) (ops : list LocalBatchMessage) : FlushCall :=
  {| fc_batch := ops; fc_clientSequenceNumber := Some csn;
     fc_staged := false; fc_ignoreBatchId := None |}.

(** One single-op batch, then a batch of two ops. *)
Definition twoFlushes : list FlushCall :=
  [sentCall 1 [localOp 1 None];
   sentCall 2 [localOp 2 (Some true); localOp 3 (Some false)]].

Definition threeAcks : list InboundSequencedContainerRuntimeMessage :=
  [inboundOp 1 100; inboundOp 2 101; inboundOp 3 102].

(** The record [onFlushBatch] makes of [m] under the concrete platform,
    for a batch of [len] messages sent by client-A at [csn]. *)
Definition sentPending (csn : Z) (len : nat) (isStaged : bool) (m : LocalBatchMessage)
  : IPendingMessage :=
  {| referenceSequenceNumber := lbm_referenceSequenceNumber m;
     content := @serializeOp samplePlatform (lbm_runtimeOp m);
     runtimeOp := Some (lbm_runtimeOp m);
     localOpMetadata := lbm_localOpMetadata m;
     opMetadata := lbm_metadata m;
     sequenceNumber := None;
     batchInfo := {| clientId := "client-A"; batchStartCsn := csn;
                     batchLength := Z.of_nat len; ignoreBatchId := None;
                     staged := isStaged |} |}.

Definition withQueue (q : list IPendingMessage) : World := set_pendingMessages q emptyWorld.

(** A queue holding one op whose content is [{ x: 1 }]. *)
Definition oneOpWorld : World := withQueue [sentPending 1 1 false (localOp 1 None)].

(** A single op, a three-op batch and an empty-batch placeholder. *)
Definition mixedWorld : World :=
  withQueue [sentPending 1 1 false (localOp 1 None);
             sentPending 2 3 false (localOp 2 (Some true));
             sentPending 2 3 false (localOp 3 None);
             sentPending 2 3 false (localOp 4 (Some false));
             sentPending 5 1 false (emptyBatchPlaceholder 10)].

(** A batch start followed by one op and no batch end. *)
Definition unterminatedWorld : World :=
  withQueue [sentPending 1 2 false (localOp 1 (Some true));
             sentPending 1 2 false (localOp 2 None)].

(** [m1] not staged, then [m2] and [m3] staged. *)
Definition stagedWorld : World :=
  withQueue [sentPending 1 1 false (localOp 1 None);
             sentPending (-1) 1 true (localOp 2 None);
             sentPending (-1) 1 true (localOp 3 None)].

Definition stashed (refSeq : Z) (n : Z) : IPendingMessageFromStash :=
  {| referenceSequenceNumber := refSeq;
     content := sampleStringify (opX n);
     runtimeOp := None;
     localOpMetadata := LomUndefined;
     opMetadata := None;
     sequenceNumber := None;
     batchInfo := None |}.

(** Two stashed ops, at reference sequence numbers 5 and 7. *)
Definition stashWorld : World :=
  set_initialMessages [stashed 5 1; stashed 7 2] emptyWorld.

Definition remoteBatchStart (id : option string) (client : string) (csn : Z) : BatchStartInfo :=
  {| bs_batchId := id; bs_clientId := client; bs_batchStartCsn := csn;
     bs_keyMessage := {| km_sequenceNumber := 200 |} |}.

(** A pending batch whose stamped batch id is B1, and one whose batch id
    is to be ignored. *)
Definition stampedPending (ignore : option bool) : IPendingMessage :=
  {| referenceSequenceNumber := 10;
     content := sampleStringify (opX 1);
     runtimeOp := Some {| op_type := JStr "op"; op_contents := JObj [("x", JNum 1)] |};
     localOpMetadata := LomData (JNum 1);
     opMetadata := Some {| md_batch := None; md_batchId := Some "B1" |};
     sequenceNumber := None;
     batchInfo := {| clientId := "client-A"; batchStartCsn := 1; batchLength := 1;
                     ignoreBatchId := ignore; staged := false |} |}.

(** ** The rest of the manager: queries, local state, construction *)

(** [IPendingLocalState] *)
Record IPendingLocalState : Type := {
  pendingStates : list IPendingMessageFromStash;
}.

(** A pending message seen at the type of the stash schemas, of which
    [IPendingMessage] is one. *)
Definition asStashed (m : IPendingMessage) : IPendingMessageFromStash :=
  with_batchInfo (Some (batchInfo m)) m.

(** [LoggingError] of telemetry-utils extends [Error]; the model keeps
    its message. *)
Definition LoggingError (message : string) : Error := GenericError message.

(** What the module imports from [./containerRuntime.js]. *)
Class ContainerRuntime : Type := {
  isContainerMessageDirtyable : RuntimeOp -> bool;
}.

(** [new PendingStateManager(stateHandler, stashedLocalState, logger)] in
    the surroundings of [env]: empty queues, except that the stashed
    pending states, if any, fill the stash queue. *)
Definition newPendingStateManager (stashedLocalState : option IPendingLocalState)
    (env : World) : World :=
  {| pendingMessages := [];
     initialMessages := match stashedLocalState with
                        | Some s => pendingStates s
                        | None => []
                        end;
     savedOps := [];
     clientIdFromLastReplay := None;
     h_connected := h_connected env; h_clientId := h_clientId env;
     h_isActiveConnection := h_isActiveConnection env; h_isAttached := h_isAttached env;
     uuidCalls := uuidCalls env; reSubmitted := reSubmitted env;
     appliedStashedOps := appliedStashedOps env; telemetry := telemetry env |}.

(** [get pendingMessagesCount]: includes [pendingMessages] and
    [initialMessages]. *)
Definition pendingMessagesCount (w : World) : nat :=
  List.length (pendingMessages w) + List.length (initialMessages w).

(** [hasPendingMessages()] *)
Definition hasPendingMessages (w : World) : bool :=
  negb (Nat.eqb (pendingMessagesCount w) 0).

(** [get minimumPendingMessageSequenceNumber]:
    [this.pendingMessages.peekFront()?.referenceSequenceNumber] *)
Definition minimumPendingMessageSequenceNumber (w : World) : option Z :=
  option_map (@referenceSequenceNumber _) (hd_error (pendingMessages w)).

(** [array.filter(f)] with a callback that may throw. *)
Fixpoint filterM {A} (f : A -> M bool) (l : list A) : M (list A) :=
  match l with
  | [] => ret []
  | a :: rest =>
      keep <- f a ;;
      kept <- filterM f rest ;;
      ret (if keep : bool then a :: kept else kept)
  end.

Section Queries.

Context {containerRuntime : ContainerRuntime}.

(** The [for (let i = 0; i < this.pendingMessages.length; i++)] loop of
    [hasPendingUserChanges], from index [i], with [n] indices to go. *)
Fixpoint anyDirtyableFrom (q : list IPendingMessage) (i n : nat) : bool :=
  match n with
  | O => false
  | S n' =>
      match nth_error q i with
      | Some element =>
          match runtimeOp element with
          | Some op =>
              if hasTypicalRuntimeOp element && isContainerMessageDirtyable op
              then true
              else anyDirtyableFrom q (S i) n'
          | None => anyDirtyableFrom q (S i) n'
          end
      | None => anyDirtyableFrom q (S i) n'
      end
  end.

(** Checks the pending messages to see if any of them represent user
    changes; any initial message is taken to be one. *)
Definition hasPendingUserChanges (w : World) : bool :=
  if anyDirtyableFrom (pendingMessages w) 0 (List.length (pendingMessages w))
  then true
  else Nat.ltb 0 (List.length (initialMessages w)).

End Queries.

(** [getLocalState(snapshotSequenceNumber?)]: the saved ops newer than the
    snapshot, then the pending messages in serializable form. *)
Definition getLocalState (snapshotSequenceNumber : option Z) : M IPendingLocalState :=
  initial <- gets initialMessages ;;
  assert (isEmpty initial) "0x2e9" ;;
  saved <- gets savedOps ;;
  newSavedOps <-
    filterM (fun message =>
               match sequenceNumber message with
               | None => throw (AssertionError "0x97c")
               | Some n =>
                   ret (Z.ltb (match snapshotSequenceNumber with
                               | Some s => s
                               | None => 0%Z
                               end) n)
               end) saved ;;
  pending <- gets pendingMessages ;;
  forM_ (fun message =>
           if match snapshotSequenceNumber with
              | Some s => Z.ltb (referenceSequenceNumber message) s
              | None => false
              end
           then throw (LoggingError "trying to stash ops older than our latest snapshot")
           else ret tt) pending ;;
  ret {| pendingStates :=
           map asStashed newSavedOps ++ map (fun m => asStashed (toSerializableForm m)) pending |}.

(** *** More concrete worlds *)

(** A container runtime for which the ops of type [op] are dirtyable. *)
Definition sampleRuntime : ContainerRuntime :=
  {| isContainerMessageDirtyable := fun op => strictEq (op_type op) (JStr "op") |}.

(** The world after [twoFlushes], and after the ack of the first op. *)
Definition flushedWorld : World :=
  worldAfter (@forM_ FlushCall (@flush samplePlatform) twoFlushes) emptyWorld.

Definition ackedWorld : World :=
  worldAfter (@processNextPendingMessage samplePlatform 100 (Some (inboundOp 1 100)))
             flushedWorld.

(** A staged op, then one that is not staged, then a staged one. *)
Definition interleavedWorld : World :=
  withQueue [sentPending (-1) 1 true (localOp 1 None);
             sentPending 2 1 false (localOp 2 None);
             sentPending (-1) 1 true (localOp 3 None)].

(** A batch end with no batch start before it. *)
Definition chunkWorld : World :=
  withQueue [sentPending 1 2 false (localOp 1 (Some false))].

(** The surroundings of a container that is not attached. *)
Definition detachedWorld : World :=
  {| pendingMessages := []; initialMessages := []; savedOps := [];
     clientIdFromLastReplay := None;
     h_connected := false; h_clientId := None;
     h_isActiveConnection := false; h_isAttached := false;
     uuidCalls := 0; reSubmitted := []; appliedStashedOps := []; telemetry := [] |}.

(** Two stashed ops at reference sequence number 5, not attached. *)
Definition detachedStashWorld : World :=
  set_initialMessages [stashed 5 1; stashed 5 2] detachedWorld.
(** ** Properties *)

Unset Implicit Arguments.

Section Properties.

Context {platform : Platform} {stateHandler : IRuntimeStateHandler}.

(** *** Evaluation of the ack of the front message *)

Definition mismatchError : Error :=
  DataProcessingError "pending local message content mismatch" "unexpectedAckReceived".

(** A parsed value other than [null] (and [undefined], which [JSON.parse]
    never returns). *)
Definition isValue (v : JsValue) : bool :=
  match v with
  | JUndefined | JNull => false
  | _ => true
  end.

(** The world once the front message [pm] has been stamped, saved and
    shifted. *)
Definition acked (seqNum : Z) (pm : IPendingMessage) (rest : list IPendingMessage)
    (w : World) : World :=
  set_pendingMessages rest
    (set_savedOps (savedOps w ++ [toSerializableForm (with_sequenceNumber seqNum pm)]) w).


(** *** Fork detection, as the specification words it *)

(** A pending message takes part in batch-id comparison unless its
    [batchInfo.ignoreBatchId] is [true]. *)
Definition usesBatchId (m : IPendingMessage) : bool :=
  negb (option_eqb Bool.eqb (ignoreBatchId (batchInfo m)) (Some true)).

(** The inbound batch declares a batch start whose effective batch id is
    that of the first pending message that uses batch ids. *)
Definition forkedContainer (inbound : InboundMessageResult) (q : list IPendingMessage) : bool :=
  match inboundBatchStart inbound, find usesBatchId q with
  | Some bs, Some pm =>
      String.eqb (getEffectiveBatchId pm) (getEffectiveBatchIdOfBatchStart bs)
  | _, _ => false
  end.

Definition forkError : Error :=
  DataProcessingError "Forked Container Error! Matching batchIds but mismatched clientId"
                      "PendingStateManager.processInboundMessages".

(** *** What the manager's own methods leave alone *)

(** The handler's answers, the replay guard and the stash queue. *)
Definition environment (w : World) :=
  (h_connected w, h_clientId w, h_isActiveConnection w, h_isAttached w,
   clientIdFromLastReplay w, initialMessages w).

(** [m] never changes the environment, whether it returns or throws. *)
Definition keepsEnvironment {A} (m : M A) : Prop :=
  forall w, environment (snd (m w)) = environment w.

(** [replayPendingStates] is asked to commit staged batches. *)
Definition committing (options : option ReplayPendingStateOptions) : bool :=
  match options with
  | Some o => committingStagedBatches o
  | None => false
  end.

(** *** Stash rehydration *)

Definition tooRecentError : Error :=
  GenericError "loaded from snapshot too recent to apply stashed ops".

(** How a drain with a target ends: it returns with the stash queue empty
    or its front beyond the target; or it throws at a front below the
    target; or it throws what applying a dequeued message threw. *)
Definition drainEnds (target : Z) (dequeued : list IPendingMessageFromStash)
    (r : Outcome unit) (w' : World) : Prop :=
  (r = Ok tt /\
   match initialMessages w' with
   | [] => True
   | m :: _ => (target < referenceSequenceNumber m)%Z
   end) \/
  (r = Throw tooRecentError /\
   exists m rest, initialMessages w' = m :: rest /\
                  (referenceSequenceNumber m < target)%Z) \/
  (exists e, r = Throw (wrapIfUnrecognized e "applyStashedOp") /\ dequeued <> []).

(** *** Flushing and acking, summarised *)

(** The pending message that [onFlushBatch] pushes for [m]. *)
Definition pendingOf (cid : string) (csn : Z) (len : nat) (isStaged : bool)
    (ignore : option bool) (m : LocalBatchMessage) : IPendingMessage :=
  {| referenceSequenceNumber := lbm_referenceSequenceNumber m;
     content := serializeOp (lbm_runtimeOp m);
     runtimeOp := Some (lbm_runtimeOp m);
     localOpMetadata := lbm_localOpMetadata m;
     opMetadata := lbm_metadata m;
     sequenceNumber := None;
     batchInfo := {| clientId := cid; batchStartCsn := csn; batchLength := Z.of_nat len;
                     ignoreBatchId := ignore; staged := isStaged |} |}.

(** [pm] is the pending record of the flushed message [m]. *)
Definition tracks (m : LocalBatchMessage) (pm : IPendingMessage) : Prop :=
  referenceSequenceNumber pm = lbm_referenceSequenceNumber m /\
  content pm = serializeOp (lbm_runtimeOp m) /\
  runtimeOp pm = Some (lbm_runtimeOp m) /\
  localOpMetadata pm = lbm_localOpMetadata m /\
  opMetadata pm = lbm_metadata m.

(** Acks processed one after the other, each with its inbound message. *)
Definition processAcks (acks : list InboundSequencedContainerRuntimeMessage)
  : M (list LocalOpMetadata) :=
  mapM (fun m => processNextPendingMessage (im_sequenceNumber m) (Some m)) acks.

(** *** Replay, summarised *)

(** The resubmit data of a flushed message. *)
Definition resubmitDataOf (m : LocalBatchMessage) : PendingMessageResubmitData :=
  {| rd_runtimeOp := lbm_runtimeOp m;
     rd_localOpMetadata := lbm_localOpMetadata m;
     rd_opMetadata := lbm_metadata m |}.

(** [m.runtimeOp.type !== "groupedBatch"] for a flushed message. *)
Definition typicalOp (m : LocalBatchMessage) : bool :=
  negb (strictEq (op_type (lbm_runtimeOp m)) (JStr "groupedBatch")).

Definition squashing (options : option ReplayPendingStateOptions) : bool :=
  match options with
  | Some o => squash o
  | None => false
  end.

(** The assertions that reject a batch start without its batch end. *)
Definition unterminatedBatchCodes : list string :=
  ["0x554"; "0x555"; "0x556"; "0xb87"; "0xb88"].

(** The metadata [replayPendingStates] hands to the sink for the batch
    led by [pm]. *)
Definition resubmitMetadata (squashing : bool) (pm : IPendingMessage)
  : PendingBatchResubmitMetadata :=
  {| rm_batchId := match ignoreBatchId (batchInfo pm) with
                   | Some true => None
                   | _ => Some (getEffectiveBatchId pm)
                   end;
     rm_staged := staged (batchInfo pm);
     rm_squash := squashing |}.

(** What [replayPendingStates] does once its loop is over. *)
Definition replayEpilogue (initialPendingMessagesCount : nat) : M unit :=
  bind (modify (set_savedOps [])) (fun _ =>
  bind (gets h_isActiveConnection) (fun active =>
    if active : bool then
      bind (gets h_clientId) (fun current =>
        sendEvent false "PendingStatesReplayed"
          [("count", JNum (Z.of_nat initialPendingMessagesCount));
           ("clientId", jsOfOption JStr current)])
    else ret tt)).

(** *** Counting what a replay consumes *)

Fixpoint takeWhile {A} (p : A -> bool) (l : list A) : list A :=
  match l with
  | [] => []
  | a :: rest => if p a then a :: takeWhile p rest else []
  end.

Definition notStaged (m : IPendingMessage) : bool := negb (staged (batchInfo m)).

(** The messages a replay pushes back unchanged: when committing staged
    batches, the pre-staging messages at the front of the queue. *)
Definition requeued (committingStaged : bool) (q : list IPendingMessage)
  : list IPendingMessage :=
  if committingStaged then takeWhile notStaged q else [].

(** How many pending messages one call of the sink stands for: one for an
    empty batch, else the size of the batch. *)
Definition consumed
    (call : list PendingMessageResubmitData * PendingBatchResubmitMetadata) : nat :=
  Nat.max 1 (List.length (fst call)).

(** The messages the runtime flushes, re-entrantly, in answer to [calls]. *)
Definition flushedBy
    (calls : list (list PendingMessageResubmitData * PendingBatchResubmitMetadata))
  : list LocalBatchMessage :=
  concat (map (fun call => concat (map fc_batch (reSubmitBatch_flushes (fst call) (snd call))))
              calls).

(** *** Outcomes of the modelled loops *)

(** A method ended by returning or by a failed assertion: in particular
    not by running out of the model's fuel, nor by reading a property of
    an [undefined] shifted from an empty queue. *)
Definition returnsOrAsserts {A} (r : Outcome A) : Prop :=
  match r with
  | Ok _ => True
  | Throw (AssertionError _) => True
  | Throw _ => False
  end.

(** ** More properties of the module *)

(** *** Diagnostics *)

(** The names [typeof] can give for a parsed value. *)
Definition typeNames : list string :=
  ["undefined"; "object"; "boolean"; "number"; "string"].

(** A character as [findFirstCharacterMismatched] may report it: absent,
    one ASCII character, or the non-ASCII marker. *)
Definition scrubbedChar (v : JsValue) : Prop :=
  v = JUndefined \/
  (exists c, v = JStr (String c EmptyString) /\ nat_of_ascii c <= 127) \/
  v = JStr "[non-ASCII]".

(** *** Frames *)

(** [m] never changes what [f] reads of the world, whether it returns or
    throws. *)
Definition preserves {A B} (f : World -> B) (m : M A) : Prop :=
  forall w, f (snd (m w)) = f w.

(** [f] reads nothing of the pending queue, of the uuid counter or of the
    resubmission log. *)
Definition besideQueue {B} (f : World -> B) : Prop :=
  (forall q w, f (set_pendingMessages q w) = f w) /\
  (forall n w, f (set_uuidCalls n w) = f w) /\
  (forall l w, f (set_reSubmitted l w) = f w).

(** The event [replayPendingStates] logs on an active connection. *)
Definition replayedEvent (count : nat) (current : option string) : TelemetryEvent :=
  {| ev_error := false; eventName := "PendingStatesReplayed";
     details := [("count", JNum (Z.of_nat count)); ("clientId", jsOfOption JStr current)] |}.

(** *** Acks of local batches *)


(** *** Local state *)

(** [message.sequenceNumber > (snapshotSequenceNumber ?? 0)] *)
Definition newerThan (snapshot : option Z) (m : IPendingMessage) : bool :=
  match sequenceNumber m with
  | Some n => Z.ltb (match snapshot with Some s => s | None => 0%Z end) n
  | None => false
  end.

(** [snapshotSequenceNumber !== undefined &&
     message.referenceSequenceNumber < snapshotSequenceNumber] *)
Definition olderThan (snapshot : option Z) (m : IPendingMessage) : bool :=
  match snapshot with
  | Some s => Z.ltb (referenceSequenceNumber m) s
  | None => false
  end.

Definition staleError : Error :=
  LoggingError "trying to stash ops older than our latest snapshot".

(** A record that can be serialized: it has neither a runtime op nor a
    localOpMetadata. *)
Definition serializable {BI} (m : PendingMessageOf BI) : Prop :=
  runtimeOp m = None /\ localOpMetadata m = LomUndefined.



(** A stashed record and the serializable form of the pending message it
    was taken from. *)
Definition stashedFrom (pm : IPendingMessage) (m : IPendingMessageFromStash) : Prop :=
  referenceSequenceNumber m = referenceSequenceNumber pm /\
  content m = content pm /\
  opMetadata m = opMetadata pm /\
  sequenceNumber m = sequenceNumber pm /\
  batchInfo m = Some (batchInfo pm) /\
  serializable m.

(** *** Lifetimes *)





(** *** Rehydrating the stash *)

(** The batch info given to a stashed record that pre-dates batch info. *)
Definition legacyBatchInfo (u : string) : BatchInfo :=
  {| clientId := u; batchStartCsn := (-1)%Z; batchLength := (-1)%Z;
     ignoreBatchId := None; staged := false |}.

(** A stashed message that can be applied: it is an empty batch, or the
    handler applies its content. *)
Definition applicable (m : IPendingMessageFromStash) : Prop :=
  isEmptyBatchPendingMessage m = Ok true \/
  (isEmptyBatchPendingMessage m = Ok false /\ exists l, applyStashedOp (content m) = Ok l).

(** The stashed message is not held back by the target sequence number. *)
Definition atTarget (seqNum : option Z) (m : IPendingMessageFromStash) : Prop :=
  match seqNum with
  | Some target => referenceSequenceNumber m = target
  | None => True
  end.

(** The pending message an attached manager makes of the stashed message
    [m]. *)
Definition rehydrated (m : IPendingMessageFromStash) (pm : IPendingMessage) : Prop :=
  referenceSequenceNumber pm = referenceSequenceNumber m /\
  content pm = content m /\
  opMetadata pm = opMetadata m /\
  sequenceNumber pm = sequenceNumber m /\
  match batchInfo m with
  | Some bi => batchInfo pm = bi
  | None => exists n, batchInfo pm = legacyBatchInfo (uuid n)
  end /\
  match isEmptyBatchPendingMessage m with
  | Ok true => localOpMetadata pm = LomEmptyBatch /\ runtimeOp pm = runtimeOp m
  | Ok false =>
      applyStashedOp (content m) = Ok (localOpMetadata pm) /\
      exists parsed t c,
        JSON_parse (content m) = Some parsed /\
        getProp parsed "type" = Some t /\ getProp parsed "contents" = Some c /\
        runtimeOp pm = Some {| op_type := t; op_contents := c |}
  | Throw _ => False
  end.

(** The contents handed to [applyStashedOp] for the stashed messages [l]:
    those of the messages that are not empty batches. *)
Definition appliedContents (l : list IPendingMessageFromStash) : list string :=
  map (@content _)
      (filter (fun m => match isEmptyBatchPendingMessage m with
                        | Ok false => true
                        | _ => false
                        end) l).

Definition detachedMetadataError : Error :=
  GenericError "Local Op Metadata must be undefined when not attached".

(** *** User changes *)

Context {containerRuntime : ContainerRuntime}.

(** A pending message that counts as a user change: it has a typical
    runtime op, which the container runtime deems dirtyable. *)
Definition dirtyable (m : IPendingMessage) : bool :=
  hasTypicalRuntimeOp m &&
  match runtimeOp m with
  | Some op => isContainerMessageDirtyable op
  | None => false
  end.

(** The stashed messages handed to the constructor. *)
Definition stashOf (stashedLocalState : option IPendingLocalState)
  : list IPendingMessageFromStash :=
  match stashedLocalState with
  | Some s => pendingStates s
  | None => []
  end.

(** *** Stash round trip *)

(** The rehydrated message [pm] stands for the message [pm0] of the
    manager whose local state was taken. *)
Definition restores (pm0 pm : IPendingMessage) : Prop :=
  referenceSequenceNumber pm = referenceSequenceNumber pm0 /\
  content pm = content pm0 /\
  opMetadata pm = opMetadata pm0 /\
  sequenceNumber pm = sequenceNumber pm0 /\
  batchInfo pm = batchInfo pm0.

(** *** Replays that fail half way *)

(** The pending message as [replayPendingStates] submits it when
    committing staged batches: its staged flag cleared. *)
Definition unstaged (m : IPendingMessage) : IPendingMessage :=
  with_batchInfo (with_staged false (batchInfo m)) m.

(** The batch handed to the sink for a pending message that is a batch
    of its own: nothing for an empty batch, else its resubmit data. *)
Definition batchOfOne (m : IPendingMessage) : option (list PendingMessageResubmitData) :=
  if isEmptyBatchMarker (localOpMetadata m) then Some []
  else option_map (fun d => [d]) (resubmitData m).
Lemma processNextPendingMessage_nil seqNum msg w :
  pendingMessages w = [] ->
  processNextPendingMessage seqNum msg w = (Throw (AssertionError "0x169"), w).
Proof.
  intros Hq. unfold processNextPendingMessage, bind, peekFront, gets.
  rewrite Hq. reflexivity.
Qed.

Lemma processNextPendingMessage_cons seqNum msg w pm rest :
  pendingMessages w = pm :: rest ->
  processNextPendingMessage seqNum msg w =
    match msg with
    | None => (Ok (localOpMetadata pm), acked seqNum pm rest w)
    | Some m =>
        if String.eqb (content pm) (buildPendingMessageContent m)
        then (Ok (localOpMetadata pm), acked seqNum pm rest w)
        else match mismatchDetails (content pm) (buildPendingMessageContent m) with
             | Ok d =>
                 (Throw mismatchError,
                  set_telemetry
                    (telemetry w ++ [{| ev_error := true;
                                        eventName := "unexpectedAckReceived";
                                        details := d |}])
                    (acked seqNum pm rest w))
             | Throw e => (Throw e, acked seqNum pm rest w)
             end
    end.
Proof.
  intros Hq.
  unfold processNextPendingMessage, bind, peekFront, gets, modify, shift, acked.
  rewrite Hq. cbn [hd_error pendingMessages set_savedOps]. rewrite Hq.
  destruct msg as [m|]; [|reflexivity].
  cbn [with_sequenceNumber content localOpMetadata].
  destruct (String.eqb (content pm) (buildPendingMessageContent m)); cbn [negb].
  - reflexivity.
  - unfold liftOutcome, sendEvent, modify, throw.
    destruct (mismatchDetails (content pm) (buildPendingMessageContent m)); reflexivity.
Qed.

Lemma typesOfKeys_truthy c : falsy c = false -> exists fs, typesOfKeys c = Some fs.
Proof.
  unfold typesOfKeys. destruct c; cbn; try discriminate; intros _; eauto.
Qed.

Lemma scrubAndStringify_value v :
  isValue v = true -> exists s, scrubAndStringify v = Some s.
Proof.
  intros Hv. unfold scrubAndStringify.
  assert (Hkeys : exists fs, typesOfKeys v = Some fs)
    by (unfold typesOfKeys; destruct v; try discriminate; cbn; eauto).
  assert (Hc : exists c, getProp v "contents" = Some c)
    by (destruct v; try discriminate; cbn; eauto).
  assert (Ht : exists t, getProp v "type" = Some t)
    by (destruct v; try discriminate; cbn; eauto).
  destruct Hkeys as [fs ->]. destruct Hc as [c ->]. destruct Ht as [t ->].
  destruct (falsy c) eqn:Hf.
  - eauto.
  - destruct (typesOfKeys_truthy _ Hf) as [cs ->]. cbn. eauto.
Qed.

(** The diagnostics never throw on contents that parse to a value other
    than [null]. *)
Lemma mismatchDetails_values a b pv mv :
  JSON_parse a = Some pv -> isValue pv = true ->
  JSON_parse b = Some mv -> isValue mv = true ->
  exists d, mismatchDetails a b = Ok d.
Proof.
  intros Ha Hpv Hb Hmv. unfold mismatchDetails.
  destruct (findFirstCharacterMismatched a b) as [[i ca] cb].
  rewrite Ha, Hb.
  assert (Hpc : exists c, getProp pv "contents" = Some c)
    by (destruct pv; try discriminate; cbn; eauto).
  assert (Hmc : exists c, getProp mv "contents" = Some c)
    by (destruct mv; try discriminate; cbn; eauto).
  destruct Hpc as [pc ->]. destruct Hmc as [mc ->].
  destruct (scrubAndStringify_value pv Hpv) as [ps ->].
  destruct (scrubAndStringify_value mv Hmv) as [ms ->].
  eauto.
Qed.

(** C10. Whenever [processNextPendingMessage] throws the content-mismatch
    data-processing error, a front message existed and, in the world left
    by the throw, it has been removed from the pending queue and its
    serializable form, stamped with the inbound sequence number, is the
    last of the saved ops: the dequeue is not rolled back. *)
Theorem C10_mismatch_leaves_message_dequeued seqNum msg w w' :
  processNextPendingMessage seqNum msg w = (Throw mismatchError, w') ->
  exists pm rest,
    pendingMessages w = pm :: rest /\
    pendingMessages w' = rest /\
    savedOps w' = savedOps w ++ [toSerializableForm (with_sequenceNumber seqNum pm)] /\
    sequenceNumber (toSerializableForm (with_sequenceNumber seqNum pm)) = Some seqNum /\
    exists m, msg = Some m /\ content pm <> buildPendingMessageContent m.
Proof.
  intros Hrun.
  destruct (pendingMessages w) as [|pm rest] eqn:Hq.
  - rewrite (processNextPendingMessage_nil _ _ _ Hq) in Hrun. discriminate.
  - exists pm, rest. split; [reflexivity|].
    rewrite (processNextPendingMessage_cons _ _ _ _ _ Hq) in Hrun.
    destruct msg as [m|]; [|discriminate].
    destruct (String.eqb (content pm) (buildPendingMessageContent m)) eqn:Heq;
      [discriminate|].
    apply String.eqb_neq in Heq.
    destruct (mismatchDetails (content pm) (buildPendingMessageContent m)) as [d|e];
      inversion Hrun; subst; cbn; repeat split; eauto.
Qed.

(** C2. When the re-serialization of a locally originated inbound message
    differs from the stored content of the front pending message,
    [processNextPendingMessage] throws; and when both strings are
    serialized JSON, parsing to a value other than [null], what it throws
    is the content-mismatch data-processing error, after an
    [unexpectedAckReceived] error event has been logged. *)
Theorem C2_content_mismatch_detection seqNum m w pm rest :
  pendingMessages w = pm :: rest ->
  content pm <> buildPendingMessageContent m ->
  (exists e w', processNextPendingMessage seqNum (Some m) w = (Throw e, w')) /\
  (forall pv mv,
      JSON_parse (content pm) = Some pv -> isValue pv = true ->
      JSON_parse (buildPendingMessageContent m) = Some mv -> isValue mv = true ->
      exists d w',
        processNextPendingMessage seqNum (Some m) w = (Throw mismatchError, w') /\
        telemetry w' =
          telemetry w ++ [{| ev_error := true; eventName := "unexpectedAckReceived";
                             details := d |}]).
Proof.
  intros Hq Hne.
  rewrite (processNextPendingMessage_cons _ _ _ _ _ Hq).
  apply String.eqb_neq in Hne. rewrite Hne.
  split.
  - destruct (mismatchDetails (content pm) (buildPendingMessageContent m)); eauto.
  - intros pv mv Hp Hpv Hm Hmv.
    destruct (mismatchDetails_values _ _ _ _ Hp Hpv Hm Hmv) as [d ->].
    eexists _, _. split; reflexivity.
Qed.

(** *** Remote batches *)

Lemma find_ext_in {A} (f g : A -> bool) (l : list A) :
  (forall x, In x l -> f x = g x) -> find f l = find g l.
Proof.
  induction l as [|a l IH]; intros H; cbn; [reflexivity|].
  rewrite (H a (or_introl eq_refl)). rewrite IH; [reflexivity|].
  intros x Hx. apply H. now right.
Qed.

(** Searching the indices of the deque finds what searching the deque
    does. *)
Lemma findIndex_find {A} (p : A -> bool) (q : list A) (k : nat) :
  match find (fun i => match nth_error q (i - k) with
                       | Some m => p m
                       | None => true
                       end) (seq k (List.length q)) with
  | None => None
  | Some i => nth_error q (i - k)
  end = find p q.
Proof.
  revert k. induction q as [|a q IH]; intros k; cbn [List.length seq find]; [reflexivity|].
  rewrite Nat.sub_diag. cbn [nth_error].
  destruct (p a) eqn:Hpa.
  - rewrite Nat.sub_diag. reflexivity.
  - rewrite <- (IH (S k)).
    rewrite (find_ext_in
               (fun i => match nth_error (a :: q) (i - k) with
                         | Some m => p m | None => true end)
               (fun i => match nth_error q (i - S k) with
                         | Some m => p m | None => true end)).
    + destruct (find _ (seq (S k) (List.length q))) as [i|] eqn:Hfind; [|reflexivity].
      apply find_some in Hfind. destruct Hfind as [Hin _].
      apply in_seq in Hin.
      replace (i - k) with (S (i - S k)) by lia. reflexivity.
    + intros i Hin. apply in_seq in Hin.
      replace (i - k) with (S (i - S k)) by lia. reflexivity.
Qed.

Lemma remoteBatchMatchesPendingBatch_find bs w :
  remoteBatchMatchesPendingBatch bs w =
    (Ok match find usesBatchId (pendingMessages w) with
        | Some pm => String.eqb (getEffectiveBatchId pm) (getEffectiveBatchIdOfBatchStart bs)
        | None => false
        end, w).
Proof.
  unfold remoteBatchMatchesPendingBatch, bind, gets, findIndex.
  pose proof (findIndex_find usesBatchId (pendingMessages w) 0) as H.
  unfold usesBatchId in *.
  rewrite (find_ext_in _
             (fun i => match nth_error (pendingMessages w) (i - 0) with
                       | Some m => negb (option_eqb Bool.eqb (ignoreBatchId (batchInfo m))
                                                    (Some true))
                       | None => true
                       end)) by (intros i _; now rewrite Nat.sub_0_r).
  destruct (find _ (seq 0 _)) as [i|] eqn:Hi.
  - rewrite Nat.sub_0_r in H. rewrite H.
    destruct (find _ (pendingMessages w)); reflexivity.
  - rewrite <- H. reflexivity.
Qed.

(** C3. An inbound batch that is not local throws the forked-container
    data-processing error exactly when it declares a batch start whose
    effective batch id equals that of the first pending message whose
    [ignoreBatchId] is not [true]; otherwise its messages are returned,
    none with a localOpMetadata; either way the world is untouched. *)
Theorem C3_fork_detection inbound w :
  processInboundMessages inbound false w =
    if forkedContainer inbound (pendingMessages w)
    then (Throw forkError, w)
    else (Ok (map (fun m => {| pr_message := m; pr_localOpMetadata := None |})
                  (inboundMessages inbound)), w).
Proof.
  unfold processInboundMessages, forkedContainer, bind.
  destruct (inboundBatchStart inbound) as [bs|].
  - rewrite remoteBatchMatchesPendingBatch_find.
    destruct (find usesBatchId (pendingMessages w)) as [pm|]; [|reflexivity].
    destruct (String.eqb _ _); reflexivity.
  - reflexivity.
Qed.

(** *** Frame lemmas *)

Lemma keeps_ret {A} (a : A) : keepsEnvironment (ret a).
Proof. intros w. reflexivity. Qed.

Lemma keeps_throw {A} e : keepsEnvironment (@throw A e).
Proof. intros w. reflexivity. Qed.

Lemma keeps_bind {A B} (m : M A) (k : A -> M B) :
  keepsEnvironment m -> (forall a, keepsEnvironment (k a)) -> keepsEnvironment (bind m k).
Proof.
  intros Hm Hk w. unfold bind. specialize (Hm w).
  destruct (m w) as [[a|e] w1]; cbn in *.
  - rewrite Hk. exact Hm.
  - exact Hm.
Qed.

Lemma keeps_assert c code : keepsEnvironment (assert c code).
Proof. destruct c; intros w; reflexivity. Qed.

Lemma keeps_gets {A} (f : World -> A) : keepsEnvironment (gets f).
Proof. intros w. reflexivity. Qed.

Lemma keeps_shift : keepsEnvironment shift.
Proof. intros w. unfold shift. destruct (pendingMessages w); reflexivity. Qed.

Lemma keeps_push m : keepsEnvironment (push m).
Proof. intros w. reflexivity. Qed.

Lemma keeps_callUuid : keepsEnvironment callUuid.
Proof. intros w. reflexivity. Qed.

Lemma keeps_forM_ {A} (f : A -> M unit) l :
  (forall a, keepsEnvironment (f a)) -> keepsEnvironment (forM_ f l).
Proof.
  intros Hf. induction l as [|a l IH]; cbn [forM_].
  - apply keeps_ret.
  - apply keeps_bind; auto.
Qed.

Lemma keeps_onFlushBatch b csn st ign : keepsEnvironment (onFlushBatch b csn st ign).
Proof.
  unfold onFlushBatch.
  apply keeps_bind.
  { destruct (isSome csn); [apply keeps_assert | apply keeps_ret]. }
  intros _. apply keeps_bind.
  { destruct csn.
    - apply keeps_bind; [apply keeps_gets | intros; apply keeps_ret].
    - apply keeps_bind; [apply keeps_callUuid | intros; apply keeps_ret]. }
  intros ids. destruct (fst ids).
  - apply keeps_forM_. intros. apply keeps_push.
  - apply keeps_throw.
Qed.

Lemma keeps_reSubmitBatch b md : keepsEnvironment (reSubmitBatch b md).
Proof.
  unfold reSubmitBatch. apply keeps_bind.
  - intros w. reflexivity.
  - intros _. apply keeps_forM_. intros c. apply keeps_onFlushBatch.
Qed.

Lemma keeps_collectBatch n pm acc : keepsEnvironment (collectBatch n pm acc).
Proof.
  revert pm acc. induction n as [|n IH]; intros pm acc; cbn [collectBatch];
    destruct (resubmitData pm); try apply keeps_throw;
    destruct (option_eqb _ _ _); try apply keeps_ret; try apply keeps_throw.
  apply keeps_bind; [apply keeps_shift|].
  intros [next|]; [|apply keeps_throw].
  apply keeps_bind; [apply keeps_assert|]. intros _. apply IH.
Qed.

Lemma keeps_replayLoop c sq fuel n seen : keepsEnvironment (replayLoop c sq fuel n seen).
Proof.
  revert n seen. induction fuel as [|fuel IH]; intros n seen;
    destruct n as [|n]; cbn [replayLoop]; try apply keeps_ret; try apply keeps_throw.
  apply keeps_bind; [apply keeps_shift|].
  intros [pm|]; [|apply keeps_throw].
  destruct (c && negb (staged (batchInfo pm))).
  { apply keeps_bind; [apply keeps_assert|]. intros _.
    apply keeps_bind; [apply keeps_push|]. intros _. apply IH. }
  apply keeps_bind; [apply keeps_assert|]. intros _.
  destruct (isEmptyBatchMarker _).
  { apply keeps_bind; [apply keeps_reSubmitBatch|]. intros _. apply IH. }
  destruct (resubmitData _); [|apply keeps_throw].
  destruct (batchFlag _).
  - apply keeps_bind; [apply keeps_assert|]. intros _.
    apply keeps_bind; [apply keeps_collectBatch|]. intros r.
    apply keeps_bind; [apply keeps_reSubmitBatch|]. intros _. apply IH.
  - apply keeps_bind; [apply keeps_reSubmitBatch|]. intros _. apply IH.
Qed.

(** *** Stepping a method *)

Lemma bind_gets {A B} (f : World -> A) (k : A -> M B) w : bind (gets f) k w = k (f w) w.
Proof. reflexivity. Qed.

Lemma bind_modify {B} (f : World -> World) (k : unit -> M B) w :
  bind (modify f) k w = k tt (f w).
Proof. reflexivity. Qed.

Lemma bind_ret {A B} (a : A) (k : A -> M B) w : bind (ret a) k w = k a w.
Proof. reflexivity. Qed.

Lemma bind_throw {A B} e (k : A -> M B) w : bind (throw e) k w = (Throw e, w).
Proof. reflexivity. Qed.

Lemma bind_assert_true {B} code (k : unit -> M B) w : bind (assert true code) k w = k tt w.
Proof. reflexivity. Qed.

Lemma bind_assert_false {B} code (k : unit -> M B) w :
  bind (assert false code) k w = (Throw (AssertionError code), w).
Proof. reflexivity. Qed.

Lemma bind_bind {A B C} (m : M A) (k : A -> M B) (h : B -> M C) w :
  bind (bind m k) h w = bind m (fun a => bind (k a) h) w.
Proof. unfold bind. destruct (m w) as [[a|e] w1]; reflexivity. Qed.

(** *** The replay guard *)

Lemma environment_eq a b :
  environment a = environment b ->
  h_connected a = h_connected b /\ h_clientId a = h_clientId b /\
  h_isActiveConnection a = h_isActiveConnection b /\ h_isAttached a = h_isAttached b /\
  clientIdFromLastReplay a = clientIdFromLastReplay b /\
  initialMessages a = initialMessages b.
Proof. unfold environment. intros H. injection H as H1 H2 H3 H4 H5 H6. auto 10. Qed.

Lemma option_eqb_string_refl (a : option string) : option_eqb String.eqb a a = true.
Proof. destruct a; cbn; [apply String.eqb_refl | reflexivity]. Qed.

Local Ltac replay_tail_keeps :=
  apply keeps_bind; [apply keeps_gets|]; intros ?;
  apply keeps_bind; [apply keeps_assert|]; intros _;
  apply keeps_bind; [apply keeps_gets|]; intros ?;
  apply keeps_bind; [apply keeps_replayLoop|]; intros _;
  apply keeps_bind; [intros ?; reflexivity|]; intros _;
  apply keeps_bind; [apply keeps_gets|]; intros [|]; [|apply keeps_ret];
  apply keeps_bind; [apply keeps_gets|]; intros ? ?; reflexivity.

(** After [replayPendingStates], however it ended: the handler answers as
    before, and if the connection was up the guard holds the handler's
    client id. *)
Lemma replayPendingStates_arms_guard options w :
  let w1 := worldAfter (replayPendingStates options) w in
  h_connected w1 = h_connected w /\
  h_clientId w1 = h_clientId w /\
  (h_connected w = true ->
   option_eqb String.eqb (clientIdFromLastReplay w1) (h_clientId w) = true).
Proof.
  unfold worldAfter, replayPendingStates.
  set (opts := match options with Some o => o | None => defaultReplayPendingStatesOptions end).
  rewrite bind_gets.
  destruct (h_connected w || committingStagedBatches opts) eqn:H172.
  2:{ rewrite bind_assert_false. cbn [snd].
      apply orb_false_iff in H172. destruct H172 as [-> _].
      repeat split; discriminate. }
  rewrite bind_assert_true.
  assert (Htail : forall (rest : M unit),
             keepsEnvironment rest ->
             let w1 := snd (bind (gets h_clientId)
                                 (fun current =>
                                    bind (modify (set_clientIdFromLastReplay current))
                                         (fun _ => rest)) w) in
             h_connected w1 = h_connected w /\ h_clientId w1 = h_clientId w /\
             (h_connected w = true ->
              option_eqb String.eqb (clientIdFromLastReplay w1) (h_clientId w) = true)).
  { intros rest Hrest. rewrite bind_gets, bind_modify.
    specialize (Hrest (set_clientIdFromLastReplay (h_clientId w) w)).
    apply environment_eq in Hrest. cbn in Hrest.
    destruct Hrest as (H1 & H2 & _ & _ & H5 & _).
    cbv beta zeta. rewrite H1, H2, H5. repeat split. intros _. apply option_eqb_string_refl. }
  destruct (committingStagedBatches opts) eqn:Hcommit; cbn [negb].
  - rewrite bind_ret. apply Htail. replay_tail_keeps.
  - rewrite bind_bind, bind_gets, bind_bind, bind_gets.
    destruct (option_eqb String.eqb (clientIdFromLastReplay w) (h_clientId w)) eqn:Hsame;
      cbn [negb].
    + rewrite bind_assert_false. cbn [snd]. repeat split. intros _. exact Hsame.
    + rewrite bind_assert_true. apply Htail. replay_tail_keeps.
Qed.

(** C6. Calling [replayPendingStates] twice in succession, the second
    time without [committingStagedBatches], fails the second call with an
    assertion and leaves the world as the first call left it: 0x173,
    "replayPendingStates called twice for same clientId!", when the
    connection is up, and 0x172 when it is not. *)
Theorem C6_replay_twice_same_clientId options1 options2 w :
  committing options2 = false ->
  let w1 := worldAfter (replayPendingStates options1) w in
  exists code,
    replayPendingStates options2 w1 = (Throw (AssertionError code), w1) /\
    (code = "0x172" \/ code = "0x173") /\
    (h_connected w = true -> code = "0x173").
Proof.
  intros Hnot w1.
  destruct (replayPendingStates_arms_guard options1 w) as (Hconn & Hcid & Hguard).
  fold w1 in Hconn, Hcid, Hguard.
  unfold replayPendingStates. cbv zeta.
  assert (Hopts : committingStagedBatches
                    match options2 with
                    | Some o => o
                    | None => defaultReplayPendingStatesOptions
                    end = false) by (destruct options2; [exact Hnot | reflexivity]).
  rewrite Hopts, bind_gets, orb_false_r. cbn [negb].
  destruct (h_connected w) eqn:Hc; rewrite Hconn.
  - exists "0x173". rewrite bind_assert_true, bind_bind, bind_gets, bind_bind, bind_gets.
    rewrite Hcid, (Hguard eq_refl). cbn [negb]. rewrite bind_assert_false.
    repeat split; auto.
  - exists "0x172". rewrite bind_assert_false. repeat split; auto. discriminate.
Qed.

(** *** Stash rehydration *)

Lemma keeps_liftOutcome {A} (o : Outcome A) : keepsEnvironment (liftOutcome o).
Proof. intros w. reflexivity. Qed.

Lemma keeps_patchbatchInfo m : keepsEnvironment (patchbatchInfo m).
Proof.
  unfold patchbatchInfo. destruct (batchInfo m).
  - apply keeps_ret.
  - apply keeps_bind; [apply keeps_callUuid | intros; apply keeps_ret].
Qed.

Lemma keeps_applyStashedMessage m : keepsEnvironment (applyStashedMessage m).
Proof.
  unfold applyStashedMessage.
  apply keeps_bind; [apply keeps_liftOutcome|]. intros [|].
  - apply keeps_bind; [apply keeps_patchbatchInfo | intros; apply keeps_push].
  - apply keeps_bind.
    { unfold callApplyStashedOp. apply keeps_bind; [intros w; reflexivity|].
      intros _. apply keeps_liftOutcome. }
    intros lom. apply keeps_bind; [apply keeps_gets|]. intros [|].
    + destruct (JSON_parse _); [|apply keeps_throw].
      destruct (getProp _ _); [|apply keeps_throw].
      destruct (getProp _ _); [|apply keeps_throw].
      apply keeps_bind; [apply keeps_patchbatchInfo | intros; apply keeps_push].
    + destruct lom; try apply keeps_throw. apply keeps_ret.
Qed.

(** A method that appends [extra] calls, at most, to the log of
    [applyStashedOp]. *)
Definition appliesWithin {A} (extra : list string) (m : M A) : Prop :=
  forall w, exists applied,
    appliedStashedOps (snd (m w)) = appliedStashedOps w ++ applied /\ incl applied extra.

Lemma appliesWithin_bind {A B} e1 e2 (m : M A) (k : A -> M B) :
  appliesWithin e1 m -> (forall a, appliesWithin e2 (k a)) ->
  appliesWithin (e1 ++ e2) (bind m k).
Proof.
  intros Hm Hk w. unfold bind. destruct (Hm w) as (ap & Hap & Hincl).
  destruct (m w) as [[a|e] w1]; cbn [snd] in *.
  - destruct (Hk a w1) as (ap' & Hap' & Hincl').
    exists (ap ++ ap'). rewrite Hap', Hap, app_assoc. split; [reflexivity|].
    apply incl_app; [apply incl_appl | apply incl_appr]; assumption.
  - exists ap. split; [exact Hap | apply incl_appl; exact Hincl].
Qed.

Lemma appliesWithin_nil {A} (m : M A) :
  (forall w, appliedStashedOps (snd (m w)) = appliedStashedOps w) -> appliesWithin [] m.
Proof. intros H w. exists []. rewrite app_nil_r. split; [apply H | apply incl_refl]. Qed.

Lemma appliesWithin_patch_push m :
  appliesWithin [] (bind (patchbatchInfo m) (fun patched => push patched)).
Proof.
  apply appliesWithin_nil. intros w. unfold patchbatchInfo.
  destruct (batchInfo m); reflexivity.
Qed.

Lemma appliesWithin_applyStashedMessage m :
  appliesWithin [content m] (applyStashedMessage m).
Proof.
  unfold applyStashedMessage.
  apply (appliesWithin_bind [] [content m]).
  { apply appliesWithin_nil. reflexivity. }
  intros [|].
  { intros w. destruct (appliesWithin_patch_push (with_localOpMetadata LomEmptyBatch m) w)
      as (ap & Hap & Hincl).
    exists ap. split; [exact Hap|]. intros x Hx. destruct (Hincl x Hx). }
  apply (appliesWithin_bind [content m] []).
  { intros w. exists [content m]. split; [reflexivity | apply incl_refl]. }
  intros lom.
  apply (appliesWithin_bind [] []); [apply appliesWithin_nil; reflexivity|].
  intros [|].
  - destruct (JSON_parse _); [|apply appliesWithin_nil; reflexivity].
    destruct (getProp _ _); [|apply appliesWithin_nil; reflexivity].
    destruct (getProp _ _); [|apply appliesWithin_nil; reflexivity].
    apply appliesWithin_patch_push.
  - destruct lom; apply appliesWithin_nil; reflexivity.
Qed.

Lemma rethrowing_run {A} h (m : M A) w :
  rethrowing h m w =
    match m w with
    | (Ok a, w') => (Ok a, w')
    | (Throw e, w') => (Throw (h e), w')
    end.
Proof. reflexivity. Qed.

Lemma applyStashedOpsLoop_nil fuel seqNum w :
  initialMessages w = [] -> applyStashedOpsLoop fuel seqNum w = (Ok tt, w).
Proof.
  intros Hq. destruct fuel; cbn [applyStashedOpsLoop]; rewrite bind_gets, Hq; reflexivity.
Qed.

Lemma applyStashedOpsLoop_late fuel target w m rest :
  initialMessages w = m :: rest ->
  (target < referenceSequenceNumber m)%Z ->
  applyStashedOpsLoop fuel (Some target) w = (Ok tt, w).
Proof.
  intros Hq Hlt. apply Z.ltb_lt in Hlt.
  destruct fuel; cbn [applyStashedOpsLoop]; rewrite bind_gets, Hq; cbn [hd_error];
    rewrite Hlt; reflexivity.
Qed.

Lemma applyStashedOpsLoop_recent fuel target w m rest :
  initialMessages w = m :: rest ->
  (referenceSequenceNumber m < target)%Z ->
  applyStashedOpsLoop fuel (Some target) w = (Throw tooRecentError, w).
Proof.
  intros Hq Hlt.
  assert (Hge : Z.ltb target (referenceSequenceNumber m) = false) by (apply Z.ltb_ge; lia).
  apply Z.ltb_lt in Hlt.
  destruct fuel; cbn [applyStashedOpsLoop]; rewrite bind_gets, Hq; cbn [hd_error];
    rewrite Hge, Hlt; reflexivity.
Qed.

Lemma applyStashedOpsLoop_step fuel target w m rest :
  initialMessages w = m :: rest ->
  referenceSequenceNumber m = target ->
  applyStashedOpsLoop (S fuel) (Some target) w =
    match applyStashedMessage m (set_initialMessages rest w) with
    | (Ok _, w2) => applyStashedOpsLoop fuel (Some target) w2
    | (Throw e, w2) => (Throw (wrapIfUnrecognized e "applyStashedOp"), w2)
    end.
Proof.
  intros Hq Hm.
  cbn [applyStashedOpsLoop]. rewrite bind_gets, Hq. cbn [hd_error].
  rewrite Hm, Z.ltb_irrefl.
  unfold bind at 1. unfold shiftInitial. rewrite Hq.
  unfold bind at 1. rewrite rethrowing_run.
  destruct (applyStashedMessage m (set_initialMessages rest w)) as [[[]|e] w2]; reflexivity.
Qed.

Lemma applyStashedOpsLoop_drains target fuel w :
  List.length (initialMessages w) <= fuel ->
  exists dequeued applied,
    initialMessages w
      = dequeued ++ initialMessages (snd (applyStashedOpsLoop fuel (Some target) w)) /\
    Forall (fun m => referenceSequenceNumber m = target) dequeued /\
    appliedStashedOps (snd (applyStashedOpsLoop fuel (Some target) w))
      = appliedStashedOps w ++ applied /\
    incl applied (map (@content _) dequeued) /\
    drainEnds target dequeued (fst (applyStashedOpsLoop fuel (Some target) w))
              (snd (applyStashedOpsLoop fuel (Some target) w)).
Proof.
  revert w. induction fuel as [|fuel IH]; intros w Hlen.
  - destruct (initialMessages w) as [|m rest] eqn:Hq; [|cbn in Hlen; lia].
    exists [], []. rewrite (applyStashedOpsLoop_nil _ _ _ Hq). cbn.
    rewrite Hq, app_nil_r. repeat split; auto using incl_refl. left. rewrite Hq. auto.
  - destruct (initialMessages w) as [|m rest] eqn:Hq.
    { exists [], []. rewrite (applyStashedOpsLoop_nil _ _ _ Hq). cbn.
      rewrite Hq, app_nil_r. repeat split; auto using incl_refl. left. rewrite Hq. auto. }
    destruct (Z.lt_trichotomy target (referenceSequenceNumber m)) as [Hlate|[Hm|Hrecent]].
    { exists [], []. rewrite (applyStashedOpsLoop_late _ _ _ _ _ Hq Hlate). cbn.
      rewrite Hq, app_nil_r. repeat split; auto using incl_refl. left. rewrite Hq. auto. }
    2:{ exists [], []. rewrite (applyStashedOpsLoop_recent _ _ _ _ _ Hq Hrecent). cbn.
        rewrite Hq, app_nil_r. repeat split; auto using incl_refl. right. left.
        split; [reflexivity|]. exists m, rest. auto. }
    symmetry in Hm.
    rewrite (@applyStashedOpsLoop_step fuel target w m rest Hq Hm).
    set (w1 := set_initialMessages rest w).
    pose proof (keeps_applyStashedMessage m w1) as Hkeep.
    destruct (appliesWithin_applyStashedMessage m w1) as (ap & Hap & Hincl).
    apply environment_eq in Hkeep. destruct Hkeep as (_ & _ & _ & _ & _ & Hinit).
    destruct (applyStashedMessage m w1) as [[[]|e] w2]; cbn [snd fst] in *.
    + destruct (IH w2) as (dq & ap2 & Hdq & Hall & Hap2 & Hincl2 & Hend).
      { rewrite Hinit. cbn in Hlen. cbn. lia. }
      exists (m :: dq), (ap ++ ap2). rewrite Hinit in Hdq. cbn in Hdq.
      repeat split.
      * cbn. rewrite <- Hdq. reflexivity.
      * constructor; assumption.
      * rewrite Hap2, Hap. cbn. symmetry. apply app_assoc.
      * apply incl_app.
        -- intros x Hx. left. destruct (Hincl x Hx) as [<-|[]]. reflexivity.
        -- intros x Hx. right. apply Hincl2, Hx.
      * destruct Hend as [H|[H|(e & He & _)]]; [left | right; left | right; right]; auto.
        exists e. split; [exact He | discriminate].
    + exists [m], ap. rewrite Hinit.
      split; [reflexivity|]. split; [constructor; auto|]. split; [exact Hap|].
      split; [exact Hincl|].
      right. right. exists e. split; [reflexivity | discriminate].
Qed.

(** C8. With a target sequence number, [applyStashedOpsAt] returns at
    once, touching nothing, when the next stashed entry's reference
    sequence number exceeds the target; throws before that entry is
    dequeued or applied when it is below the target; and in general it
    dequeues only entries at the target, applies only dequeued entries,
    and ends in one of the three ways of [drainEnds]. *)
Theorem C8_stash_target_bound target w :
  (forall m rest,
      initialMessages w = m :: rest ->
      (target < referenceSequenceNumber m)%Z ->
      applyStashedOpsAt (Some target) w = (Ok tt, w)) /\
  (forall m rest,
      initialMessages w = m :: rest ->
      (referenceSequenceNumber m < target)%Z ->
      applyStashedOpsAt (Some target) w = (Throw tooRecentError, w)) /\
  (forall r w',
      applyStashedOpsAt (Some target) w = (r, w') ->
      exists dequeued applied,
        initialMessages w = dequeued ++ initialMessages w' /\
        Forall (fun m => referenceSequenceNumber m = target) dequeued /\
        appliedStashedOps w' = appliedStashedOps w ++ applied /\
        incl applied (map (@content _) dequeued) /\
        drainEnds target dequeued r w').
Proof.
  unfold applyStashedOpsAt. rewrite bind_gets. repeat split.
  - intros m rest Hq Hlt. apply (applyStashedOpsLoop_late _ _ _ _ _ Hq Hlt).
  - intros m rest Hq Hlt. apply (applyStashedOpsLoop_recent _ _ _ _ _ Hq Hlt).
  - intros r w' Hrun.
    destruct (@applyStashedOpsLoop_drains target (List.length (initialMessages w)) w
                (le_n _)) as (dq & ap & H).
    rewrite Hrun in H. exists dq, ap. exact H.
Qed.

(** *** Flushing *)

Lemma set_pendingMessages_same w : set_pendingMessages (pendingMessages w) w = w.
Proof. destruct w; reflexivity. Qed.

Lemma forM_push (f : LocalBatchMessage -> IPendingMessage) l w :
  forM_ (fun m => push (f m)) l w
    = (Ok tt, set_pendingMessages (pendingMessages w ++ map f l) w).
Proof.
  revert w. induction l as [|a l IH]; intros w; cbn [forM_ map].
  - rewrite app_nil_r, set_pendingMessages_same. reflexivity.
  - unfold bind, push at 1, modify. rewrite IH. cbn [pendingMessages set_pendingMessages].
    rewrite <- app_assoc. reflexivity.
Qed.

(** What [onFlushBatch] does, by cases on its two assertions. *)
Lemma onFlushBatch_run batch csn isStaged ignore w :
  onFlushBatch batch csn isStaged ignore w =
    match csn with
    | Some n =>
        if isStaged then (Throw (AssertionError "0xb84"), w)
        else match h_clientId w with
             | None => (Throw (AssertionError "0xa33"), w)
             | Some cid =>
                 (Ok tt,
                  set_pendingMessages
                    (pendingMessages w
                       ++ map (pendingOf cid n (List.length batch) isStaged ignore) batch) w)
             end
    | None =>
        (Ok tt,
         set_pendingMessages
           (pendingMessages w
              ++ map (pendingOf (uuid (uuidCalls w)) (-1) (List.length batch) isStaged ignore)
                     batch)
           (set_uuidCalls (S (uuidCalls w)) w))
    end.
Proof.
  unfold onFlushBatch. destruct csn as [n|]; cbn [isSome].
  - destruct isStaged; cbn [negb].
    + rewrite bind_assert_false. reflexivity.
    + rewrite bind_assert_true, bind_bind, bind_gets, bind_ret. cbn [fst snd].
      destruct (h_clientId w) as [cid|]; [|reflexivity].
      apply (forM_push (pendingOf cid n (List.length batch) false ignore)).
  - rewrite bind_ret, bind_bind. unfold bind at 1. unfold callUuid at 1.
    rewrite bind_ret. cbn [fst snd].
    exact (forM_push (pendingOf (uuid (uuidCalls w)) (-1) (List.length batch) isStaged ignore)
                     batch (set_uuidCalls (S (uuidCalls w)) w)).
Qed.

Lemma tracks_pendingOf cid csn len st ign m : tracks m (pendingOf cid csn len st ign m).
Proof. repeat split. Qed.

Lemma Forall2_tracks_map cid csn len st ign batch :
  Forall2 tracks batch (map (pendingOf cid csn len st ign) batch).
Proof.
  induction batch; cbn; constructor; auto using tracks_pendingOf.
Qed.

(** A flush that returns has appended the records of its batch, in order,
    and nothing else happened to the queue or to the resubmission log. *)
Lemma onFlushBatch_ok batch csn st ign w w1 :
  onFlushBatch batch csn st ign w = (Ok tt, w1) ->
  exists pushed,
    pendingMessages w1 = pendingMessages w ++ pushed /\
    Forall2 tracks batch pushed /\
    Forall (fun pm => staged (batchInfo pm) = st) pushed /\
    reSubmitted w1 = reSubmitted w /\ savedOps w1 = savedOps w.
Proof.
  rewrite onFlushBatch_run. intros H.
  destruct csn as [n|].
  - destruct st; [discriminate|]. destruct (h_clientId w) as [cid|]; [|discriminate].
    inversion H; subst; clear H. eexists. split; [reflexivity|].
    split; [apply Forall2_tracks_map|]. split; [|split; reflexivity].
    apply Forall_forall. intros pm Hin. apply in_map_iff in Hin.
    destruct Hin as (m & <- & _). reflexivity.
  - inversion H; subst; clear H. eexists. split; [reflexivity|].
    split; [apply Forall2_tracks_map|]. split; [|split; reflexivity].
    apply Forall_forall. intros pm Hin. apply in_map_iff in Hin.
    destruct Hin as (m & <- & _). reflexivity.
Qed.

Lemma flushes_ok calls w w1 :
  forM_ flush calls w = (Ok tt, w1) ->
  exists pushed,
    pendingMessages w1 = pendingMessages w ++ pushed /\
    Forall2 tracks (concat (map fc_batch calls)) pushed /\
    reSubmitted w1 = reSubmitted w /\ savedOps w1 = savedOps w.
Proof.
  revert w. induction calls as [|c calls IH]; intros w H; cbn [forM_] in H.
  - inversion H; subst. exists []. rewrite app_nil_r. repeat split. constructor.
  - unfold bind in H. destruct (flush c w) as [[[]|e] w0] eqn:Hc; [|discriminate].
    apply onFlushBatch_ok in Hc. destruct Hc as (p1 & Hq1 & Ht1 & _ & Hr1 & Hs1).
    apply IH in H. destruct H as (p2 & Hq2 & Ht2 & Hr2 & Hs2).
    exists (p1 ++ p2). rewrite Hq2, Hq1, Hr2, Hr1, Hs2, Hs1, app_assoc.
    repeat split. cbn [map concat]. apply Forall2_app; assumption.
Qed.

(** *** Acks in submission order *)

Lemma processAcks_all q acks w :
  pendingMessages w = q ->
  Forall2 (fun pm a => content pm = buildPendingMessageContent a) q acks ->
  exists w2,
    processAcks acks w = (Ok (map (@localOpMetadata _) q), w2) /\
    pendingMessages w2 = [] /\
    List.length (savedOps w2) = List.length (savedOps w) + List.length q.
Proof.
  intros Hq Hall. revert w Hq.
  induction Hall as [|pm a q acks Hc Hall IH]; intros w Hq.
  - exists w. cbn. repeat split; auto.
  - unfold processAcks. cbn [mapM map]. unfold bind at 1.
    rewrite (processNextPendingMessage_cons _ _ _ _ _ Hq), Hc, String.eqb_refl.
    destruct (IH (acked (im_sequenceNumber a) pm q w) eq_refl) as (w2 & Hrun & Hq2 & Hlen).
    unfold processAcks in Hrun. unfold bind. rewrite Hrun. cbn [ret].
    exists w2. repeat split; auto.
    rewrite Hlen. cbn. rewrite length_app. cbn. lia.
Qed.

Lemma Forall2_tracks_content batch pushed acks :
  Forall2 tracks batch pushed ->
  Forall2 (fun m a => serializeOp (lbm_runtimeOp m) = buildPendingMessageContent a)
          batch acks ->
  Forall2 (fun pm a => content pm = buildPendingMessageContent a) pushed acks /\
  map (@localOpMetadata _) pushed = map lbm_localOpMetadata batch.
Proof.
  intros Ht. revert acks. induction Ht as [|m pm batch pushed Hm Ht IH]; intros acks Ha.
  - inversion Ha; subst. split; constructor.
  - inversion Ha as [|m' a batch' acks' Hma Hrest]; subst.
    destruct (IH _ Hrest) as [H1 H2].
    destruct Hm as (_ & Hcontent & _ & Hlom & _).
    split.
    + constructor; [congruence | assumption].
    + cbn. rewrite Hlom, H2. reflexivity.
Qed.

(** C1. Starting from an empty pending queue, after any sequence of
    flushes that return, processing one ack per flushed message, in flush
    order and with inbound content equal to the serialized op, returns
    without throwing the localOpMetadata of the flushed messages in the
    order they were pushed, and leaves the queue empty. *)
Theorem C1_order_preservation calls acks w w1 :
  pendingMessages w = [] ->
  forM_ flush calls w = (Ok tt, w1) ->
  Forall2 (fun m a => serializeOp (lbm_runtimeOp m) = buildPendingMessageContent a)
          (concat (map fc_batch calls)) acks ->
  exists w2,
    processAcks acks w1
      = (Ok (map lbm_localOpMetadata (concat (map fc_batch calls))), w2) /\
    pendingMessages w2 = [].
Proof.
  intros Hempty Hflush Hacks.
  apply flushes_ok in Hflush. destruct Hflush as (pushed & Hq & Ht & _).
  rewrite Hempty in Hq. cbn in Hq.
  destruct (Forall2_tracks_content _ _ _ Ht Hacks) as [Hcontent Hlom].
  destruct (processAcks_all _ _ _ Hq Hcontent) as (w2 & Hrun & Hq2 & _).
  exists w2. rewrite <- Hlom. auto.
Qed.

(** *** Local batches *)

(** [onLocalBatchBegin] on a front message that is not staged returns;
    all it may do is log a [BatchInfoMismatch]. *)
Lemma onLocalBatchBegin_ok bs len w pm rest :
  pendingMessages w = pm :: rest ->
  staged (batchInfo pm) = false ->
  exists events,
    onLocalBatchBegin bs len w = (Ok tt, set_telemetry (telemetry w ++ events) w) /\
    Forall (fun ev => eventName ev = "BatchInfoMismatch") events.
Proof.
  intros Hq Hst. unfold onLocalBatchBegin, peekFront. rewrite bind_gets, Hq. cbn [hd_error].
  rewrite Hst. cbn [negb]. rewrite bind_assert_true.
  match goal with |- context [if ?c then _ else _] => destruct c end.
  - eexists [_]. split; [reflexivity|]. repeat constructor.
  - exists []. rewrite app_nil_r. split; [|constructor].
    unfold ret. f_equal. destruct w; reflexivity.
Qed.

(** C9, as the code has it.  After an empty-batch placeholder has been
    flushed (not staged) onto an empty queue, its ack as a zero-length
    batch makes [processNextPendingMessage], called without an inbound
    message and hence without any content comparison, return the
    [{ emptyBatch: true }] marker; [processInboundMessages] checks that
    marker, dequeues the placeholder into the saved ops, and returns the
    empty list. *)
Theorem C9_empty_batch_ack_returns_nothing placeholder csn msgs bs w w1 :
  pendingMessages w = [] ->
  lbm_localOpMetadata placeholder = LomEmptyBatch ->
  onFlushEmptyBatch placeholder csn false w = (Ok tt, w1) ->
  exists pm w2,
    pendingMessages w1 = [pm] /\
    processNextPendingMessage (km_sequenceNumber (bs_keyMessage bs)) None w1
      = (Ok LomEmptyBatch, acked (km_sequenceNumber (bs_keyMessage bs)) pm [] w1) /\
    processInboundMessages (FullBatch msgs bs 0) true w1 = (Ok [], w2) /\
    pendingMessages w2 = [] /\
    savedOps w2
      = savedOps w ++ [toSerializableForm
                         (with_sequenceNumber (km_sequenceNumber (bs_keyMessage bs)) pm)] /\
    Forall (fun ev => eventName ev <> "unexpectedAckReceived")
           (skipn (List.length (telemetry w)) (telemetry w2)).
Proof.
  intros Hempty Hmarker Hflush.
  unfold onFlushEmptyBatch in Hflush.
  pose proof Hflush as Hrun. rewrite onFlushBatch_run in Hrun.
  apply onFlushBatch_ok in Hflush.
  destruct Hflush as (pushed & Hq & Ht & Hst & _ & Hsaved).
  rewrite Hempty in Hq. cbn in Hq.
  destruct pushed as [|pm [|pm2 pushed]];
    [inversion Ht | | inversion Ht as [|? ? ? ? _ Hnil]; inversion Hnil].
  assert (Hpm : tracks placeholder pm) by (inversion Ht; assumption).
  assert (Hstaged : staged (batchInfo pm) = false) by (inversion Hst; assumption).
  destruct Hpm as (_ & _ & _ & Hlom & _). rewrite Hmarker in Hlom.
  assert (Htel : telemetry w1 = telemetry w).
  { destruct csn; [destruct (h_clientId w); [|discriminate]|];
      inversion Hrun; reflexivity. }
  exists pm.
  destruct (onLocalBatchBegin_ok bs (Some 0%Z) w1 pm [] Hq Hstaged) as (events & Hbegin & Hev).
  eexists. split; [exact Hq|].
  split.
  { rewrite (processNextPendingMessage_cons _ _ _ _ _ Hq), Hlom. reflexivity. }
  unfold processInboundMessages, processPendingLocalMessages.
  cbn [inboundBatchStart inboundLength]. unfold bind at 1. rewrite Hbegin.
  unfold bind at 1.
  rewrite (processNextPendingMessage_cons _ _ (set_telemetry (telemetry w1 ++ events) w1)
             pm [] Hq), Hlom.
  cbn [isEmptyBatchMarker]. rewrite bind_assert_true.
  split; [reflexivity|]. cbn. rewrite Hsaved.
  repeat split.
  rewrite Htel, skipn_app, skipn_all, Nat.sub_diag. cbn.
  eapply Forall_impl; [|exact Hev]. intros ev ->. discriminate.
Qed.

(** *** Popping staged batches *)

Lemma set_pendingMessages_twice q1 q2 w :
  set_pendingMessages q2 (set_pendingMessages q1 w) = set_pendingMessages q2 w.
Proof. reflexivity. Qed.

(** The loop pops the staged messages [rs] (listed from the back) that
    follow [pre], whose own back is not staged, and hands the typical ones
    to the callback in that order. *)
Lemma popStagedLoop_run rs :
  forall fuel called w pre,
    pendingMessages w = pre ++ rev rs ->
    Forall (fun m => staged (batchInfo m) = true) rs ->
    (forall m, hd_error (rev pre) = Some m -> staged (batchInfo m) = false) ->
    List.length rs <= fuel ->
    popStagedLoop fuel called w
      = (Ok (called ++ filter (@hasTypicalRuntimeOp _) rs), set_pendingMessages pre w).
Proof.
  induction rs as [|m rs IH]; intros fuel called w pre Hq Hst Hpre Hfuel.
  - cbn [rev] in Hq. rewrite app_nil_r in Hq. cbn [filter]. rewrite app_nil_r.
    rewrite <- Hq, set_pendingMessages_same.
    assert (Hback : peekBack w = (Ok (hd_error (rev pre)), w))
      by (unfold peekBack, gets; rewrite Hq; reflexivity).
    destruct fuel; cbn [popStagedLoop]; unfold bind; rewrite Hback;
      destruct (hd_error (rev pre)) as [b|] eqn:Hb; try reflexivity;
      rewrite (Hpre b eq_refl); reflexivity.
  - inversion Hst as [|m' rs' Hm Hrs]; subst.
    assert (Hback : peekBack w = (Ok (Some m), w)).
    { unfold peekBack, gets. rewrite Hq, rev_app_distr. cbn [rev].
      rewrite rev_app_distr. reflexivity. }
    destruct fuel as [|fuel]; [cbn in Hfuel; lia|].
    cbn [popStagedLoop]. unfold bind at 1. rewrite Hback, Hm.
    unfold bind at 1. unfold pop, modify.
    assert (Hpop : removelast (pendingMessages w) = pre ++ rev rs).
    { rewrite Hq. cbn [rev]. rewrite app_assoc. apply removelast_last. }
    rewrite Hpop.
    rewrite (IH fuel _ (set_pendingMessages (pre ++ rev rs) w) pre eq_refl Hrs Hpre);
      [|cbn in Hfuel; lia].
    rewrite set_pendingMessages_twice. cbn [filter].
    destruct (hasTypicalRuntimeOp m); [rewrite <- app_assoc|]; reflexivity.
Qed.

Lemma forallb_not_staged q :
  forallb (fun m : IPendingMessage => negb (staged (batchInfo m))) q = true <->
  Forall (fun m : IPendingMessage => staged (batchInfo m) = false) q.
Proof.
  rewrite forallb_forall, Forall_forall. split; intros H m Hin; specialize (H m Hin).
  - now apply negb_true_iff.
  - now apply negb_true_iff.
Qed.

(** C7. On the queue [m1 (not staged); m2 (staged); m3 (staged)],
    [popStagedBatches] invokes the callback on [m3] then [m2], skipping
    any of them without a typical runtime op, and leaves [m1].  In
    general it pops the staged messages that follow the last non-staged
    one, back to front; and whenever it returns, no remaining pending
    message is staged. *)
Theorem C7_pop_staged_batches w :
  (forall m1 m2 m3,
      pendingMessages w = [m1; m2; m3] ->
      staged (batchInfo m1) = false ->
      staged (batchInfo m2) = true ->
      staged (batchInfo m3) = true ->
      popStagedBatches w
        = (Ok (filter (@hasTypicalRuntimeOp _) [m3; m2]), set_pendingMessages [m1] w)) /\
  (forall pre suffix,
      pendingMessages w = pre ++ suffix ->
      Forall (fun m => staged (batchInfo m) = false) pre ->
      Forall (fun m => staged (batchInfo m) = true) suffix ->
      popStagedBatches w
        = (Ok (filter (@hasTypicalRuntimeOp _) (rev suffix)), set_pendingMessages pre w)) /\
  (forall called w',
      popStagedBatches w = (Ok called, w') ->
      Forall (fun m => staged (batchInfo m) = false) (pendingMessages w')).
Proof.
  assert (Hgen : forall pre suffix,
             pendingMessages w = pre ++ suffix ->
             Forall (fun m => staged (batchInfo m) = false) pre ->
             Forall (fun m => staged (batchInfo m) = true) suffix ->
             popStagedBatches w
               = (Ok (filter (@hasTypicalRuntimeOp _) (rev suffix)),
                  set_pendingMessages pre w)).
  { intros pre suffix Hq Hpre Hsuf.
    unfold popStagedBatches. rewrite bind_gets. unfold bind at 1.
    rewrite (popStagedLoop_run (rev suffix) _ [] w pre).
    - rewrite bind_gets. cbn [pendingMessages set_pendingMessages]. cbn [app filter].
      apply forallb_not_staged in Hpre.
      rewrite Hpre. rewrite bind_assert_true.
      reflexivity.
    - rewrite rev_involutive. exact Hq.
    - apply Forall_rev. exact Hsuf.
    - intros m Hm. rewrite Forall_forall in Hpre. apply Hpre.
      apply in_rev. destruct (rev pre); cbn in Hm; [discriminate|].
      inversion Hm; subst. apply in_eq.
    - rewrite Hq, length_app, length_rev. lia. }
  split; [|split].
  - intros m1 m2 m3 Hq H1 H2 H3.
    apply (Hgen [m1] [m2; m3] Hq); repeat constructor; assumption.
  - exact Hgen.
  - intros called w' Hrun. unfold popStagedBatches in Hrun.
    rewrite bind_gets in Hrun. unfold bind at 1 in Hrun.
    destruct (popStagedLoop _ _ w) as [[c|e] w1]; [|discriminate].
    rewrite bind_gets in Hrun.
    destruct (forallb (fun m => negb (staged (batchInfo m))) (pendingMessages w1)) eqn:Hall.
    + rewrite bind_assert_true in Hrun. inversion Hrun; subst.
      apply forallb_not_staged. exact Hall.
    + rewrite bind_assert_false in Hrun. discriminate.
Qed.

(** *** Resubmission *)

(** [m] leaves the resubmission log alone, whether it returns or throws. *)
Definition keepsLog {A} (m : M A) : Prop :=
  forall w, reSubmitted (snd (m w)) = reSubmitted w.

Lemma keepsLog_bind {A B} (m : M A) (k : A -> M B) :
  keepsLog m -> (forall a, keepsLog (k a)) -> keepsLog (bind m k).
Proof.
  intros Hm Hk w. unfold bind. specialize (Hm w).
  destruct (m w) as [[a|e] w1]; cbn [snd] in *; [rewrite Hk|]; exact Hm.
Qed.

Lemma keepsLog_onFlushBatch b csn st ign : keepsLog (onFlushBatch b csn st ign).
Proof.
  intros w. rewrite onFlushBatch_run.
  destruct csn; [destruct st; [|destruct (h_clientId w)]|]; reflexivity.
Qed.

Lemma keepsLog_flushes calls : keepsLog (forM_ flush calls).
Proof.
  induction calls as [|c calls IH]; cbn [forM_]; [intros w; reflexivity|].
  apply keepsLog_bind; [apply keepsLog_onFlushBatch | intros _; exact IH].
Qed.

Lemma reSubmitBatch_run b md w :
  reSubmitBatch b md w
    = forM_ flush (reSubmitBatch_flushes b md)
            (set_reSubmitted (reSubmitted w ++ [(b, md)]) w).
Proof. reflexivity. Qed.

Lemma reSubmitBatch_log b md w :
  reSubmitted (snd (reSubmitBatch b md w)) = reSubmitted w ++ [(b, md)].
Proof. rewrite reSubmitBatch_run, keepsLog_flushes. reflexivity. Qed.

Lemma reSubmitBatch_ok b md w w1 :
  reSubmitBatch b md w = (Ok tt, w1) ->
  exists pushed,
    pendingMessages w1 = pendingMessages w ++ pushed /\
    Forall2 tracks (concat (map fc_batch (reSubmitBatch_flushes b md))) pushed /\
    reSubmitted w1 = reSubmitted w ++ [(b, md)].
Proof.
  rewrite reSubmitBatch_run. intros H. apply flushes_ok in H.
  destruct H as (pushed & Hq & Ht & Hr & _). exists pushed. auto.
Qed.

Lemma bind_shift_cons {B} (k : option IPendingMessage -> M B) w m q :
  pendingMessages w = m :: q ->
  bind shift k w = k (Some m) (set_pendingMessages q w).
Proof. intros Hq. unfold bind, shift. rewrite Hq. reflexivity. Qed.

Lemma bind_shift_nil {B} (k : option IPendingMessage -> M B) w :
  pendingMessages w = [] -> bind shift k w = k None w.
Proof. intros Hq. unfold bind, shift. rewrite Hq. reflexivity. Qed.

Lemma resubmitData_pendingOf cid csn len st ign m :
  typicalOp m = true ->
  resubmitData (pendingOf cid csn len st ign m) = Some (resubmitDataOf m).
Proof. unfold resubmitData, typicalOp. cbn. intros ->. reflexivity. Qed.

Local Ltac throws code w' :=
  exists code, w'; split; [reflexivity | split; [cbn; tauto | reflexivity]].

(** A batch start whose batch end does not come within the captured
    count: the inner loop ends in an assertion. *)
Lemma collectBatch_unterminated n :
  forall pm acc w,
    n <= List.length (pendingMessages w) ->
    batchFlag (opMetadata pm) <> Some false ->
    Forall (fun x => batchFlag (opMetadata x) <> Some false) (firstn n (pendingMessages w)) ->
    exists code w',
      collectBatch n pm acc w = (Throw (AssertionError code), w') /\
      In code ["0x555"; "0x556"; "0xb88"] /\
      reSubmitted w' = reSubmitted w.
Proof.
  induction n as [|n IH]; intros pm acc w Hlen Hpm Hall; cbn [collectBatch].
  - destruct (resubmitData pm); [|throws "0xb88" w].
    destruct (batchFlag (opMetadata pm)) as [[|]|]; cbn [option_eqb Bool.eqb];
      try congruence; throws "0x555" w.
  - destruct (resubmitData pm) as [d|]; [|throws "0xb88" w].
    assert (Hnot : option_eqb Bool.eqb (batchFlag (opMetadata pm)) (Some false) = false)
      by (destruct (batchFlag (opMetadata pm)) as [[|]|]; cbn; congruence).
    rewrite Hnot.
    destruct (pendingMessages w) as [|next q] eqn:Hq; [cbn in Hlen; lia|].
    rewrite (bind_shift_cons _ w next q Hq).
    cbn [firstn] in Hall. inversion Hall as [|x l Hnext Hrest]; subst.
    destruct (option_eqb Bool.eqb (batchFlag (opMetadata next)) (Some true)); cbn [negb].
    + rewrite bind_assert_false. throws "0x556" (set_pendingMessages q w).
    + rewrite bind_assert_true.
      destruct (IH next (acc ++ [d]) (set_pendingMessages q w))
        as (code & w' & Hrun & Hin & Hlog);
        [cbn in *; lia | exact Hnext | exact Hrest |].
      exists code, w'. auto.
Qed.

Lemma resubmitData_tracks b pm :
  tracks b pm -> typicalOp b = true -> resubmitData pm = Some (resubmitDataOf b).
Proof.
  intros (_ & _ & Hop & Hlom & Hmd) Htyp. unfold resubmitData, resubmitDataOf.
  rewrite Hop, Hlom, Hmd. unfold typicalOp in Htyp. rewrite Htyp. reflexivity.
Qed.

Lemma collectBatch_end n pm acc d w :
  resubmitData pm = Some d ->
  batchFlag (opMetadata pm) = Some false ->
  collectBatch n pm acc w = (Ok (acc ++ [d], n), w).
Proof.
  intros D F. destruct n; cbn [collectBatch]; rewrite D, F; reflexivity.
Qed.

Lemma collectBatch_more n pm acc d next q w :
  resubmitData pm = Some d ->
  batchFlag (opMetadata pm) <> Some false ->
  pendingMessages w = next :: q ->
  batchFlag (opMetadata next) <> Some true ->
  collectBatch (S n) pm acc w = collectBatch n next (acc ++ [d]) (set_pendingMessages q w).
Proof.
  intros D F Hq Fn. cbn [collectBatch]. rewrite D.
  assert (H1 : option_eqb Bool.eqb (batchFlag (opMetadata pm)) (Some false) = false)
    by (destruct (batchFlag (opMetadata pm)) as [[|]|]; cbn; congruence).
  assert (H2 : option_eqb Bool.eqb (batchFlag (opMetadata next)) (Some true) = false)
    by (destruct (batchFlag (opMetadata next)) as [[|]|]; cbn; congruence).
  rewrite H1, (bind_shift_cons _ w next q Hq), H2. cbn [negb].
  rewrite bind_assert_true. reflexivity.
Qed.

Lemma replayLoop_done c sq fuel seen w : replayLoop c sq fuel 0 seen w = (Ok tt, w).
Proof. destruct fuel; reflexivity. Qed.

(** The outer loop at a message that leads a multi-message batch, when
    staged batches are not being committed. *)
Lemma replayLoop_batch_start sq fuel n seen w pm q d :
  pendingMessages w = pm :: q ->
  batchFlag (opMetadata pm) = Some true ->
  isEmptyBatchMarker (localOpMetadata pm) = false ->
  resubmitData pm = Some d ->
  replayLoop false sq (S fuel) (S (S n)) seen w =
    bind (collectBatch (S n) pm [])
         (fun r => bind (reSubmitBatch (fst r) (resubmitMetadata sq pm))
                        (fun _ => replayLoop false sq fuel (snd r) seen))
         (set_pendingMessages q w).
Proof.
  intros Hq F Hm D.
  cbn [replayLoop]. rewrite (bind_shift_cons _ w _ _ Hq). cbn [andb].
  rewrite F. cbn [option_eqb Bool.eqb negb]. rewrite bind_assert_true, Hm, D.
  cbn [Nat.ltb Nat.leb]. rewrite bind_assert_true. reflexivity.
Qed.

(** The outer loop on a queue that starts with a three-message batch. *)
Lemma replayLoop_three sq fuel seen w pm1 pm2 pm3 d1 d2 d3 :
  pendingMessages w = [pm1; pm2; pm3] ->
  batchFlag (opMetadata pm1) = Some true ->
  batchFlag (opMetadata pm2) = None ->
  batchFlag (opMetadata pm3) = Some false ->
  resubmitData pm1 = Some d1 ->
  resubmitData pm2 = Some d2 ->
  resubmitData pm3 = Some d3 ->
  isEmptyBatchMarker (localOpMetadata pm1) = false ->
  replayLoop false sq (S fuel) 3 seen w
    = bind (reSubmitBatch [d1; d2; d3] (resubmitMetadata sq pm1)) (fun _ => ret tt)
           (set_pendingMessages [] w).
Proof.
  intros Hq F1 F2 F3 D1 D2 D3 Hm.
  rewrite (replayLoop_batch_start sq fuel 1 seen w pm1 [pm2; pm3] d1 Hq F1 Hm D1).
  unfold bind at 1.
  rewrite (collectBatch_more 1 pm1 [] d1 pm2 [pm3] _ D1); [|congruence|reflexivity|congruence].
  rewrite (collectBatch_more 0 pm2 _ d2 pm3 [] _ D2); [|congruence|reflexivity|congruence].
  rewrite (collectBatch_end 0 pm3 _ d3 _ D3 F3). cbn [fst snd app].
  unfold bind. destruct (reSubmitBatch _ _ _) as [[[]|e] w']; [|reflexivity].
  apply replayLoop_done.
Qed.

(** *** The whole replay *)

Lemma replayEpilogue_run n w :
  exists w',
    replayEpilogue n w = (Ok tt, w') /\
    pendingMessages w' = pendingMessages w /\
    reSubmitted w' = reSubmitted w /\
    savedOps w' = [].
Proof.
  unfold replayEpilogue. rewrite bind_modify, bind_gets.
  destruct (h_isActiveConnection (set_savedOps [] w)); eexists; split; reflexivity || auto.
Qed.

(** Past its assertions, [replayPendingStates] arms the guard, runs the
    loop on the count captured up front, and finishes. *)
Lemma replayPendingStates_run options w :
  h_connected w || committing options = true ->
  (committing options = false ->
   option_eqb String.eqb (clientIdFromLastReplay w) (h_clientId w) = false) ->
  initialMessages w = [] ->
  replayPendingStates options w =
    bind (replayLoop (committing options) (squashing options)
                     (List.length (pendingMessages w)) (List.length (pendingMessages w)) false)
         (fun _ => replayEpilogue (List.length (pendingMessages w)))
         (set_clientIdFromLastReplay (h_clientId w) w).
Proof.
  intros H172 H173 H174. unfold replayPendingStates. cbv zeta.
  assert (Hc : committingStagedBatches
                 match options with Some o => o | None => defaultReplayPendingStatesOptions end
               = committing options) by (destruct options; reflexivity).
  assert (Hs : squash
                 match options with Some o => o | None => defaultReplayPendingStatesOptions end
               = squashing options) by (destruct options; reflexivity).
  rewrite Hc, Hs, bind_gets, H172, bind_assert_true.
  destruct (committing options) eqn:Hcommit; cbn [negb].
  - rewrite bind_ret, bind_gets, bind_modify, bind_gets.
    cbn [initialMessages set_clientIdFromLastReplay]. rewrite H174. cbn [isEmpty].
    rewrite bind_assert_true, bind_gets. reflexivity.
  - rewrite bind_bind, bind_gets, bind_bind, bind_gets, (H173 eq_refl). cbn [negb].
    rewrite bind_assert_true, bind_gets, bind_modify, bind_gets.
    cbn [initialMessages set_clientIdFromLastReplay]. rewrite H174. cbn [isEmpty].
    rewrite bind_assert_true, bind_gets. reflexivity.
Qed.

Lemma replayPendingStates_Ok_inv options w w' :
  replayPendingStates options w = (Ok tt, w') ->
  h_connected w || committing options = true /\
  (committing options = false ->
   option_eqb String.eqb (clientIdFromLastReplay w) (h_clientId w) = false) /\
  initialMessages w = [].
Proof.
  unfold replayPendingStates. cbv zeta.
  assert (Hc : committingStagedBatches
                 match options with Some o => o | None => defaultReplayPendingStatesOptions end
               = committing options) by (destruct options; reflexivity).
  rewrite Hc, bind_gets.
  destruct (h_connected w || committing options); [|rewrite bind_assert_false; discriminate].
  rewrite bind_assert_true. intros H. split; [reflexivity|].
  destruct (committing options) eqn:Hcommit; cbn [negb] in H.
  - split; [discriminate|].
    rewrite bind_ret, bind_gets, bind_modify, bind_gets in H.
    cbn [initialMessages set_clientIdFromLastReplay] in H.
    destruct (initialMessages w); [reflexivity|].
    cbn [isEmpty] in H. rewrite bind_assert_false in H. discriminate.
  - rewrite bind_bind, bind_gets, bind_bind, bind_gets in H.
    destruct (option_eqb String.eqb (clientIdFromLastReplay w) (h_clientId w));
      cbn [negb] in H; [rewrite bind_assert_false in H; discriminate|].
    split; [reflexivity|].
    rewrite bind_assert_true, bind_gets, bind_modify, bind_gets in H.
    cbn [initialMessages set_clientIdFromLastReplay] in H.
    destruct (initialMessages w); [reflexivity|].
    cbn [isEmpty] in H. rewrite bind_assert_false in H. discriminate.
Qed.

Lemma batchFlag_tracks b pm : tracks b pm -> batchFlag (opMetadata pm) = batchFlag (lbm_metadata b).
Proof. intros (_ & _ & _ & _ & ->). reflexivity. Qed.

(** The outer loop at a batch start whose batch end does not come within
    the captured count [S k]: an assertion fails and the sink has
    received nothing.  What lies beyond the captured count ([extra])
    does not matter. *)
Lemma replayLoop_unterminated sq fuel seen w m rest extra :
  pendingMessages w = m :: rest ++ extra ->
  batchFlag (opMetadata m) = Some true ->
  isEmptyBatchMarker (localOpMetadata m) = false ->
  Forall (fun x => batchFlag (opMetadata x) <> Some false) rest ->
  exists code w',
    replayLoop false sq (S fuel) (S (List.length rest)) seen w
      = (Throw (AssertionError code), w') /\
    In code unterminatedBatchCodes /\
    reSubmitted w' = reSubmitted w.
Proof.
  intros Hq F Hm Hall.
  destruct (resubmitData m) as [d|] eqn:D.
  2:{ exists "0xb87", (set_pendingMessages (rest ++ extra) w).
      cbn [replayLoop]. rewrite (bind_shift_cons _ w _ _ Hq). cbn [andb].
      rewrite F. cbn [option_eqb Bool.eqb negb]. rewrite bind_assert_true, Hm, D.
      split; [reflexivity|]. split; [cbn; tauto | reflexivity]. }
  destruct rest as [|x rest].
  - exists "0x554", (set_pendingMessages extra w).
    cbn [replayLoop List.length]. rewrite (bind_shift_cons _ w _ _ Hq). cbn [andb].
    rewrite F. cbn [option_eqb Bool.eqb negb]. rewrite bind_assert_true, Hm, D.
    cbn [Nat.ltb Nat.leb]. rewrite bind_assert_false.
    split; [reflexivity|]. split; [cbn; tauto | reflexivity].
  - cbn [List.length].
    rewrite (replayLoop_batch_start sq fuel (List.length rest) seen w m _ d Hq F Hm D).
    destruct (collectBatch_unterminated (S (List.length rest)) m []
                (set_pendingMessages ((x :: rest) ++ extra) w))
      as (code & w' & Hrun & Hin & Hlog).
    + cbn. rewrite length_app. lia.
    + congruence.
    + cbn [pendingMessages set_pendingMessages].
      replace (S (List.length rest)) with (List.length (x :: rest)) by reflexivity.
      rewrite firstn_app, firstn_all, Nat.sub_diag. cbn [firstn]. rewrite app_nil_r.
      exact Hall.
    + exists code, w'. unfold bind. rewrite Hrun. split; [reflexivity|].
      split; [|exact Hlog]. cbn in Hin. cbn. tauto.
Qed.

(** C5. A batch of three ops flushed with [batch] set to true on the
    first, unset on the second and false on the third is replayed as
    exactly one call of the resubmission sink, with the three ops in
    their original order; the replay returns unless the runtime's own
    re-entrant flushes throw.  And a batch start that is not followed by
    a batch end within the count captured at entry fails an assertion,
    with nothing handed to the sink: for a queue that begins with such a
    batch start, and at any iteration of the loop, whatever lies in the
    queue beyond the captured count. *)
Theorem C5_batch_grouping_round_trip options :
  (forall b1 b2 b3 csn st ign w w1,
      pendingMessages w = [] ->
      onFlushBatch [b1; b2; b3] csn st ign w = (Ok tt, w1) ->
      batchFlag (lbm_metadata b1) = Some true ->
      batchFlag (lbm_metadata b2) = None ->
      batchFlag (lbm_metadata b3) = Some false ->
      typicalOp b1 = true -> typicalOp b2 = true -> typicalOp b3 = true ->
      isEmptyBatchMarker (lbm_localOpMetadata b1) = false ->
      h_connected w1 = true ->
      option_eqb String.eqb (clientIdFromLastReplay w1) (h_clientId w1) = false ->
      initialMessages w1 = [] ->
      committing options = false ->
      exists md,
        let resubmitted := (map resubmitDataOf [b1; b2; b3], md) in
        let sent :=
          set_reSubmitted (reSubmitted w1 ++ [resubmitted])
            (set_pendingMessages [] (set_clientIdFromLastReplay (h_clientId w1) w1)) in
        reSubmitted (worldAfter (replayPendingStates options) w1)
          = reSubmitted w1 ++ [resubmitted] /\
        rm_staged md = st /\ rm_squash md = squashing options /\
        fst (replayPendingStates options w1)
          = fst (forM_ flush (reSubmitBatch_flushes (fst resubmitted) md) sent)) /\
  (forall w m rest,
      pendingMessages w = m :: rest ->
      batchFlag (opMetadata m) = Some true ->
      isEmptyBatchMarker (localOpMetadata m) = false ->
      Forall (fun x => batchFlag (opMetadata x) <> Some false) rest ->
      h_connected w = true ->
      option_eqb String.eqb (clientIdFromLastReplay w) (h_clientId w) = false ->
      initialMessages w = [] ->
      committing options = false ->
      exists code w',
        replayPendingStates options w = (Throw (AssertionError code), w') /\
        In code unterminatedBatchCodes /\
        reSubmitted w' = reSubmitted w) /\
  (forall fuel seen w m rest extra,
      pendingMessages w = m :: rest ++ extra ->
      batchFlag (opMetadata m) = Some true ->
      isEmptyBatchMarker (localOpMetadata m) = false ->
      Forall (fun x => batchFlag (opMetadata x) <> Some false) rest ->
      exists code w',
        replayLoop false (squashing options) (S fuel) (S (List.length rest)) seen w
          = (Throw (AssertionError code), w') /\
        In code unterminatedBatchCodes /\
        reSubmitted w' = reSubmitted w).
Proof.
  split; [|split].
  3:{ intros fuel seen w m rest extra.
      apply (replayLoop_unterminated (squashing options) fuel seen w m rest extra). }
  - intros b1 b2 b3 csn st ign w w1 Hempty Hflush F1 F2 F3 T1 T2 T3 Hm Hconn Hguard Hinit Hc.
    apply onFlushBatch_ok in Hflush.
    destruct Hflush as (pushed & Hq & Ht & Hst & _).
    rewrite Hempty in Hq. cbn [app] in Hq.
    pose proof (Forall2_length Ht) as Hlen.
    destruct pushed as [|pm1 [|pm2 [|pm3 [|pm4 pushed]]]]; try discriminate Hlen.
    clear Hlen.
    assert (Ht1 : tracks b1 pm1) by (inversion Ht; assumption).
    assert (Ht2 : tracks b2 pm2)
      by (inversion Ht as [|? ? ? ? _ Ht']; inversion Ht'; assumption).
    assert (Ht3 : tracks b3 pm3)
      by (inversion Ht as [|? ? ? ? _ Ht']; inversion Ht' as [|? ? ? ? _ Ht''];
          inversion Ht''; assumption).
    assert (Hst1 : staged (batchInfo pm1) = st) by (inversion Hst; assumption).
    rename Hq into H1. symmetry in H1.
    exists (resubmitMetadata (squashing options) pm1).
    cbv zeta. cbn [fst map rm_staged rm_squash resubmitMetadata].
    unfold worldAfter.
    rewrite (replayPendingStates_run options w1); [|rewrite Hconn; reflexivity|auto|auto].
    rewrite Hc. rewrite <- H1. cbn [List.length].
    unfold bind.
    rewrite (replayLoop_three (squashing options) 2 false _ pm1 pm2 pm3
               (resubmitDataOf b1) (resubmitDataOf b2) (resubmitDataOf b3)).
    2:{ cbn [pendingMessages set_clientIdFromLastReplay]. symmetry. exact H1. }
    2-4: (erewrite batchFlag_tracks by eassumption; assumption).
    2-4: (apply resubmitData_tracks; assumption).
    2:{ destruct Ht1 as (_ & _ & _ & -> & _). exact Hm. }
    unfold bind. rewrite reSubmitBatch_run.
    cbn [reSubmitted set_pendingMessages set_clientIdFromLastReplay].
    pose proof (keepsLog_flushes
                  (reSubmitBatch_flushes
                     [resubmitDataOf b1; resubmitDataOf b2; resubmitDataOf b3]
                     (resubmitMetadata (squashing options) pm1))) as Hlog.
    match goal with |- context [forM_ flush _ ?s] => specialize (Hlog s); set (sent := s) in * end.
    destruct (forM_ flush _ sent) as [[[]|e] w4]; cbv beta iota; cbn [fst snd] in *.
    + unfold ret. destruct (replayEpilogue_run 3 w4) as (w5 & -> & _ & Hr & _).
      cbn [fst snd]. rewrite Hr, Hlog. repeat split; auto.
    + rewrite Hlog. repeat split; auto.
  - intros w m rest Hq F Hm Hall Hconn Hguard Hinit Hc.
    rewrite (replayPendingStates_run options w); [|rewrite Hconn; reflexivity|auto|auto].
    rewrite Hc, Hq. cbn [List.length].
    destruct (replayLoop_unterminated (squashing options) (List.length rest) false
                (set_clientIdFromLastReplay (h_clientId w) w) m rest [])
      as (code & w' & Hrun & Hin & Hlog); auto.
    { cbn. rewrite app_nil_r. exact Hq. }
    exists code, w'. unfold bind. rewrite Hrun. auto.
Qed.

(** *** The captured count *)

(** A batch gathered by the inner loop takes its messages from the front
    of the queue, within the captured count. *)
Lemma collectBatch_ok n :
  forall pm acc w cur extra b n2 w2,
    pendingMessages w = cur ++ extra ->
    List.length cur = n ->
    collectBatch n pm acc w = (Ok (b, n2), w2) ->
    exists taken cur2,
      cur = taken ++ cur2 /\
      pendingMessages w2 = cur2 ++ extra /\
      List.length cur2 = n2 /\
      List.length b = List.length acc + 1 + List.length taken /\
      reSubmitted w2 = reSubmitted w.
Proof.
  induction n as [|n IH]; intros pm acc w cur extra b n2 w2 Hq Hlen Hrun;
    cbn [collectBatch] in Hrun;
    destruct (resubmitData pm) as [d|]; try discriminate;
    destruct (option_eqb Bool.eqb (batchFlag (opMetadata pm)) (Some false));
    try discriminate.
  - inversion Hrun; subst. exists [], cur. rewrite length_app. cbn. repeat split; auto; lia.
  - inversion Hrun; subst. exists [], cur. rewrite length_app. cbn. repeat split; auto; lia.
  - destruct cur as [|next cur]; [discriminate|].
    rewrite (bind_shift_cons _ w next (cur ++ extra) Hq) in Hrun.
    destruct (negb (option_eqb Bool.eqb (batchFlag (opMetadata next)) (Some true)));
      [rewrite bind_assert_true in Hrun | rewrite bind_assert_false in Hrun; discriminate].
    destruct (IH next (acc ++ [d]) (set_pendingMessages (cur ++ extra) w) cur extra b n2 w2
                eq_refl (eq_add_S _ _ Hlen) Hrun)
      as (taken & cur2 & Hcur & Hq2 & Hn2 & Hb & Hlog).
    exists (next :: taken), cur2. subst cur. rewrite Hb, length_app. cbn.
    repeat split; auto; lia.
Qed.

Lemma list_sum_cons a l : list_sum (a :: l) = a + list_sum l.
Proof. reflexivity. Qed.

Lemma replayLoop_ok c sq fuel :
  forall remaining seen w w' cur extra,
    pendingMessages w = cur ++ extra ->
    List.length cur = remaining ->
    remaining <= fuel ->
    replayLoop c sq fuel remaining seen w = (Ok tt, w') ->
    exists calls added,
      reSubmitted w' = reSubmitted w ++ calls /\
      pendingMessages w' = extra ++ (if seen then [] else requeued c cur) ++ added /\
      Forall2 tracks (flushedBy calls) added /\
      list_sum (map consumed calls)
        + List.length (if seen then [] else requeued c cur) = remaining.
Proof.
  induction fuel as [|fuel IH]; intros remaining seen w w' cur extra Hq Hlen Hfuel Hrun.
  - assert (remaining = 0) by lia. subst remaining.
    destruct cur; [|discriminate]. cbn in Hrun. inversion Hrun; subst.
    exists [], []. rewrite !app_nil_r. cbn in Hq.
    unfold requeued. destruct seen, c; cbn; rewrite ?app_nil_r; auto using Forall2_nil.
  - destruct remaining as [|remaining].
    { destruct cur; [|discriminate]. cbn in Hrun. inversion Hrun; subst.
      exists [], []. rewrite !app_nil_r. cbn in Hq.
      unfold requeued. destruct seen, c; cbn; rewrite ?app_nil_r; auto using Forall2_nil. }
    destruct cur as [|m cur]; [discriminate|]. cbn [List.length] in Hlen.
    apply eq_add_S in Hlen. apply le_S_n in Hfuel.
    cbn [replayLoop] in Hrun.
    rewrite (bind_shift_cons _ w m (cur ++ extra) Hq) in Hrun.
    set (w1 := set_pendingMessages (cur ++ extra) w) in *.
    destruct (c && negb (staged (batchInfo m))) eqn:Hrq.
    + (* re-queued *)
      apply andb_true_iff in Hrq. destruct Hrq as [-> Hns].
      destruct seen; [rewrite bind_assert_false in Hrun; discriminate|].
      cbn [negb] in Hrun. rewrite bind_assert_true in Hrun.
      unfold bind at 1 in Hrun. unfold push, modify in Hrun.
      assert (Hq1 : pendingMessages (set_pendingMessages (pendingMessages w1 ++ [m]) w1)
                    = cur ++ extra ++ [m])
        by (cbn; rewrite <- app_assoc; reflexivity).
      destruct (IH remaining false _ w' cur (extra ++ [m]) Hq1 Hlen Hfuel Hrun)
        as (calls & added & Hlog & Hq' & Ht & Hcount).
      assert (Hcons : requeued true (m :: cur) = m :: requeued true cur)
        by (unfold requeued; cbn [takeWhile]; unfold notStaged at 1; rewrite Hns; reflexivity).
      exists calls, added. rewrite Hcons. cbn [List.length].
      repeat split; auto.
      * rewrite Hq', <- !app_assoc. reflexivity.
      * lia.
    + (* replayed *)
      assert (Hnone : (if seen then [] else requeued c (m :: cur)) = []).
      { destruct seen; [reflexivity|]. unfold requeued. destruct c; [|reflexivity].
        cbn [andb] in Hrq. cbn [takeWhile]. unfold notStaged. rewrite Hrq. reflexivity. }
      rewrite Hnone. cbn [List.length app].
      set (seen' := if c then true else seen) in *.
      assert (Hnone' : forall l, (if seen' then [] else requeued c l) = []).
      { intros l. unfold seen', requeued. destruct c, seen; reflexivity. }
      set (pm := if c then with_batchInfo (with_staged false (batchInfo m)) m else m) in *.
      destruct (negb (option_eqb Bool.eqb (batchFlag (opMetadata pm)) (Some false)));
        [rewrite bind_assert_true in Hrun | rewrite bind_assert_false in Hrun; discriminate].
      (* the three ways a batch is resubmitted end alike *)
      assert (Hstep : forall b md k r2 cur2 w2,
                 pendingMessages w2 = cur2 ++ extra ->
                 List.length cur2 = r2 -> r2 <= fuel ->
                 reSubmitted w2 = reSubmitted w ->
                 Nat.max 1 (List.length b) + r2 = S remaining ->
                 bind (reSubmitBatch b md) k w2 = (Ok tt, w') ->
                 (forall u, k u = replayLoop c sq fuel r2 seen') ->
                 exists calls added,
                   reSubmitted w' = reSubmitted w ++ calls /\
                   pendingMessages w' = extra ++ added /\
                   Forall2 tracks (flushedBy calls) added /\
                   list_sum (map consumed calls) + 0 = S remaining).
      { intros b md k r2 cur2 w2 Hq2 Hlen2 Hfuel2 Hlog2 Hcount2 Hbind Hk.
        unfold bind in Hbind.
        destruct (reSubmitBatch b md w2) as [[[]|e] w3] eqn:Hre; [|discriminate].
        rewrite Hk in Hbind.
        apply reSubmitBatch_ok in Hre. destruct Hre as (pushed & Hq3 & Ht3 & Hlog3).
        rewrite Hq2, <- app_assoc in Hq3.
        destruct (IH r2 seen' w3 w' cur2 (extra ++ pushed) Hq3 Hlen2 Hfuel2 Hbind)
          as (calls & added & Hlog & Hq' & Ht & Hcount).
        rewrite Hnone' in Hq', Hcount. cbn [app List.length] in Hq', Hcount.
        exists ((b, md) :: calls), (pushed ++ added).
        repeat split.
        - rewrite Hlog, Hlog3, Hlog2, <- app_assoc. reflexivity.
        - rewrite Hq', <- app_assoc. reflexivity.
        - unfold flushedBy. cbn [map concat]. apply Forall2_app; assumption.
        - cbn [map]. rewrite list_sum_cons. unfold consumed at 1. cbn [fst]. lia. }
      destruct (isEmptyBatchMarker (localOpMetadata pm)).
      { eapply (Hstep [] _ _ remaining cur w1); eauto; try reflexivity. }
      destruct (resubmitData pm) as [d|]; [|discriminate].
      destruct (batchFlag (opMetadata pm)) as [flag|].
      * destruct (Nat.ltb 0 remaining);
          [rewrite bind_assert_true in Hrun | rewrite bind_assert_false in Hrun; discriminate].
        unfold bind at 1 in Hrun.
        destruct (collectBatch remaining pm [] w1) as [[[b r2]|e] w2] eqn:Hcb; [|discriminate].
        destruct (collectBatch_ok remaining pm [] w1 cur extra b r2 w2 eq_refl Hlen Hcb)
          as (taken & cur2 & Hcur & Hq2 & Hn2 & Hb & Hlog2).
        cbn [fst snd] in Hrun.
        eapply (Hstep b _ _ r2 cur2 w2); eauto; try reflexivity.
        -- subst cur. rewrite length_app in Hlen. lia.
        -- subst cur. rewrite length_app in Hlen. cbn [List.length] in Hb. lia.
      * eapply (Hstep [d] _ _ remaining cur w1); eauto; try reflexivity.
Qed.

(** C4. A replay that returns has shifted exactly as many messages as
    the queue held at entry: every one of them was either pushed back
    unchanged (the pre-staging messages, when committing staged batches)
    or handed to the sink, one per empty batch and one per op of a batch;
    and every message flushed re-entrantly by the sink is still in the
    queue at the end, after the re-queued ones, not replayed. *)
Theorem C4_fixed_count_replay options w w' :
  replayPendingStates options w = (Ok tt, w') ->
  exists calls added,
    reSubmitted w' = reSubmitted w ++ calls /\
    pendingMessages w' = requeued (committing options) (pendingMessages w) ++ added /\
    Forall2 tracks (flushedBy calls) added /\
    list_sum (map consumed calls)
      + List.length (requeued (committing options) (pendingMessages w))
      = List.length (pendingMessages w).
Proof.
  intros Hrun.
  destruct (replayPendingStates_Ok_inv options w w' Hrun) as (H172 & H173 & H174).
  rewrite (replayPendingStates_run options w H172 H173 H174) in Hrun.
  unfold bind in Hrun.
  set (w0 := set_clientIdFromLastReplay (h_clientId w) w) in *.
  destruct (replayLoop _ _ _ _ false w0) as [[[]|e] w1] eqn:Hloop; [|discriminate].
  destruct (replayLoop_ok (committing options) (squashing options)
              (List.length (pendingMessages w)) (List.length (pendingMessages w))
              false w0 w1 (pendingMessages w) [])
    as (calls & added & Hlog & Hq & Ht & Hcount); auto.
  { cbn. rewrite app_nil_r. reflexivity. }
  destruct (replayEpilogue_run (List.length (pendingMessages w)) w1)
    as (w2 & Hep & Hq2 & Hlog2 & _).
  rewrite Hep in Hrun. inversion Hrun; subst w2.
  exists calls, added. rewrite Hq2, Hlog2, Hq, Hlog. cbn [app]. auto.
Qed.

(** *** The fuel of the replay loops is enough *)

Lemma onFlushBatch_total b csn st ign w :
  returnsOrAsserts (fst (onFlushBatch b csn st ign w)) /\
  List.length (pendingMessages w)
    <= List.length (pendingMessages (snd (onFlushBatch b csn st ign w))).
Proof.
  rewrite onFlushBatch_run.
  destruct csn; [destruct st; [|destruct (h_clientId w)]|]; cbn; split; auto;
    rewrite length_app; lia.
Qed.

Lemma flushes_total calls w :
  returnsOrAsserts (fst (forM_ flush calls w)) /\
  List.length (pendingMessages w)
    <= List.length (pendingMessages (snd (forM_ flush calls w))).
Proof.
  revert w. induction calls as [|c calls IH]; intros w; cbn [forM_].
  - cbn. auto.
  - unfold bind.
    destruct (onFlushBatch_total (fc_batch c) (fc_clientSequenceNumber c) (fc_staged c)
                (fc_ignoreBatchId c) w) as [Hr Hlen].
    fold (flush c) in Hr, Hlen.
    destruct (flush c w) as [[[]|e] w1]; cbn [fst snd] in *.
    + destruct (IH w1) as [Hr' Hlen']. split; [exact Hr' | lia].
    + auto.
Qed.

Lemma reSubmitBatch_total b md w :
  returnsOrAsserts (fst (reSubmitBatch b md w)) /\
  List.length (pendingMessages w)
    <= List.length (pendingMessages (snd (reSubmitBatch b md w))).
Proof.
  rewrite reSubmitBatch_run.
  destruct (flushes_total (reSubmitBatch_flushes b md)
              (set_reSubmitted (reSubmitted w ++ [(b, md)]) w)) as [H1 H2].
  split; [exact H1 | exact H2].
Qed.

Lemma collectBatch_total n :
  forall pm acc w,
    n <= List.length (pendingMessages w) ->
    match collectBatch n pm acc w with
    | (Ok (_, n2), w2) => n2 <= List.length (pendingMessages w2) /\ n2 <= n
    | (Throw (AssertionError _), _) => True
    | (Throw _, _) => False
    end.
Proof.
  induction n as [|n IH]; intros pm acc w Hlen; cbn [collectBatch];
    destruct (resubmitData pm) as [d|]; cbn; auto;
    destruct (option_eqb Bool.eqb (batchFlag (opMetadata pm)) (Some false)); cbn; auto.
  destruct (pendingMessages w) as [|next q] eqn:Hq; [cbn in Hlen; lia|].
  rewrite (bind_shift_cons _ w next q Hq).
  destruct (negb (option_eqb Bool.eqb (batchFlag (opMetadata next)) (Some true)));
    [rewrite bind_assert_true | rewrite bind_assert_false; exact I].
  specialize (IH next (acc ++ [d]) (set_pendingMessages q w)).
  destruct (collectBatch n next (acc ++ [d]) (set_pendingMessages q w)) as [[[b n2]|e] w2].
  - destruct IH as [H1 H2]; [cbn in *; lia|]. split; lia.
  - apply IH. cbn in *. lia.
Qed.

Lemma replayLoop_total c sq fuel :
  forall remaining seen w,
    remaining <= fuel ->
    remaining <= List.length (pendingMessages w) ->
    returnsOrAsserts (fst (replayLoop c sq fuel remaining seen w)).
Proof.
  induction fuel as [|fuel IH]; intros remaining seen w Hfuel Hlen.
  - assert (remaining = 0) by lia. subst. exact I.
  - destruct remaining as [|remaining]; [exact I|].
    cbn [replayLoop].
    destruct (pendingMessages w) as [|m q] eqn:Hq; [cbn in Hlen; lia|].
    cbn in Hlen. rewrite (bind_shift_cons _ w m q Hq).
    set (w1 := set_pendingMessages q w).
    assert (Hresubmit : forall b md k r2 w2,
               r2 <= fuel -> r2 <= List.length (pendingMessages w2) ->
               (forall u, k u = replayLoop c sq fuel r2 (if c then true else seen)) ->
               returnsOrAsserts (fst (bind (reSubmitBatch b md) k w2))).
    { intros b md k r2 w2 Hr2 Hl2 Hk. unfold bind.
      destruct (reSubmitBatch_total b md w2) as [Hr Hgrow].
      destruct (reSubmitBatch b md w2) as [[[]|e] w3]; cbn [fst snd] in *; [|exact Hr].
      rewrite Hk. apply IH; lia. }
    destruct (c && negb (staged (batchInfo m))).
    + destruct seen; cbn [negb];
        [rewrite bind_assert_false; exact I | rewrite bind_assert_true].
      unfold bind at 1. unfold push, modify.
      apply IH; [lia|]. cbn. rewrite length_app. cbn. lia.
    + match goal with
      | |- context [assert ?cond "0x41b"] =>
          destruct cond; [rewrite bind_assert_true | rewrite bind_assert_false; exact I]
      end.
      match goal with
      | |- context [if isEmptyBatchMarker ?l then _ else _] =>
          destruct (isEmptyBatchMarker l)
      end.
      { apply Hresubmit with (r2 := remaining); auto; cbn; lia. }
      match goal with
      | |- context [match resubmitData ?p with _ => _ end] =>
          destruct (resubmitData p) as [d|]; [|exact I];
          destruct (batchFlag (opMetadata p)) as [flag|];
          [|apply Hresubmit with (r2 := remaining); auto; cbn; lia];
          destruct (Nat.ltb 0 remaining);
          [rewrite bind_assert_true | rewrite bind_assert_false; exact I];
          unfold bind at 1;
          pose proof (collectBatch_total remaining p [] w1) as Hcb;
          destruct (collectBatch remaining p [] w1) as [[[b r2]|e] w2]
      end.
      * destruct Hcb as [H1 H2]; [cbn; lia|].
        apply Hresubmit with (r2 := r2); auto. lia.
      * destruct e; try (exfalso; apply Hcb; cbn; lia). exact I.
Qed.

(** [replayPendingStates] returns or fails an assertion, whatever the
    world and whatever the runtime flushes on resubmission. *)
Lemma replayPendingStates_total options w :
  returnsOrAsserts (fst (replayPendingStates options w)).
Proof.
  destruct (h_connected w || committing options) eqn:H172.
  2:{ unfold replayPendingStates. cbv zeta.
      assert (Hc : committingStagedBatches
                     match options with
                     | Some o => o
                     | None => defaultReplayPendingStatesOptions
                     end = committing options) by (destruct options; reflexivity).
      rewrite Hc, bind_gets, H172, bind_assert_false. exact I. }
  destruct (negb (committing options)
            && option_eqb String.eqb (clientIdFromLastReplay w) (h_clientId w)) eqn:H173.
  { unfold replayPendingStates. cbv zeta.
    assert (Hc : committingStagedBatches
                   match options with
                   | Some o => o
                   | None => defaultReplayPendingStatesOptions
                   end = committing options) by (destruct options; reflexivity).
    apply andb_true_iff in H173. destruct H173 as [Hnc Hsame].
    rewrite Hc, bind_gets, H172, bind_assert_true, Hnc.
    rewrite bind_bind, bind_gets, bind_bind, bind_gets, Hsame. cbn [negb].
    rewrite bind_assert_false. exact I. }
  destruct (initialMessages w) as [|im ims] eqn:H174.
  - rewrite (replayPendingStates_run options w H172); [| |exact H174].
    + unfold bind.
      pose proof (replayLoop_total (committing options) (squashing options)
                    (List.length (pendingMessages w)) (List.length (pendingMessages w))
                    false (set_clientIdFromLastReplay (h_clientId w) w)
                    (le_n _) (le_n _)) as Hloop.
      destruct (replayLoop _ _ _ _ false _) as [[[]|e] w1]; [|exact Hloop].
      destruct (replayEpilogue_run (List.length (pendingMessages w)) w1) as (w2 & -> & _).
      exact I.
    + intros Hnc. rewrite Hnc in H173. exact H173.
  - unfold replayPendingStates. cbv zeta.
    assert (Hc : committingStagedBatches
                   match options with
                   | Some o => o
                   | None => defaultReplayPendingStatesOptions
                   end = committing options) by (destruct options; reflexivity).
    rewrite Hc, bind_gets, H172, bind_assert_true.
    destruct (committing options); cbn [negb andb] in *.
    + rewrite bind_ret, bind_gets, bind_modify, bind_gets.
      cbn [initialMessages set_clientIdFromLastReplay]. rewrite H174. cbn [isEmpty].
      rewrite bind_assert_false. exact I.
    + rewrite bind_bind, bind_gets, bind_bind, bind_gets, H173. cbn [negb].
      rewrite bind_assert_true, bind_gets, bind_modify, bind_gets.
      cbn [initialMessages set_clientIdFromLastReplay]. rewrite H174. cbn [isEmpty].
      rewrite bind_assert_false. exact I.
Qed.

(** [popStagedBatches] returns, or fails its closing assertion. *)
Lemma popStagedLoop_total fuel :
  forall called w,
    List.length (pendingMessages w) <= fuel ->
    exists called' w', popStagedLoop fuel called w = (Ok called', w').
Proof.
  induction fuel as [|fuel IH]; intros called w Hlen.
  - destruct (pendingMessages w) eqn:Hq; [|cbn in Hlen; lia].
    cbn [popStagedLoop]. unfold bind, peekBack, gets. rewrite Hq. cbn. unfold ret. eauto.
  - cbn [popStagedLoop]. unfold bind at 1. unfold peekBack, gets.
    destruct (hd_error (rev (pendingMessages w))) as [back|] eqn:Hback;
      [|unfold ret; eauto].
    destruct (staged (batchInfo back)); [|unfold ret; eauto].
    unfold bind at 1. unfold pop, modify. apply IH.
    cbn [pendingMessages set_pendingMessages].
    destruct (pendingMessages w) as [|m q] eqn:Hq; [cbn; lia|].
    assert (Hne : m :: q <> []) by discriminate.
    destruct (exists_last Hne) as (q' & last & Heq). rewrite Heq.
    rewrite removelast_last. rewrite Heq, length_app in Hlen. cbn in Hlen. lia.
Qed.

Lemma popStagedBatches_total w :
  (exists called w', popStagedBatches w = (Ok called, w')) \/
  (exists w', popStagedBatches w = (Throw (AssertionError "0xb89"), w')).
Proof.
  destruct (popStagedLoop_total (List.length (pendingMessages w)) [] w (le_n _))
    as (called & w1 & Hloop).
  destruct (forallb (fun m => negb (staged (batchInfo m))) (pendingMessages w1)) eqn:Hall;
    [left; exists called, w1 | right; exists w1];
    unfold popStagedBatches; rewrite bind_gets; unfold bind at 1; rewrite Hloop;
    rewrite bind_gets; cbv beta; rewrite Hall.
  - rewrite bind_assert_true. reflexivity.
  - rewrite bind_assert_false. reflexivity.
Qed.

(** *** Diagnostics of a content mismatch *)

Lemma findFirstRawFrom_spec a :
  forall b k,
    (a = b /\ findFirstRawFrom k a b = ((-1)%Z, None, None)) \/
    (exists j,
        findFirstRawFrom k a b = (Z.of_nat (k + j), String.get j a, String.get j b) /\
        substring 0 j a = substring 0 j b /\
        String.get j a <> String.get j b).
Proof.
  induction a as [|x a IH]; intros b k; destruct b as [|y b]; cbn [findFirstRawFrom].
  - left. auto.
  - right. exists 0. rewrite Nat.add_0_r. cbn. repeat split. discriminate.
  - right. exists 0. rewrite Nat.add_0_r. cbn. repeat split. discriminate.
  - destruct (Ascii.eqb x y) eqn:Hxy.
    + apply Ascii.eqb_eq in Hxy. subst y.
      destruct (IH b (S k)) as [[-> Hrun] | (j & Hrun & Hpre & Hne)].
      * left. auto.
      * right. exists (S j). rewrite Hrun. cbn [String.get substring].
        replace (k + S j) with (S k + j) by lia.
        repeat split; [rewrite Hpre; reflexivity | exact Hne].
    + right. exists 0. rewrite Nat.add_0_r. cbn. repeat split.
      intros H. inversion H; subst. rewrite Ascii.eqb_refl in Hxy. discriminate.
Qed.

Lemma scrubChar_scrubbed raw : scrubbedChar (scrubChar raw).
Proof.
  unfold scrubbedChar, scrubChar. destruct raw as [c|]; [|auto].
  destruct (Nat.leb (nat_of_ascii c) 127) eqn:Hc; [|auto].
  right. left. exists c. apply Nat.leb_le in Hc. auto.
Qed.

(** X1. The index [findFirstCharacterMismatched] reports is [-1] exactly
    when the strings are equal; otherwise it is the first position at
    which they differ: the prefixes before it agree and the characters at
    it (or the end of the shorter string) do not. *)
Theorem findFirstCharacterMismatched_first_difference a b :
  (fst (fst (findFirstCharacterMismatched a b)) = (-1)%Z <-> a = b) /\
  (a <> b ->
   exists j,
     fst (fst (findFirstCharacterMismatched a b)) = Z.of_nat j /\
     substring 0 j a = substring 0 j b /\
     String.get j a <> String.get j b).
Proof.
  unfold findFirstCharacterMismatched, findFirstRawCharacterMismatched.
  destruct (findFirstRawFrom_spec a b 0) as [[-> Hrun] | (j & Hrun & Hpre & Hne)];
    rewrite Hrun; cbn [fst snd].
  - split; [tauto|]. intros H. congruence.
  - split.
    + split; [lia|]. intros ->. congruence.
    + intros _. exists j. auto.
Qed.

(** X2. The two characters [findFirstCharacterMismatched] reports are
    scrubbed: each is absent, a single ASCII character, or the marker
    ["[non-ASCII]"]; a character above 0x7f is never reported. *)
Theorem findFirstCharacterMismatched_scrubs a b :
  scrubbedChar (snd (fst (findFirstCharacterMismatched a b))) /\
  scrubbedChar (snd (findFirstCharacterMismatched a b)).
Proof.
  unfold findFirstCharacterMismatched.
  destruct (findFirstRawCharacterMismatched a b) as [[i ca] cb]. cbn [fst snd].
  split; apply scrubChar_scrubbed.
Qed.

Lemma setField_values (P : JsValue -> Prop) k v fields :
  P v -> Forall (fun kv => P (snd kv)) fields ->
  Forall (fun kv => P (snd kv)) (setField k v fields).
Proof.
  intros Hv Hall. induction Hall as [|[k' v'] rest Hkv Hrest IH]; cbn [setField].
  - constructor; [exact Hv | constructor].
  - destruct (String.eqb k k'); constructor; auto.
Qed.

Lemma typeOf_name v : In (typeOf v) typeNames.
Proof. destruct v; cbn; tauto. Qed.

(** X3. [typesOfKeys] keeps no value of the object it scrubs: every
    property of its result is the name of a type. *)
Theorem typesOfKeys_only_type_names obj scrubbed :
  typesOfKeys obj = Some scrubbed ->
  Forall (fun kv => exists name, snd kv = JStr name /\ In name typeNames) scrubbed.
Proof.
  unfold typesOfKeys. destruct (ownEntries obj) as [entries|]; [|discriminate].
  intros H. inversion H; subst; clear H.
  assert (Hgen : forall acc,
             Forall (fun kv => exists name, snd kv = JStr name /\ In name typeNames) acc ->
             Forall (fun kv => exists name, snd kv = JStr name /\ In name typeNames)
                    (fold_left (fun acc kv => setField (fst kv) (JStr (typeOf (snd kv))) acc)
                               entries acc)).
  { induction entries as [|kv entries IH]; intros acc Hacc; cbn [fold_left]; [exact Hacc|].
    apply IH.
    apply (setField_values (fun v => exists name, v = JStr name /\ In name typeNames)).
    - exists (typeOf (snd kv)). split; [reflexivity | apply typeOf_name].
    - exact Hacc. }
  apply Hgen. constructor.
Qed.

(** *** What the replay leaves alone *)

Lemma preserves_ret {A B} (f : World -> B) (a : A) : preserves f (ret a).
Proof. intros w. reflexivity. Qed.

Lemma preserves_throw {A B} (f : World -> B) e : preserves f (@throw A e).
Proof. intros w. reflexivity. Qed.

Lemma preserves_assert {B} (f : World -> B) c code : preserves f (assert c code).
Proof. destruct c; intros w; reflexivity. Qed.

Lemma preserves_gets {A B} (f : World -> B) (g : World -> A) : preserves f (gets g).
Proof. intros w. reflexivity. Qed.

Lemma preserves_bind {A B C} (f : World -> C) (m : M A) (k : A -> M B) :
  preserves f m -> (forall a, preserves f (k a)) -> preserves f (bind m k).
Proof.
  intros Hm Hk w. unfold bind. specialize (Hm w).
  destruct (m w) as [[a|e] w1]; cbn [snd] in *; [rewrite Hk|]; exact Hm.
Qed.

Lemma preserves_forM_ {A B} (f : World -> B) (g : A -> M unit) l :
  (forall a, preserves f (g a)) -> preserves f (forM_ g l).
Proof.
  intros Hg. induction l as [|a l IH]; cbn [forM_].
  - apply preserves_ret.
  - apply preserves_bind; auto.
Qed.

Section BesideQueue.

Context {B : Type} (f : World -> B) (Hf : besideQueue f).

Lemma preserves_shift : preserves f shift.
Proof.
  intros w. unfold shift. destruct (pendingMessages w); [reflexivity|]. apply Hf.
Qed.

Lemma preserves_push m : preserves f (push m).
Proof. intros w. apply Hf. Qed.


Lemma preserves_onFlushBatch b csn st ign : preserves f (onFlushBatch b csn st ign).
Proof.
  intros w. rewrite onFlushBatch_run. destruct Hf as (Hq & Hu & _).
  destruct csn; [destruct st; [|destruct (h_clientId w)]|]; cbn [snd];
    rewrite ?Hq, ?Hu; reflexivity.
Qed.

Lemma preserves_reSubmitBatch b md : preserves f (reSubmitBatch b md).
Proof.
  intros w. rewrite reSubmitBatch_run.
  rewrite (preserves_forM_ f flush (reSubmitBatch_flushes b md)
             (fun c => preserves_onFlushBatch _ _ _ _)).
  apply Hf.
Qed.

Lemma preserves_collectBatch n pm acc : preserves f (collectBatch n pm acc).
Proof.
  revert pm acc. induction n as [|n IH]; intros pm acc; cbn [collectBatch];
    destruct (resubmitData pm); try apply preserves_throw;
    destruct (option_eqb _ _ _); try apply preserves_ret; try apply preserves_throw.
  apply preserves_bind; [apply preserves_shift|].
  intros [next|]; [|apply preserves_throw].
  apply preserves_bind; [apply preserves_assert|]. intros _. apply IH.
Qed.

Lemma preserves_replayLoop c sq fuel n seen : preserves f (replayLoop c sq fuel n seen).
Proof.
  revert n seen. induction fuel as [|fuel IH]; intros n seen;
    destruct n as [|n]; cbn [replayLoop]; try apply preserves_ret; try apply preserves_throw.
  apply preserves_bind; [apply preserves_shift|].
  intros [pm|]; [|apply preserves_throw].
  destruct (c && negb (staged (batchInfo pm))).
  { apply preserves_bind; [apply preserves_assert|]. intros _.
    apply preserves_bind; [apply preserves_push|]. intros _. apply IH. }
  apply preserves_bind; [apply preserves_assert|]. intros _.
  destruct (isEmptyBatchMarker _).
  { apply preserves_bind; [apply preserves_reSubmitBatch|]. intros _. apply IH. }
  destruct (resubmitData _); [|apply preserves_throw].
  destruct (batchFlag _).
  - apply preserves_bind; [apply preserves_assert|]. intros _.
    apply preserves_bind; [apply preserves_collectBatch|]. intros r.
    apply preserves_bind; [apply preserves_reSubmitBatch|]. intros _. apply IH.
  - apply preserves_bind; [apply preserves_reSubmitBatch|]. intros _. apply IH.
Qed.


End BesideQueue.

Lemma besideQueue_savedOps : besideQueue savedOps.
Proof. repeat split. Qed.

Lemma besideQueue_telemetry : besideQueue telemetry.
Proof. repeat split. Qed.

Lemma besideQueue_activeConnection : besideQueue h_isActiveConnection.
Proof. repeat split. Qed.

Lemma besideQueue_clientId : besideQueue h_clientId.
Proof. repeat split. Qed.

(** X4. A replay that returns has emptied the saved ops, recorded the
    handler's client id in its guard, and logged [PendingStatesReplayed]
    exactly when the connection is active, with the number of messages
    that were pending at entry, however many the resubmission added. *)
Theorem replayPendingStates_epilogue options w w' :
  replayPendingStates options w = (Ok tt, w') ->
  savedOps w' = [] /\
  clientIdFromLastReplay w' = h_clientId w /\
  telemetry w' =
    telemetry w ++ (if h_isActiveConnection w
                    then [replayedEvent (List.length (pendingMessages w)) (h_clientId w)]
                    else []).
Proof.
  intros Hrun.
  destruct (replayPendingStates_Ok_inv options w w' Hrun) as (H172 & H173 & H174).
  rewrite (replayPendingStates_run options w H172 H173 H174) in Hrun.
  unfold bind in Hrun.
  set (w0 := set_clientIdFromLastReplay (h_clientId w) w) in *.
  set (n := List.length (pendingMessages w)) in *.
  pose proof (keeps_replayLoop (committing options) (squashing options) n n false w0) as Henv.
  pose proof (preserves_replayLoop telemetry besideQueue_telemetry
                (committing options) (squashing options) n n false w0) as Htel.
  destruct (replayLoop _ _ n n false w0) as [[[]|e] w1]; [|discriminate].
  cbn [snd] in Henv, Htel. apply environment_eq in Henv.
  destruct Henv as (_ & Hcid & Hact & _ & Hguard & _).
  unfold replayEpilogue in Hrun. rewrite bind_modify, bind_gets in Hrun.
  cbn [h_isActiveConnection set_savedOps] in Hrun. rewrite Hact in Hrun.
  cbn [h_isActiveConnection w0 set_clientIdFromLastReplay] in Hrun.
  destruct (h_isActiveConnection w).
  - rewrite bind_gets in Hrun. inversion Hrun; subst w'. cbn.
    rewrite Htel, Hguard, Hcid. repeat split.
  - inversion Hrun; subst w'. cbn. rewrite Htel, Hguard, app_nil_r. repeat split.
Qed.

(** *** What the sink is told *)

Lemma collectBatch_log n :
  forall pm acc w, reSubmitted (snd (collectBatch n pm acc w)) = reSubmitted w.
Proof.
  induction n as [|n IH]; intros pm acc w; cbn [collectBatch];
    destruct (resubmitData pm); try reflexivity;
    destruct (option_eqb _ _ _); try reflexivity.
  unfold bind at 1. unfold shift.
  destruct (pendingMessages w) as [|next q]; [reflexivity|].
  destruct (negb (option_eqb Bool.eqb (batchFlag (opMetadata next)) (Some true)));
    [rewrite bind_assert_true | rewrite bind_assert_false; reflexivity].
  rewrite IH. reflexivity.
Qed.

(** The calls of the sink made by the outer loop, however it ends. *)
Lemma replayLoop_calls c sq fuel :
  forall n seen w,
  exists calls,
    reSubmitted (snd (replayLoop c sq fuel n seen w)) = reSubmitted w ++ calls /\
    Forall (fun call => rm_squash (snd call) = sq /\
                        (c = true -> rm_staged (snd call) = false)) calls.
Proof.
  induction fuel as [|fuel IH]; intros n seen w.
  - exists []. rewrite app_nil_r. destruct n; split; constructor.
  - destruct n as [|n]; [exists []; rewrite app_nil_r; split; constructor|].
    cbn [replayLoop]. unfold bind at 1. unfold shift.
    destruct (pendingMessages w) as [|m q] eqn:Hq;
      [exists []; rewrite app_nil_r; split; constructor|].
    set (w1 := set_pendingMessages q w).
    assert (Hresubmit : forall b md k r2 seen2 w2,
               reSubmitted w2 = reSubmitted w ->
               rm_squash md = sq -> (c = true -> rm_staged md = false) ->
               (forall u, k u = replayLoop c sq fuel r2 seen2) ->
               exists calls,
                 reSubmitted (snd (bind (reSubmitBatch b md) k w2)) = reSubmitted w ++ calls /\
                 Forall (fun call => rm_squash (snd call) = sq /\
                                     (c = true -> rm_staged (snd call) = false)) calls).
    { intros b md k r2 seen2 w2 Hlog Hsq Hst Hk. unfold bind.
      pose proof (reSubmitBatch_log b md w2) as Hre.
      destruct (reSubmitBatch b md w2) as [[[]|e] w3]; cbn [snd] in *.
      - rewrite Hk. destruct (IH r2 seen2 w3) as (calls & Hcalls & Hall).
        exists ((b, md) :: calls). rewrite Hcalls, Hre, Hlog, <- app_assoc.
        split; [reflexivity|]. constructor; auto.
      - exists [(b, md)]. rewrite Hre, Hlog. split; [reflexivity|].
        constructor; [auto | constructor]. }
    destruct (c && negb (staged (batchInfo m))) eqn:Hrq.
    + destruct seen; cbn [negb].
      * rewrite bind_assert_false. exists []. rewrite app_nil_r. split; constructor.
      * rewrite bind_assert_true. unfold bind at 1. unfold push, modify.
        destruct (IH n false (set_pendingMessages (pendingMessages w1 ++ [m]) w1))
          as (calls & Hcalls & Hall).
        exists calls. rewrite Hcalls. split; [reflexivity | exact Hall].
    + set (pm := if c then with_batchInfo (with_staged false (batchInfo m)) m else m).
      assert (Hst : c = true -> staged (batchInfo pm) = false)
        by (intros ->; reflexivity).
      destruct (negb (option_eqb Bool.eqb (batchFlag (opMetadata pm)) (Some false)));
        [rewrite bind_assert_true
        | rewrite bind_assert_false; exists []; rewrite app_nil_r; split; constructor].
      destruct (isEmptyBatchMarker (localOpMetadata pm)).
      { apply (Hresubmit [] _ _ n (if c then true else seen) w1); auto; reflexivity. }
      destruct (resubmitData pm) as [d|];
        [|exists []; rewrite app_nil_r; split; constructor].
      destruct (batchFlag (opMetadata pm)) as [flag|].
      * destruct (Nat.ltb 0 n);
          [rewrite bind_assert_true
          | rewrite bind_assert_false; exists []; rewrite app_nil_r; split; constructor].
        unfold bind at 1.
        pose proof (collectBatch_log n pm [] w1) as Hcb.
        destruct (collectBatch n pm [] w1) as [[[b r2]|e] w2]; cbn [snd fst] in *.
        -- apply (Hresubmit b _ _ r2 (if c then true else seen) w2); auto; reflexivity.
        -- exists []. rewrite app_nil_r, Hcb. split; [reflexivity | constructor].
      * apply (Hresubmit [d] _ _ n (if c then true else seen) w1); auto; reflexivity.
Qed.

(** The four ways [replayPendingStates] goes: one of its three opening
    assertions fails, the third after the guard has been armed, or the
    loop runs. *)
Lemma replayPendingStates_cases options w :
  (h_connected w || committing options = false /\
   replayPendingStates options w = (Throw (AssertionError "0x172"), w)) \/
  (h_connected w || committing options = true /\
   committing options = false /\
   option_eqb String.eqb (clientIdFromLastReplay w) (h_clientId w) = true /\
   replayPendingStates options w = (Throw (AssertionError "0x173"), w)) \/
  (h_connected w || committing options = true /\
   (committing options = false ->
    option_eqb String.eqb (clientIdFromLastReplay w) (h_clientId w) = false) /\
   initialMessages w <> [] /\
   replayPendingStates options w
     = (Throw (AssertionError "0x174"), set_clientIdFromLastReplay (h_clientId w) w)) \/
  (h_connected w || committing options = true /\
   (committing options = false ->
    option_eqb String.eqb (clientIdFromLastReplay w) (h_clientId w) = false) /\
   initialMessages w = [] /\
   replayPendingStates options w =
     bind (replayLoop (committing options) (squashing options)
                      (List.length (pendingMessages w)) (List.length (pendingMessages w)) false)
          (fun _ => replayEpilogue (List.length (pendingMessages w)))
          (set_clientIdFromLastReplay (h_clientId w) w)).
Proof.
  assert (Hc : committingStagedBatches
                 match options with
                 | Some o => o
                 | None => defaultReplayPendingStatesOptions
                 end = committing options) by (destruct options; reflexivity).
  destruct (h_connected w || committing options) eqn:H172.
  2:{ left. split; [reflexivity|]. unfold replayPendingStates. cbv zeta.
      rewrite Hc, bind_gets, H172, bind_assert_false. reflexivity. }
  right.
  destruct (negb (committing options)
            && option_eqb String.eqb (clientIdFromLastReplay w) (h_clientId w)) eqn:H173.
  { left. apply andb_true_iff in H173. destruct H173 as [Hnc Hsame].
    apply negb_true_iff in Hnc. repeat split; auto.
    unfold replayPendingStates. cbv zeta.
    rewrite Hc, bind_gets, H172, bind_assert_true, Hnc. cbn [negb].
    rewrite bind_bind, bind_gets, bind_bind, bind_gets, Hsame. cbn [negb].
    rewrite bind_assert_false. reflexivity. }
  right.
  assert (Hguard : committing options = false ->
                   option_eqb String.eqb (clientIdFromLastReplay w) (h_clientId w) = false)
    by (intros Hnc; rewrite Hnc in H173; exact H173).
  destruct (initialMessages w) as [|im ims] eqn:H174.
  - right. repeat split; auto.
    apply (replayPendingStates_run options w H172 Hguard H174).
  - left. repeat split; auto; [discriminate|].
    unfold replayPendingStates. cbv zeta.
    rewrite Hc, bind_gets, H172, bind_assert_true.
    destruct (committing options); cbn [negb andb] in *.
    + rewrite bind_ret, bind_gets, bind_modify, bind_gets.
      cbn [initialMessages set_clientIdFromLastReplay]. rewrite H174. cbn [isEmpty].
      rewrite bind_assert_false. reflexivity.
    + rewrite bind_bind, bind_gets, bind_bind, bind_gets, H173. cbn [negb].
      rewrite bind_assert_true, bind_gets, bind_modify, bind_gets.
      cbn [initialMessages set_clientIdFromLastReplay]. rewrite H174. cbn [isEmpty].
      rewrite bind_assert_false. reflexivity.
Qed.

(** X5. Every batch [replayPendingStates] hands to the sink, whether the
    replay then returns or throws, carries the [squash] option of the
    call; and when staged batches are being committed, every one of them
    is handed over as not staged. *)
Theorem replayPendingStates_sink_metadata options w :
  exists calls,
    reSubmitted (worldAfter (replayPendingStates options) w) = reSubmitted w ++ calls /\
    Forall (fun call => rm_squash (snd call) = squashing options /\
                        (committing options = true -> rm_staged (snd call) = false)) calls.
Proof.
  unfold worldAfter.
  destruct (replayPendingStates_cases options w)
    as [[_ ->] | [(_ & _ & _ & ->) | [(_ & _ & _ & ->) | (_ & _ & _ & ->)]]];
    try (exists []; rewrite app_nil_r; split; [reflexivity | constructor]).
  unfold bind.
  destruct (replayLoop_calls (committing options) (squashing options)
              (List.length (pendingMessages w)) (List.length (pendingMessages w))
              false (set_clientIdFromLastReplay (h_clientId w) w)) as (calls & Hcalls & Hall).
  exists calls. split; [|exact Hall].
  destruct (replayLoop _ _ _ _ false _) as [[[]|e] w1]; cbn [snd] in *; [|exact Hcalls].
  destruct (replayEpilogue_run (List.length (pendingMessages w)) w1)
    as (w2 & -> & _ & Hlog & _).
  cbn [snd]. rewrite Hlog. exact Hcalls.
Qed.

(** X6. While the stash queue is not empty [replayPendingStates] resubmits
    nothing: one of its three opening assertions fails and the pending
    queue and the sink are untouched.  When it is the third, 0x174, the
    replay guard already holds the handler's client id. *)
Theorem replayPendingStates_needs_drained_stash options w :
  initialMessages w <> [] ->
  exists code w',
    replayPendingStates options w = (Throw (AssertionError code), w') /\
    In code ["0x172"; "0x173"; "0x174"] /\
    pendingMessages w' = pendingMessages w /\
    reSubmitted w' = reSubmitted w /\
    initialMessages w' = initialMessages w /\
    (code = "0x174" -> clientIdFromLastReplay w' = h_clientId w) /\
    (code <> "0x174" -> w' = w).
Proof.
  intros Hstash.
  destruct (replayPendingStates_cases options w)
    as [[_ ->] | [(_ & _ & _ & ->) | [(_ & _ & _ & ->) | (_ & _ & Hnil & _)]]].
  - exists "0x172", w. cbn. repeat split; auto. discriminate.
  - exists "0x173", w. cbn. repeat split; auto. discriminate.
  - exists "0x174", (set_clientIdFromLastReplay (h_clientId w) w). cbn.
    repeat split; auto. congruence.
  - contradiction.
Qed.

(** *** Flushing, seen from outside *)

(** X7. [onFlushBatch] is all or nothing.  When it returns, the queue has
    grown by the batch, whose records share one [batchInfo]: the length
    of the batch, the staged flag, and either the handler's client id
    with the given client sequence number or, for a batch that was not
    sent, the sentinel [-1].  When it throws, which only a sent batch
    can, nothing has changed. *)
Theorem onFlushBatch_all_or_nothing batch csn st ign w r w' :
  onFlushBatch batch csn st ign w = (r, w') ->
  (r = Ok tt /\
   pendingMessagesCount w' = pendingMessagesCount w + List.length batch /\
   exists pushed bi,
     pendingMessages w' = pendingMessages w ++ pushed /\
     Forall2 tracks batch pushed /\
     Forall (fun pm => batchInfo pm = bi) pushed /\
     batchLength bi = Z.of_nat (List.length batch) /\
     staged bi = st /\ ignoreBatchId bi = ign /\
     match csn with
     | Some n => batchStartCsn bi = n /\ h_clientId w = Some (clientId bi)
     | None => batchStartCsn bi = (-1)%Z /\ clientId bi = uuid (uuidCalls w)
     end) \/
  (exists code,
      r = Throw (AssertionError code) /\ w' = w /\ csn <> None /\
      (st = true \/ h_clientId w = None)).
Proof.
  rewrite onFlushBatch_run. intros Hrun.
  assert (Hshared : forall cid n,
             Forall (fun pm => batchInfo pm
                               = {| clientId := cid; batchStartCsn := n;
                                    batchLength := Z.of_nat (List.length batch);
                                    ignoreBatchId := ign; staged := st |})
                    (map (pendingOf cid n (List.length batch) st ign) batch)).
  { intros cid n. apply Forall_forall. intros pm Hin. apply in_map_iff in Hin.
    destruct Hin as (m & <- & _). reflexivity. }
  destruct csn as [n|].
  - destruct st.
    + inversion Hrun; subst. right. exists "0xb84". repeat split; auto. discriminate.
    + destruct (h_clientId w) as [cid|] eqn:Hcid.
      * inversion Hrun; subst. left. split; [reflexivity|]. split.
        { unfold pendingMessagesCount. cbn. rewrite length_app, length_map. lia. }
        eexists _, _. split; [reflexivity|].
        split; [apply Forall2_tracks_map|]. split; [apply Hshared|].
        cbn. auto.
      * inversion Hrun; subst. right. exists "0xa33". repeat split; auto. discriminate.
  - inversion Hrun; subst. left. split; [reflexivity|]. split.
    { unfold pendingMessagesCount. cbn. rewrite length_app, length_map. lia. }
    eexists _, _. split; [reflexivity|].
    split; [apply Forall2_tracks_map|]. split; [apply Hshared|].
    cbn. auto.
Qed.

(** *** Acks of local batches *)



(** X9. A local ack with nothing to match fails an assertion and changes
    nothing: on an empty pending queue, 0xa21 when the inbound carries a
    batch start and 0x169 when it does not; and 0xb85 when the inbound
    carries a batch start and the front pending message is staged. *)
Theorem processInboundMessages_local_unmatched inbound w :
  (pendingMessages w = [] ->
   processInboundMessages inbound true w
     = (Throw (AssertionError (if isSome (inboundBatchStart inbound) then "0xa21" else "0x169")),
        w)) /\
  (forall front rest,
      pendingMessages w = front :: rest ->
      staged (batchInfo front) = true ->
      inboundBatchStart inbound <> None ->
      processInboundMessages inbound true w = (Throw (AssertionError "0xb85"), w)).
Proof.
  split.
  - intros Hq. unfold processInboundMessages, processPendingLocalMessages.
    destruct inbound as [msgs bs len | bs m | m]; cbn [inboundBatchStart isSome inboundLength].
    + unfold bind at 1. unfold onLocalBatchBegin, peekFront. rewrite bind_gets, Hq. reflexivity.
    + unfold bind at 1. unfold onLocalBatchBegin, peekFront. rewrite bind_gets, Hq. reflexivity.
    + rewrite bind_ret. cbn [inboundMessages mapM]. unfold bind at 1. unfold bind at 1.
      rewrite (processNextPendingMessage_nil _ _ w Hq). reflexivity.
  - intros front rest Hq Hst Hbs.
    unfold processInboundMessages, processPendingLocalMessages.
    destruct (inboundBatchStart inbound) as [bs|]; [|congruence].
    unfold bind at 1. unfold onLocalBatchBegin, peekFront.
    rewrite bind_gets, Hq. cbn [hd_error]. rewrite Hst. cbn [negb].
    rewrite bind_assert_false. reflexivity.
Qed.

(** *** Local state *)

Lemma filterM_saved snapshot saved w :
  filterM (fun message : IPendingMessage =>
             match sequenceNumber message with
             | None => throw (AssertionError "0x97c")
             | Some n =>
                 ret (Z.ltb (match snapshot with Some s => s | None => 0%Z end) n)
             end) saved w
  = if forallb (fun m => isSome (sequenceNumber m)) saved
    then (Ok (filter (newerThan snapshot) saved), w)
    else (Throw (AssertionError "0x97c"), w).
Proof.
  induction saved as [|m saved IH]; [reflexivity|].
  cbn [filterM forallb filter]. unfold newerThan at 1.
  destruct (sequenceNumber m) as [n|]; cbn [isSome andb].
  - rewrite bind_ret. unfold bind at 1. rewrite IH.
    destruct (forallb _ saved); [|reflexivity].
    destruct (Z.ltb _ n); reflexivity.
  - apply bind_throw.
Qed.

Lemma forM_stale snapshot pending w :
  forM_ (fun message : IPendingMessage =>
           if match snapshot with
              | Some s => Z.ltb (referenceSequenceNumber message) s
              | None => false
              end
           then throw staleError
           else ret tt) pending w
  = if existsb (olderThan snapshot) pending then (Throw staleError, w) else (Ok tt, w).
Proof.
  induction pending as [|m pending IH]; [reflexivity|].
  cbn [forM_ existsb]. unfold olderThan at 1.
  destruct (match snapshot with Some s => _ | None => false end); cbn [orb].
  - apply bind_throw.
  - rewrite bind_ret. apply IH.
Qed.

Lemma getLocalState_run snapshot w :
  getLocalState snapshot w =
    if negb (isEmpty (initialMessages w)) then (Throw (AssertionError "0x2e9"), w)
    else if negb (forallb (fun m => isSome (sequenceNumber m)) (savedOps w))
    then (Throw (AssertionError "0x97c"), w)
    else if existsb (olderThan snapshot) (pendingMessages w) then (Throw staleError, w)
    else (Ok {| pendingStates :=
                  map asStashed (filter (newerThan snapshot) (savedOps w))
                  ++ map (fun m => asStashed (toSerializableForm m)) (pendingMessages w) |},
          w).
Proof.
  unfold getLocalState. rewrite bind_gets.
  destruct (isEmpty (initialMessages w)); cbn [negb].
  - rewrite bind_assert_true, bind_gets. unfold bind at 1. rewrite filterM_saved.
    destruct (forallb _ (savedOps w)); cbn [negb]; [|reflexivity].
    rewrite bind_gets. unfold bind at 1. fold staleError. rewrite forM_stale.
    destruct (existsb _ (pendingMessages w)); reflexivity.
  - apply bind_assert_false.
Qed.



(** X11. What [getLocalState] returns: the saved ops whose sequence number
    exceeds the snapshot's (or 0), in order, followed by one record for
    each pending message, in order, with the same content, reference
    sequence number, metadata and batch info and without runtime op or
    localOpMetadata.  No pending message is older than the snapshot. *)
Theorem getLocalState_returns snapshot w state w' :
  getLocalState snapshot w = (Ok state, w') ->
  exists savedPart pendingPart,
    pendingStates state = savedPart ++ pendingPart /\
    savedPart = map asStashed (filter (newerThan snapshot) (savedOps w)) /\
    Forall (fun m => exists n, sequenceNumber m = Some n /\
                               (match snapshot with Some s => s | None => 0 end < n)%Z)
           savedPart /\
    Forall2 stashedFrom (pendingMessages w) pendingPart /\
    Forall (fun pm => forall s, snapshot = Some s -> (s <= referenceSequenceNumber pm)%Z)
           (pendingMessages w).
Proof.
  rewrite getLocalState_run.
  destruct (negb (isEmpty (initialMessages w))); [discriminate|].
  destruct (negb (forallb _ (savedOps w))); [discriminate|].
  destruct (existsb _ (pendingMessages w)) eqn:Hstale; [discriminate|].
  intros H. inversion H; subst; clear H. cbn [pendingStates].
  eexists _, _. split; [reflexivity|]. split; [reflexivity|]. split; [|split].
  - apply Forall_forall. intros m Hin. apply in_map_iff in Hin.
    destruct Hin as (pm & <- & Hin). apply filter_In in Hin. destruct Hin as [_ Hnew].
    unfold newerThan in Hnew. cbn. destruct (sequenceNumber pm) as [n|]; [|discriminate].
    exists n. split; [reflexivity|]. apply Z.ltb_lt. exact Hnew.
  - induction (pendingMessages w') as [|pm q IH]; constructor.
    + repeat split.
    + apply IH. cbn in Hstale. apply orb_false_iff in Hstale. apply Hstale.
  - apply Forall_forall. intros pm Hin s ->.
    destruct (Z.ltb (referenceSequenceNumber pm) s) eqn:Hlt; [|apply Z.ltb_ge; exact Hlt].
    assert (existsb (olderThan (Some s)) (pendingMessages w') = true); [|congruence].
    apply existsb_exists. exists pm. split; [exact Hin|exact Hlt].
Qed.

(** *** The saved ops over a lifetime *)









(** Stash rehydration touches the two queues, the uuid counter and the
    log of handler calls. *)
Section BesideStash.

Context {B : Type} (f : World -> B) (Hf : besideQueue f).
Hypothesis Hinitial : forall q w, f (set_initialMessages q w) = f w.
Hypothesis Happlied : forall l w, f (set_appliedStashedOps l w) = f w.


Lemma preserves_patchbatchInfo m : preserves f (patchbatchInfo m).
Proof.
  unfold patchbatchInfo. destruct (batchInfo m); [apply preserves_ret|].
  apply preserves_bind; [|intros; apply preserves_ret].
  intros w. cbn. apply Hf.
Qed.

Lemma preserves_applyStashedMessage m : preserves f (applyStashedMessage m).
Proof.
  unfold applyStashedMessage.
  apply preserves_bind; [intros w; reflexivity|]. intros [|].
  - apply preserves_bind; [apply preserves_patchbatchInfo|]. intros p.
    apply (preserves_push f Hf).
  - apply preserves_bind.
    { unfold callApplyStashedOp. apply preserves_bind; [|intros _ w; reflexivity].
      intros w. cbn. apply Happlied. }
    intros l. apply preserves_bind; [apply preserves_gets|]. intros [|].
    + destruct (JSON_parse (content m)) as [parsed|]; [|apply preserves_throw].
      destruct (getProp parsed "type"); [|apply preserves_throw].
      destruct (getProp parsed "contents"); [|apply preserves_throw].
      apply preserves_bind; [apply preserves_patchbatchInfo|]. intros p.
      apply (preserves_push f Hf).
    + destruct l; try apply preserves_throw. apply preserves_ret.
Qed.



End BesideStash.






(** *** Rehydrating the stash *)

Lemma applyStashedOpsLoop_at fuel seqNum w m rest :
  initialMessages w = m :: rest ->
  atTarget seqNum m ->
  applyStashedOpsLoop (S fuel) seqNum w =
    match applyStashedMessage m (set_initialMessages rest w) with
    | (Ok _, w2) => applyStashedOpsLoop fuel seqNum w2
    | (Throw e, w2) => (Throw (wrapIfUnrecognized e "applyStashedOp"), w2)
    end.
Proof.
  intros Hq Hm. destruct seqNum as [target|].
  - apply (applyStashedOpsLoop_step fuel target w m rest Hq Hm).
  - cbn [applyStashedOpsLoop]. rewrite bind_gets, Hq. cbn [hd_error].
    unfold bind at 1. unfold shiftInitial. rewrite Hq.
    unfold bind at 1. rewrite rethrowing_run.
    destruct (applyStashedMessage m (set_initialMessages rest w)) as [[[]|e] w2]; reflexivity.
Qed.

Lemma patch_push_run m w :
  exists pm,
    bind (patchbatchInfo m) (fun patched => push patched) w
      = (Ok tt,
         set_pendingMessages (pendingMessages w ++ [pm])
           (match batchInfo m with
            | Some _ => w
            | None => set_uuidCalls (S (uuidCalls w)) w
            end)) /\
    referenceSequenceNumber pm = referenceSequenceNumber m /\
    content pm = content m /\
    opMetadata pm = opMetadata m /\
    sequenceNumber pm = sequenceNumber m /\
    localOpMetadata pm = localOpMetadata m /\
    runtimeOp pm = runtimeOp m /\
    match batchInfo m with
    | Some bi => batchInfo pm = bi
    | None => exists n, batchInfo pm = legacyBatchInfo (uuid n)
    end.
Proof.
  unfold patchbatchInfo. destruct (batchInfo m) as [bi|] eqn:Hbi.
  - rewrite bind_ret. eexists. split; [reflexivity|]. repeat split.
  - rewrite bind_bind. unfold bind at 1. unfold callUuid. rewrite bind_ret.
    eexists. split; [reflexivity|]. repeat split. exists (uuidCalls w). reflexivity.
Qed.

Lemma applyStashedMessage_attached m w :
  h_isAttached w = true ->
  applicable m ->
  exists pm w',
    applyStashedMessage m w = (Ok tt, w') /\
    pendingMessages w' = pendingMessages w ++ [pm] /\
    initialMessages w' = initialMessages w /\
    h_isAttached w' = true /\
    appliedStashedOps w' = appliedStashedOps w ++ appliedContents [m] /\
    rehydrated m pm.
Proof.
  intros Hatt Happ. unfold applyStashedMessage, appliedContents. cbn [filter].
  destruct Happ as [Hempty | (Hempty & l & Hl)].
  - rewrite Hempty. unfold bind at 1. unfold liftOutcome.
    destruct (patch_push_run (with_localOpMetadata LomEmptyBatch m) w)
      as (pm & Hrun & Hr & Hc & Hop & Hs & Hlom & Hro & Hbi).
    rewrite Hrun. exists pm. eexists. split; [reflexivity|].
    cbn [map]. rewrite app_nil_r.
    split; [reflexivity|].
    split; [destruct (batchInfo (with_localOpMetadata LomEmptyBatch m)); reflexivity|].
    split; [destruct (batchInfo (with_localOpMetadata LomEmptyBatch m)); exact Hatt|].
    split; [destruct (batchInfo (with_localOpMetadata LomEmptyBatch m)); reflexivity|].
    unfold rehydrated. rewrite Hempty. repeat split; assumption.
  - rewrite Hempty. unfold bind at 1. unfold liftOutcome.
    unfold callApplyStashedOp. rewrite bind_bind, bind_modify. unfold bind at 1.
    unfold liftOutcome. rewrite Hl. rewrite bind_gets.
    cbn [h_isAttached set_appliedStashedOps]. rewrite Hatt.
    unfold isEmptyBatchPendingMessage in Hempty.
    destruct (JSON_parse (content m)) as [parsed|] eqn:Hparse; [|discriminate].
    destruct (getProp parsed "type") as [t|] eqn:Ht; [|discriminate].
    destruct (getProp parsed "contents") as [c|] eqn:Hc; [|discriminate].
    set (w1 := set_appliedStashedOps (appliedStashedOps w ++ [content m]) w).
    destruct (patch_push_run
                (with_runtimeOp (Some {| op_type := t; op_contents := c |})
                                (with_localOpMetadata l m)) w1)
      as (pm & Hrun & Hr & Hcn & Hop & Hs & Hlom & Hro & Hbi).
    rewrite Hrun. exists pm. eexists. split; [reflexivity|].
    split; [reflexivity|].
    split; [destruct (batchInfo _); reflexivity|].
    split; [destruct (batchInfo _); exact Hatt|].
    split; [destruct (batchInfo _); reflexivity|].
    unfold rehydrated, isEmptyBatchPendingMessage. rewrite Hparse, Ht, Hc.
    injection Hempty as Hempty. rewrite Hempty.
    repeat split; try assumption.
    + rewrite Hl, Hlom. reflexivity.
    + exists parsed, t, c. repeat split; assumption.
Qed.

Lemma appliedContents_cons m l : appliedContents (m :: l) = appliedContents [m] ++ appliedContents l.
Proof.
  unfold appliedContents. cbn [filter].
  destruct (isEmptyBatchPendingMessage m) as [[|]|]; reflexivity.
Qed.

Lemma applyStashedOpsLoop_rehydrates seqNum stash :
  forall fuel w,
    initialMessages w = stash ->
    List.length stash <= fuel ->
    h_isAttached w = true ->
    Forall applicable stash ->
    Forall (atTarget seqNum) stash ->
    exists pushed w',
      applyStashedOpsLoop fuel seqNum w = (Ok tt, w') /\
      initialMessages w' = [] /\
      pendingMessages w' = pendingMessages w ++ pushed /\
      Forall2 rehydrated stash pushed /\
      appliedStashedOps w' = appliedStashedOps w ++ appliedContents stash.
Proof.
  induction stash as [|m rest IH]; intros fuel w Hq Hfuel Hatt Happ Hat.
  - exists [], w. rewrite (applyStashedOpsLoop_nil _ _ _ Hq).
    rewrite !app_nil_r. repeat split; auto.
  - destruct fuel as [|fuel]; [cbn in Hfuel; lia|].
    inversion Happ as [|? ? Hm Hrest]; subst.
    inversion Hat as [|? ? Hatm Hatrest]; subst.
    rewrite (applyStashedOpsLoop_at fuel seqNum w m rest Hq Hatm).
    destruct (applyStashedMessage_attached m (set_initialMessages rest w) Hatt Hm)
      as (pm & w1 & Hrun & Hpend & Hinit & Hatt1 & Hlog & Hre).
    rewrite Hrun.
    destruct (IH fuel w1) as (pushed & w' & Hloop & Hinit' & Hpend' & Hall & Hlog');
      try assumption.
    { cbn in Hfuel. lia. }
    exists (pm :: pushed), w'. split; [exact Hloop|]. split; [exact Hinit'|].
    split; [rewrite Hpend', Hpend; cbn; rewrite <- app_assoc; reflexivity|].
    split; [constructor; assumption|].
    rewrite Hlog', Hlog, (appliedContents_cons m rest). cbn. rewrite <- app_assoc. reflexivity.
Qed.


Lemma applyStashedMessage_detached m w :
  h_isAttached w = false ->
  isEmptyBatchPendingMessage m = Ok false ->
  forall l, applyStashedOp (content m) = Ok l ->
  applyStashedMessage m w =
    (match l with
     | LomUndefined => Ok tt
     | _ => Throw detachedMetadataError
     end,
     set_appliedStashedOps (appliedStashedOps w ++ [content m]) w).
Proof.
  intros Hatt Hempty l Hl. unfold applyStashedMessage.
  rewrite Hempty. unfold bind at 1. unfold liftOutcome.
  unfold callApplyStashedOp. rewrite bind_bind, bind_modify. unfold bind at 1.
  unfold liftOutcome. rewrite Hl. rewrite bind_gets.
  cbn [h_isAttached set_appliedStashedOps]. rewrite Hatt.
  destruct l; reflexivity.
Qed.

Lemma applyStashedOpsLoop_detached seqNum stash :
  forall fuel w,
    initialMessages w = stash ->
    List.length stash <= fuel ->
    h_isAttached w = false ->
    Forall (fun m => isEmptyBatchPendingMessage m = Ok false /\
                     applyStashedOp (content m) = Ok LomUndefined) stash ->
    Forall (atTarget seqNum) stash ->
    exists w',
      applyStashedOpsLoop fuel seqNum w = (Ok tt, w') /\
      initialMessages w' = [] /\
      pendingMessages w' = pendingMessages w /\
      appliedStashedOps w' = appliedStashedOps w ++ map (@content _) stash.
Proof.
  induction stash as [|m rest IH]; intros fuel w Hq Hfuel Hatt Happ Hat.
  - exists w. rewrite (applyStashedOpsLoop_nil _ _ _ Hq). rewrite app_nil_r. auto.
  - destruct fuel as [|fuel]; [cbn in Hfuel; lia|].
    inversion Happ as [|? ? [Hempty Hl] Hrest]; subst.
    inversion Hat as [|? ? Hatm Hatrest]; subst.
    rewrite (applyStashedOpsLoop_at fuel seqNum w m rest Hq Hatm).
    rewrite (applyStashedMessage_detached m (set_initialMessages rest w) Hatt Hempty _ Hl).
    destruct (IH fuel (set_appliedStashedOps
                         (appliedStashedOps (set_initialMessages rest w) ++ [content m])
                         (set_initialMessages rest w)))
      as (w' & Hloop & Hinit' & Hpend' & Hlog'); try assumption; try reflexivity.
    { cbn in Hfuel. lia. }
    exists w'. split; [exact Hloop|]. split; [exact Hinit'|].
    split; [exact Hpend'|]. rewrite Hlog'. cbn. rewrite <- app_assoc. reflexivity.
Qed.

(** X14. On a detached manager, stashed messages that are not empty
    batches are applied and then dropped: when the handler returns no
    localOpMetadata for any of them, [applyStashedOpsAt] empties the
    stash and leaves the pending queue as it was.  When the handler
    returns a localOpMetadata for the first of them, the call throws the
    wrapped error, with that message already applied and gone from the
    stash. *)
Theorem applyStashedOpsAt_detached seqNum w :
  h_isAttached w = false ->
  (Forall (fun m => isEmptyBatchPendingMessage m = Ok false /\
                    applyStashedOp (content m) = Ok LomUndefined) (initialMessages w) ->
   Forall (atTarget seqNum) (initialMessages w) ->
   exists w',
     applyStashedOpsAt seqNum w = (Ok tt, w') /\
     initialMessages w' = [] /\
     pendingMessages w' = pendingMessages w /\
     appliedStashedOps w' = appliedStashedOps w ++ map (@content _) (initialMessages w)) /\
  (forall m rest l,
      initialMessages w = m :: rest ->
      atTarget seqNum m ->
      isEmptyBatchPendingMessage m = Ok false ->
      applyStashedOp (content m) = Ok l ->
      l <> LomUndefined ->
      exists w',
        applyStashedOpsAt seqNum w
          = (Throw (wrapIfUnrecognized detachedMetadataError "applyStashedOp"), w') /\
        initialMessages w' = rest /\
        pendingMessages w' = pendingMessages w /\
        appliedStashedOps w' = appliedStashedOps w ++ [content m]).
Proof.
  intros Hatt. split.
  - intros Happ Hat. unfold applyStashedOpsAt. rewrite bind_gets.
    apply (applyStashedOpsLoop_detached seqNum (initialMessages w)
             (List.length (initialMessages w)) w eq_refl (le_n _) Hatt Happ Hat).
  - intros m rest l Hq Hat Hempty Hl Hne.
    unfold applyStashedOpsAt. rewrite bind_gets, Hq. cbn [List.length].
    rewrite (applyStashedOpsLoop_at _ seqNum w m rest Hq Hat).
    rewrite (applyStashedMessage_detached m (set_initialMessages rest w) Hatt Hempty l Hl).
    destruct l; [congruence| |]; eexists; (split; [reflexivity|]); repeat split.
Qed.

(** *** Popping staged batches, when the queue is not as expected *)

(** X15. When a staged message sits before a non-staged one,
    [popStagedBatches] fails assertion 0xb89, and not before it has
    popped the staged messages at the back of the queue. *)
Theorem popStagedBatches_staged_before_unstaged w pre suffix :
  pendingMessages w = pre ++ suffix ->
  Forall (fun m => staged (batchInfo m) = true) suffix ->
  (forall m, hd_error (rev pre) = Some m -> staged (batchInfo m) = false) ->
  Exists (fun m => staged (batchInfo m) = true) pre ->
  popStagedBatches w = (Throw (AssertionError "0xb89"), set_pendingMessages pre w).
Proof.
  intros Hq Hsuf Hback Hex.
  unfold popStagedBatches. rewrite bind_gets. unfold bind at 1.
  rewrite (popStagedLoop_run (rev suffix) _ [] w pre).
  - rewrite bind_gets. cbn [pendingMessages set_pendingMessages].
    assert (Hall : forallb (fun m : IPendingMessage => negb (staged (batchInfo m))) pre = false).
    { destruct (forallb _ pre) eqn:Hall; [|reflexivity].
      apply forallb_not_staged in Hall. rewrite Forall_forall in Hall.
      apply Exists_exists in Hex. destruct Hex as (m & Hin & Hm).
      rewrite (Hall m Hin) in Hm. discriminate. }
    rewrite Hall. apply bind_assert_false.
  - rewrite rev_involutive. exact Hq.
  - apply Forall_rev. exact Hsuf.
  - exact Hback.
  - rewrite Hq, length_app, length_rev. lia.
Qed.

(** X16. [popStagedBatches] is idempotent: right after a call that
    returned, a second call invokes the callback on nothing and leaves
    the manager as it is. *)
Theorem popStagedBatches_idempotent w called w' :
  popStagedBatches w = (Ok called, w') ->
  popStagedBatches w' = (Ok [], w').
Proof.
  intros Hrun. unfold popStagedBatches in Hrun.
  rewrite bind_gets in Hrun. unfold bind at 1 in Hrun.
  destruct (popStagedLoop _ _ w) as [[c|e] w1]; [|discriminate].
  rewrite bind_gets in Hrun.
  destruct (forallb (fun m => negb (staged (batchInfo m))) (pendingMessages w1)) eqn:Hall;
    [rewrite bind_assert_true in Hrun | rewrite bind_assert_false in Hrun; discriminate].
  inversion Hrun; subst; clear Hrun.
  unfold popStagedBatches. rewrite bind_gets. unfold bind at 1.
  rewrite (popStagedLoop_run [] _ [] w' (pendingMessages w')).
  - rewrite set_pendingMessages_same, bind_gets, Hall, bind_assert_true. reflexivity.
  - cbn. rewrite app_nil_r. reflexivity.
  - constructor.
  - intros m Hm. apply forallb_not_staged in Hall. rewrite Forall_forall in Hall.
    apply Hall, in_rev. destruct (rev (pendingMessages w')); [discriminate|].
    inversion Hm; subst. apply in_eq.
  - cbn. lia.
Qed.

(** *** User changes *)

Lemma skipn_nth_error {A} (q : list A) :
  forall i, skipn i q = match nth_error q i with
                        | Some e => e :: skipn (S i) q
                        | None => []
                        end.
Proof.
  induction q as [|a q IH]; intros [|i]; try reflexivity.
  cbn [nth_error]. rewrite <- IH. reflexivity.
Qed.

Lemma skipn_S_nil {A} (q : list A) i : skipn i q = [] -> skipn (S i) q = [].
Proof.
  revert i. induction q as [|a q IH]; intros [|i] H; try reflexivity; try discriminate.
  cbn [skipn] in *. apply IH. exact H.
Qed.

Lemma anyDirtyableFrom_existsb q n :
  forall i, anyDirtyableFrom q i n = existsb dirtyable (firstn n (skipn i q)).
Proof.
  induction n as [|n IH]; intros i; [reflexivity|].
  cbn [anyDirtyableFrom]. rewrite (skipn_nth_error q i).
  destruct (nth_error q i) as [element|] eqn:Hnth.
  - cbn [firstn existsb]. rewrite IH.
    assert (Hd : dirtyable element
                 = hasTypicalRuntimeOp element &&
                   match runtimeOp element with
                   | Some op => isContainerMessageDirtyable op
                   | None => false
                   end) by reflexivity.
    rewrite Hd. clear Hd.
    destruct (runtimeOp element) as [op|] eqn:Hop.
    + destruct (hasTypicalRuntimeOp element && isContainerMessageDirtyable op); reflexivity.
    + rewrite andb_false_r. reflexivity.
  - rewrite IH. pose proof (skipn_nth_error q i) as Hnil. rewrite Hnth in Hnil.
    rewrite (skipn_S_nil q i Hnil). destruct n; reflexivity.
Qed.

Lemma hasPendingUserChanges_run w :
  hasPendingUserChanges w
  = existsb dirtyable (pendingMessages w) || negb (isEmpty (initialMessages w)).
Proof.
  unfold hasPendingUserChanges. rewrite anyDirtyableFrom_existsb. cbn [skipn].
  rewrite firstn_all.
  destruct (existsb dirtyable (pendingMessages w)); [reflexivity|].
  destruct (initialMessages w); reflexivity.
Qed.

(** X17. [hasPendingUserChanges] holds exactly when some pending message
    has a typical runtime op that the container runtime deems dirtyable,
    or the stash is not empty.  So it implies [hasPendingMessages], and
    once the stash is empty a queue of empty-batch placeholders holds no
    user change, whatever the container runtime says of them. *)
Theorem hasPendingUserChanges_counts w :
  hasPendingUserChanges w
    = existsb dirtyable (pendingMessages w) || negb (isEmpty (initialMessages w)) /\
  (hasPendingUserChanges w = true -> hasPendingMessages w = true) /\
  (initialMessages w = [] ->
   Forall (fun m => hasTypicalRuntimeOp m = false) (pendingMessages w) ->
   hasPendingUserChanges w = false).
Proof.
  split; [apply hasPendingUserChanges_run|]. rewrite hasPendingUserChanges_run. split.
  - intros H. unfold hasPendingMessages, pendingMessagesCount.
    destruct (pendingMessages w) as [|m q]; [|reflexivity].
    destruct (initialMessages w); [discriminate|reflexivity].
  - intros -> Hall. cbn [isEmpty negb]. rewrite orb_false_r.
    destruct (existsb dirtyable (pendingMessages w)) eqn:Hex; [|reflexivity].
    apply existsb_exists in Hex. destruct Hex as (m & Hin & Hm).
    rewrite Forall_forall in Hall. unfold dirtyable in Hm. rewrite (Hall m Hin) in Hm.
    discriminate.
Qed.

(** *** A manager just constructed *)

(** X18. A manager just constructed counts the stashed messages it was
    given as pending, and as user changes; it has no minimum pending
    sequence number, whatever the stash holds; and [getLocalState] fails
    assertion 0x2e9 on it unless the stash is empty, in which case the
    local state is empty. *)
Theorem newPendingStateManager_fresh stashedLocalState env snapshot :
  pendingMessagesCount (newPendingStateManager stashedLocalState env)
    = List.length (stashOf stashedLocalState) /\
  hasPendingUserChanges (newPendingStateManager stashedLocalState env)
    = hasPendingMessages (newPendingStateManager stashedLocalState env) /\
  minimumPendingMessageSequenceNumber (newPendingStateManager stashedLocalState env) = None /\
  getLocalState snapshot (newPendingStateManager stashedLocalState env)
    = (match stashOf stashedLocalState with
       | [] => Ok {| pendingStates := [] |}
       | _ :: _ => Throw (AssertionError "0x2e9")
       end,
       newPendingStateManager stashedLocalState env).
Proof.
  split; [reflexivity|]. split; [|split; [reflexivity|]].
  - rewrite hasPendingUserChanges_run. unfold hasPendingMessages, pendingMessagesCount.
    cbn. destruct stashedLocalState as [[[|m l]]|]; reflexivity.
  - rewrite getLocalState_run. cbn [initialMessages newPendingStateManager].
    fold (stashOf stashedLocalState).
    destruct (stashOf stashedLocalState); reflexivity.
Qed.

(** *** Stash round trip *)

Lemma Forall2_rehydrated_map (g : IPendingMessage -> IPendingMessageFromStash) :
  (forall x, referenceSequenceNumber (g x) = referenceSequenceNumber x /\
             content (g x) = content x /\
             opMetadata (g x) = opMetadata x /\
             sequenceNumber (g x) = sequenceNumber x /\
             batchInfo (g x) = Some (batchInfo x)) ->
  forall l pushed, Forall2 rehydrated (map g l) pushed -> Forall2 restores l pushed.
Proof.
  intros Hg. induction l as [|x l IH]; intros pushed Hall.
  - inversion Hall. constructor.
  - cbn [map] in Hall. inversion Hall as [|? pm ? rest Hre Hrest]; subst.
    constructor; [|apply IH; exact Hrest].
    destruct (Hg x) as (Hr & Hc & Hop & Hs & Hbi).
    destruct Hre as (Hr' & Hc' & Hop' & Hs' & Hbi' & _). rewrite Hbi in Hbi'.
    unfold restores. rewrite Hr', Hc', Hop', Hs', Hbi'. auto.
Qed.

(** X19. The local state that [getLocalState] returns, handed to a new,
    attached manager that can apply all of it, is rehydrated by
    [applyStashedOpsAt] into one pending message for each saved op newer
    than the snapshot and each pending message of the first manager, in
    that order, with the same content, reference sequence number,
    metadata, sequence number and batch info. *)
Theorem stash_round_trip snapshot w state w0 env :
  getLocalState snapshot w = (Ok state, w0) ->
  h_isAttached env = true ->
  Forall applicable (pendingStates state) ->
  exists w',
    applyStashedOpsAt None (newPendingStateManager (Some state) env) = (Ok tt, w') /\
    initialMessages w' = [] /\
    Forall2 restores (filter (newerThan snapshot) (savedOps w) ++ pendingMessages w)
            (pendingMessages w').
Proof.
  rewrite getLocalState_run.
  destruct (negb (isEmpty (initialMessages w))); [discriminate|].
  destruct (negb (forallb _ (savedOps w))); [discriminate|].
  destruct (existsb _ (pendingMessages w)); [discriminate|].
  intros H Hatt Happ. inversion H; subst; clear H. cbn [pendingStates] in Happ.
  unfold applyStashedOpsAt. rewrite bind_gets.
  destruct (applyStashedOpsLoop_rehydrates None
              (initialMessages (newPendingStateManager
                 (Some {| pendingStates :=
                            map asStashed (filter (newerThan snapshot) (savedOps w0))
                            ++ map (fun m => asStashed (toSerializableForm m))
                                   (pendingMessages w0) |}) env))
              _ _ eq_refl (le_n _) Hatt Happ)
    as (pushed & w' & Hrun & Hinit & Hpend & Hall & _).
  { apply Forall_forall. intros m _. exact I. }
  exists w'. split; [exact Hrun|]. split; [exact Hinit|].
  rewrite Hpend. cbn [pendingMessages newPendingStateManager app].
  cbn [initialMessages newPendingStateManager pendingStates] in Hall.
  apply Forall2_app_inv_l in Hall. destruct Hall as (p1 & p2 & H1 & H2 & ->).
  apply Forall2_app.
  - apply (Forall2_rehydrated_map asStashed); [|exact H1]. intros x. repeat split.
  - apply (Forall2_rehydrated_map (fun m => asStashed (toSerializableForm m))); [|exact H2].
    intros x. repeat split.
Qed.

(** *** Replays that fail half way *)

(** X20. Committing staged batches fails assertion 0xb86 when a staged
    batch of one message is followed by a message that is not staged, and
    not before the staged batch has been handed to the sink, its staged
    flag cleared: both messages have left the queue, and the saved ops
    are not cleared. *)
Theorem replayPendingStates_staged_then_unstaged options w s n rest batch w2 :
  committing options = true ->
  initialMessages w = [] ->
  pendingMessages w = s :: n :: rest ->
  staged (batchInfo s) = true ->
  staged (batchInfo n) = false ->
  batchFlag (opMetadata s) = None ->
  batchOfOne s = Some batch ->
  reSubmitBatch batch (resubmitMetadata (squashing options) (unstaged s))
                (set_pendingMessages (n :: rest)
                   (set_clientIdFromLastReplay (h_clientId w) w))
    = (Ok tt, w2) ->
  exists pushed,
    replayPendingStates options w
      = (Throw (AssertionError "0xb86"), set_pendingMessages (rest ++ pushed) w2) /\
    pendingMessages w2 = n :: rest ++ pushed /\
    reSubmitted w2
      = reSubmitted w ++ [(batch, resubmitMetadata (squashing options) (unstaged s))] /\
    rm_staged (resubmitMetadata (squashing options) (unstaged s)) = false /\
    savedOps w2 = savedOps w.
Proof.
  intros Hc Hinit Hq Hs Hn Hflag Hbatch Hsink.
  rewrite (replayPendingStates_run options w); [| rewrite Hc; apply orb_true_r
                                                 | rewrite Hc; discriminate | exact Hinit].
  rewrite Hc, Hq.
  set (w0 := set_clientIdFromLastReplay (h_clientId w) w) in *.
  assert (Hq0 : pendingMessages w0 = s :: n :: rest) by exact Hq.
  destruct (reSubmitBatch_ok _ _ _ _ Hsink) as (pushed & Hq2 & _ & Hlog).
  pose proof (preserves_reSubmitBatch savedOps besideQueue_savedOps batch
                (resubmitMetadata (squashing options) (unstaged s))
                (set_pendingMessages (n :: rest) w0)) as Hsaved.
  rewrite Hsink in Hsaved. cbn [snd] in Hsaved.
  exists pushed. split; [|repeat split; assumption].
  assert (Hnext : forall fuel remaining,
             replayLoop true (squashing options) (S fuel) (S remaining) true w2
             = (Throw (AssertionError "0xb86"), set_pendingMessages (rest ++ pushed) w2)).
  { intros fuel remaining. cbn [replayLoop].
    rewrite (bind_shift_cons _ w2 n (rest ++ pushed) Hq2). rewrite Hn. cbn [andb negb].
    apply bind_assert_false. }
  unfold bind at 1.
  change (List.length (s :: n :: rest)) with (S (List.length (n :: rest))).
  remember (List.length (n :: rest)) as k eqn:Hk. cbn [replayLoop].
  cbn [List.length] in Hk. subst k.
  rewrite (bind_shift_cons _ w0 s (n :: rest) Hq0). rewrite Hs. cbn [andb negb].
  fold (unstaged s).
  assert (Hflag' : batchFlag (opMetadata (unstaged s)) = None) by exact Hflag.
  rewrite Hflag'. cbn [option_eqb negb]. rewrite bind_assert_true.
  fold (resubmitMetadata (squashing options) (unstaged s)).
  unfold batchOfOne in Hbatch.
  assert (Hlom : localOpMetadata (unstaged s) = localOpMetadata s) by reflexivity.
  rewrite Hlom.
  destruct (isEmptyBatchMarker (localOpMetadata s)).
  - injection Hbatch as <-. unfold bind at 1. rewrite Hsink. rewrite Hnext. reflexivity.
  - assert (Hd : resubmitData (unstaged s) = resubmitData s) by reflexivity.
    rewrite Hd. destruct (resubmitData s) as [d|]; [|discriminate].
    injection Hbatch as <-. unfold bind at 1. rewrite Hsink. rewrite Hnext. reflexivity.
Qed.

(** X21. A replay whose next message is the end of a batch, with no batch
    start before it, fails assertion 0x41b: the message has left the
    queue, the guard is armed, and nothing has reached the sink. *)
Theorem replayPendingStates_batch_in_chunks options w m rest :
  h_connected w || committing options = true ->
  (committing options = false ->
   option_eqb String.eqb (clientIdFromLastReplay w) (h_clientId w) = false) ->
  initialMessages w = [] ->
  pendingMessages w = m :: rest ->
  batchFlag (opMetadata m) = Some false ->
  (committing options = true -> staged (batchInfo m) = true) ->
  replayPendingStates options w
    = (Throw (AssertionError "0x41b"),
       set_pendingMessages rest (set_clientIdFromLastReplay (h_clientId w) w)).
Proof.
  intros H172 H173 H174 Hq Hflag Hst.
  rewrite (replayPendingStates_run options w H172 H173 H174). rewrite Hq.
  set (w0 := set_clientIdFromLastReplay (h_clientId w) w).
  assert (Hq0 : pendingMessages w0 = m :: rest) by exact Hq.
  unfold bind at 1. cbn [List.length replayLoop].
  rewrite (bind_shift_cons _ w0 m rest Hq0).
  destruct (committing options) eqn:Hc.
  - rewrite (Hst eq_refl). cbn [andb negb].
    assert (Hflag' : batchFlag (opMetadata (with_batchInfo (with_staged false (batchInfo m)) m))
                     = Some false) by exact Hflag.
    rewrite Hflag'. cbn [option_eqb Bool.eqb negb]. rewrite bind_assert_false. reflexivity.
  - cbn [andb]. rewrite Hflag. cbn [option_eqb Bool.eqb negb].
    rewrite bind_assert_false. reflexivity.
Qed.

(** *** Draining the stash twice *)

Lemma applyStashedOpsLoop_cons fuel seqNum w m rest :
  initialMessages w = m :: rest ->
  applyStashedOpsLoop fuel seqNum w =
    if match seqNum with
       | Some n => Z.ltb n (referenceSequenceNumber m)
       | None => false
       end
    then (Ok tt, w)
    else if match seqNum with
            | Some n => Z.ltb (referenceSequenceNumber m) n
            | None => false
            end
    then (Throw tooRecentError, w)
    else match fuel with
         | O => (Throw Diverged, w)
         | S fuel' =>
             match applyStashedMessage m (set_initialMessages rest w) with
             | (Ok _, w2) => applyStashedOpsLoop fuel' seqNum w2
             | (Throw e, w2) => (Throw (wrapIfUnrecognized e "applyStashedOp"), w2)
             end
         end.
Proof.
  intros Hq.
  destruct fuel as [|fuel]; cbn [applyStashedOpsLoop]; rewrite bind_gets, Hq; cbn [hd_error];
    destruct (match seqNum with Some n => Z.ltb n _ | None => false end); try reflexivity;
    destruct (match seqNum with Some n => Z.ltb _ n | None => false end); try reflexivity.
  unfold bind at 1. unfold shiftInitial. rewrite Hq.
  unfold bind at 1. rewrite rethrowing_run.
  destruct (applyStashedMessage m (set_initialMessages rest w)) as [[[]|e] w2]; reflexivity.
Qed.

Lemma applyStashedOpsLoop_settles seqNum fuel :
  forall w w',
    List.length (initialMessages w) <= fuel ->
    applyStashedOpsLoop fuel seqNum w = (Ok tt, w') ->
    forall fuel', applyStashedOpsLoop fuel' seqNum w' = (Ok tt, w').
Proof.
  induction fuel as [|fuel IH]; intros w w' Hlen Hrun fuel'.
  - destruct (initialMessages w) as [|m rest] eqn:Hq; [|cbn in Hlen; lia].
    rewrite (applyStashedOpsLoop_nil _ _ _ Hq) in Hrun. inversion Hrun; subst.
    apply applyStashedOpsLoop_nil. exact Hq.
  - destruct (initialMessages w) as [|m rest] eqn:Hq.
    { rewrite (applyStashedOpsLoop_nil _ _ _ Hq) in Hrun. inversion Hrun; subst.
      apply applyStashedOpsLoop_nil. exact Hq. }
    rewrite (applyStashedOpsLoop_cons _ seqNum w m rest Hq) in Hrun.
    destruct (match seqNum with Some n => Z.ltb n _ | None => false end) eqn:Hlate.
    { inversion Hrun; subst. rewrite (applyStashedOpsLoop_cons _ seqNum w' m rest Hq), Hlate.
      reflexivity. }
    destruct (match seqNum with Some n => Z.ltb _ n | None => false end); [discriminate|].
    pose proof (preserves_applyStashedMessage initialMessages
                  (conj (fun _ _ => eq_refl) (conj (fun _ _ => eq_refl) (fun _ _ => eq_refl)))
                  (fun _ _ => eq_refl) m (set_initialMessages rest w)) as Hinit.
    destruct (applyStashedMessage m (set_initialMessages rest w)) as [[[]|e] w2];
      [|discriminate].
    cbn [snd] in Hinit. apply (IH w2 w'); [|exact Hrun].
    rewrite Hinit. cbn in *. lia.
Qed.

(** X22. [applyStashedOpsAt] is idempotent: right after a call that
    returned, a second call with the same argument returns at once and
    leaves the manager as it is. *)
Theorem applyStashedOpsAt_idempotent seqNum w w' :
  applyStashedOpsAt seqNum w = (Ok tt, w') ->
  applyStashedOpsAt seqNum w' = (Ok tt, w').
Proof.
  unfold applyStashedOpsAt. rewrite !bind_gets. intros Hrun.
  apply (applyStashedOpsLoop_settles seqNum _ w w' (le_n _) Hrun).
Qed.

End Properties.

(** ** Concrete runs *)

Example buildPendingMessageContent_is_type_then_contents :
  @buildPendingMessageContent samplePlatform (inboundOp 2 100) = sampleStringify (opX 2) /\
  String.length (@buildPendingMessageContent samplePlatform (inboundOp 2 100)) = 32.
Proof. split; reflexivity. Qed.

Example findFirstCharacterMismatched_abc_abd :
  findFirstCharacterMismatched "abc" "abd" = (2%Z, JStr "c", JStr "d") /\
  findFirstCharacterMismatched "ab" "abd" = (2%Z, JUndefined, JStr "d") /\
  findFirstCharacterMismatched "abd" "abd" = ((-1)%Z, JUndefined, JUndefined).
Proof. repeat split. Qed.

Example placeholder_is_not_typical :
  hasTypicalRuntimeOp (sentPending 5 1 false (emptyBatchPlaceholder 10)) = false /\
  hasTypicalRuntimeOp (sentPending 1 1 false (localOp 1 None)) = true.
Proof. split; reflexivity. Qed.

(** A remote batch start carrying the batch id of the pending batch is a
    fork; with another batch id, or when the pending batch ignores batch
    ids, the messages pass through without localOpMetadata. *)
Example remote_batch_B1_forks :
  @processInboundMessages samplePlatform
    (BatchStartingMessage (remoteBatchStart (Some "B1") "client-B" 9) (inboundOp 1 200))
    false (withQueue [stampedPending None])
    = (Throw forkError, withQueue [stampedPending None]).
Proof. reflexivity. Qed.

Example remote_batch_B2_passes :
  @processInboundMessages samplePlatform
    (BatchStartingMessage (remoteBatchStart (Some "B2") "client-B" 9) (inboundOp 1 200))
    false (withQueue [stampedPending None])
    = (Ok [{| pr_message := inboundOp 1 200; pr_localOpMetadata := None |}],
       withQueue [stampedPending None]).
Proof. reflexivity. Qed.

Example remote_batch_B1_ignored :
  @processInboundMessages samplePlatform
    (BatchStartingMessage (remoteBatchStart (Some "B1") "client-B" 9) (inboundOp 1 200))
    false (withQueue [stampedPending (Some true)])
    = (Ok [{| pr_message := inboundOp 1 200; pr_localOpMetadata := None |}],
       withQueue [stampedPending (Some true)]).
Proof. reflexivity. Qed.

(** Replaying a single op, a three-op batch and an empty batch: three
    calls of the sink, of sizes 1, 3 and 0, and the five messages the
    runtime flushed meanwhile are all that is pending afterwards. *)
Example replay_mixed_queue :
  map (fun call => List.length (fst call))
      (reSubmitted (worldAfter (@replayPendingStates samplePlatform sampleHandler None)
                               mixedWorld)) = [1; 3; 0] /\
  map (@referenceSequenceNumber _)
      (pendingMessages (worldAfter (@replayPendingStates samplePlatform sampleHandler None)
                                   mixedWorld)) = [0; 0; 0; 0; 0]%Z /\
  savedOps (worldAfter (@replayPendingStates samplePlatform sampleHandler None) mixedWorld)
    = [].
Proof. vm_compute. repeat split. Qed.

(** Committing staged batches: the pre-staging message is pushed back,
    the two staged ones are resubmitted with their staged flag cleared. *)
Example replay_committing_staged :
  map (fun call => (List.length (fst call), rm_staged (snd call)))
      (reSubmitted
         (worldAfter (@replayPendingStates samplePlatform quietHandler
                        (Some {| committingStagedBatches := true; squash := false |}))
                     stagedWorld)) = [(1, false); (1, false)] /\
  pendingMessages
    (worldAfter (@replayPendingStates samplePlatform quietHandler
                   (Some {| committingStagedBatches := true; squash := false |}))
                stagedWorld) = [sentPending 1 1 false (localOp 1 None)].
Proof. vm_compute. repeat split. Qed.

(** Draining the stash at 5 applies the entry at 5 and stops at the one
    at 7. *)
Example applyStashedOpsAt_5 :
  fst (@applyStashedOpsAt samplePlatform sampleHandler (Some 5%Z) stashWorld) = Ok tt /\
  initialMessages (worldAfter (@applyStashedOpsAt samplePlatform sampleHandler (Some 5%Z))
                              stashWorld) = [stashed 7 2] /\
  appliedStashedOps (worldAfter (@applyStashedOpsAt samplePlatform sampleHandler (Some 5%Z))
                                stashWorld) = [sampleStringify (opX 1)] /\
  map (@referenceSequenceNumber _)
      (pendingMessages (worldAfter (@applyStashedOpsAt samplePlatform sampleHandler
                                      (Some 5%Z)) stashWorld)) = [5%Z].
Proof. vm_compute. repeat split. Qed.

(** A stashed record without [batchInfo] is given a fresh client id and
    the sentinels [-1]. *)
Example patchbatchInfo_legacy :
  option_map (@batchInfo _)
    (hd_error (pendingMessages
                 (worldAfter (@applyStashedOpsAt samplePlatform sampleHandler None)
                             stashWorld)))
    = Some {| clientId := @uuid samplePlatform 0; batchStartCsn := (-1)%Z;
              batchLength := (-1)%Z; ignoreBatchId := None; staged := false |}.
Proof. vm_compute. reflexivity. Qed.

(** ** The theorems at concrete inputs *)

Lemma C1_order_preservation_witness :
  pendingMessages emptyWorld = [] /\
  @forM_ FlushCall (@flush samplePlatform) twoFlushes emptyWorld
    = (Ok tt, worldAfter (@forM_ FlushCall (@flush samplePlatform) twoFlushes) emptyWorld) /\
  exists w2,
    @processAcks samplePlatform threeAcks
      (worldAfter (@forM_ FlushCall (@flush samplePlatform) twoFlushes) emptyWorld)
      = (Ok [LomData (JNum 1); LomData (JNum 2); LomData (JNum 3)], w2) /\
    pendingMessages w2 = [].
Proof.
  split; [reflexivity|]. split; [vm_compute; reflexivity|].
  apply (@C1_order_preservation samplePlatform twoFlushes threeAcks emptyWorld).
  - reflexivity.
  - vm_compute. reflexivity.
  - repeat (constructor; [vm_compute; reflexivity|]). constructor.
Defined.

Lemma C2_content_mismatch_detection_witness :
  pendingMessages oneOpWorld = [sentPending 1 1 false (localOp 1 None)] /\
  content (sentPending 1 1 false (localOp 1 None))
    <> @buildPendingMessageContent samplePlatform (inboundOp 2 100) /\
  exists d w',
    @processNextPendingMessage samplePlatform 100 (Some (inboundOp 2 100)) oneOpWorld
      = (Throw mismatchError, w') /\
    telemetry w'
      = telemetry oneOpWorld
          ++ [{| ev_error := true; eventName := "unexpectedAckReceived"; details := d |}].
Proof.
  assert (Hne : content (sentPending 1 1 false (localOp 1 None))
                <> @buildPendingMessageContent samplePlatform (inboundOp 2 100))
    by (vm_compute; discriminate).
  split; [reflexivity|]. split; [exact Hne|].
  apply (proj2 (@C2_content_mismatch_detection samplePlatform 100 (inboundOp 2 100)
                  oneOpWorld (sentPending 1 1 false (localOp 1 None)) []
                  eq_refl Hne)
               (opX 1) (opX 2));
    vm_compute; reflexivity.
Defined.

Lemma C4_fixed_count_replay_witness :
  @replayPendingStates samplePlatform sampleHandler None mixedWorld
    = (Ok tt, worldAfter (@replayPendingStates samplePlatform sampleHandler None) mixedWorld) /\
  exists calls added,
    reSubmitted (worldAfter (@replayPendingStates samplePlatform sampleHandler None) mixedWorld)
      = reSubmitted mixedWorld ++ calls /\
    pendingMessages (worldAfter (@replayPendingStates samplePlatform sampleHandler None)
                                mixedWorld)
      = requeued (committing None) (pendingMessages mixedWorld) ++ added /\
    Forall2 (@tracks samplePlatform) (@flushedBy sampleHandler calls) added /\
    list_sum (map consumed calls)
      + List.length (requeued (committing None) (pendingMessages mixedWorld))
      = List.length (pendingMessages mixedWorld).
Proof.
  assert (Hrun : @replayPendingStates samplePlatform sampleHandler None mixedWorld
                 = (Ok tt, worldAfter (@replayPendingStates samplePlatform sampleHandler None)
                                      mixedWorld))
    by (vm_compute; reflexivity).
  split; [exact Hrun|].
  exact (@C4_fixed_count_replay samplePlatform sampleHandler None mixedWorld _ Hrun).
Defined.

Lemma C5_batch_grouping_round_trip_witness :
  (exists md,
      reSubmitted
        (worldAfter (@replayPendingStates samplePlatform sampleHandler None)
           (worldAfter (@onFlushBatch samplePlatform
                          [localOp 1 (Some true); localOp 2 None; localOp 3 (Some false)]
                          (Some 4%Z) false None) emptyWorld))
        = [(map resubmitDataOf
                [localOp 1 (Some true); localOp 2 None; localOp 3 (Some false)], md)]) /\
  (exists code w',
      @replayPendingStates samplePlatform sampleHandler None unterminatedWorld
        = (Throw (AssertionError code), w') /\
      In code unterminatedBatchCodes /\
      reSubmitted w' = reSubmitted unterminatedWorld).
Proof.
  split.
  - destruct (proj1 (@C5_batch_grouping_round_trip samplePlatform sampleHandler None)
                (localOp 1 (Some true)) (localOp 2 None) (localOp 3 (Some false))
                (Some 4%Z) false None emptyWorld
                (worldAfter (@onFlushBatch samplePlatform
                               [localOp 1 (Some true); localOp 2 None; localOp 3 (Some false)]
                               (Some 4%Z) false None) emptyWorld))
      as (md & Hlog & _); try (vm_compute; reflexivity).
    exists md. exact Hlog.
  - apply (proj1 (proj2 (@C5_batch_grouping_round_trip samplePlatform sampleHandler None))
                 unterminatedWorld
                 (sentPending 1 2 false (localOp 1 (Some true)))
                 [sentPending 1 2 false (localOp 2 None)]);
      try (vm_compute; reflexivity).
    repeat constructor. vm_compute. discriminate.
Defined.

Lemma C6_replay_twice_same_clientId_witness :
  committing None = false /\
  exists code,
    @replayPendingStates samplePlatform sampleHandler None
      (worldAfter (@replayPendingStates samplePlatform sampleHandler None) mixedWorld)
      = (Throw (AssertionError code),
         worldAfter (@replayPendingStates samplePlatform sampleHandler None) mixedWorld) /\
    (code = "0x172" \/ code = "0x173") /\
    (h_connected mixedWorld = true -> code = "0x173").
Proof.
  split; [reflexivity|].
  exact (@C6_replay_twice_same_clientId samplePlatform sampleHandler None None mixedWorld
           eq_refl).
Defined.

Lemma C7_pop_staged_batches_witness :
  popStagedBatches stagedWorld
    = (Ok [sentPending (-1) 1 true (localOp 3 None); sentPending (-1) 1 true (localOp 2 None)],
       set_pendingMessages [sentPending 1 1 false (localOp 1 None)] stagedWorld).
Proof.
  exact (proj1 (C7_pop_staged_batches stagedWorld)
               (sentPending 1 1 false (localOp 1 None))
               (sentPending (-1) 1 true (localOp 2 None))
               (sentPending (-1) 1 true (localOp 3 None))
               eq_refl eq_refl eq_refl eq_refl).
Defined.

Lemma C8_stash_target_bound_witness :
  @applyStashedOpsAt samplePlatform sampleHandler (Some 3%Z) stashWorld = (Ok tt, stashWorld) /\
  @applyStashedOpsAt samplePlatform sampleHandler (Some 6%Z) stashWorld
    = (Throw tooRecentError, stashWorld) /\
  exists dequeued applied,
    initialMessages stashWorld
      = dequeued ++ initialMessages
                      (worldAfter (@applyStashedOpsAt samplePlatform sampleHandler (Some 5%Z))
                                  stashWorld) /\
    Forall (fun m => referenceSequenceNumber m = 5%Z) dequeued /\
    appliedStashedOps
      (worldAfter (@applyStashedOpsAt samplePlatform sampleHandler (Some 5%Z)) stashWorld)
      = appliedStashedOps stashWorld ++ applied /\
    incl applied (map (@content _) dequeued) /\
    @drainEnds samplePlatform 5 dequeued
      (fst (@applyStashedOpsAt samplePlatform sampleHandler (Some 5%Z) stashWorld))
      (worldAfter (@applyStashedOpsAt samplePlatform sampleHandler (Some 5%Z)) stashWorld).
Proof.
  split; [|split].
  - apply (proj1 (@C8_stash_target_bound samplePlatform sampleHandler 3 stashWorld)
                 (stashed 5 1) [stashed 7 2]); reflexivity.
  - apply (proj1 (proj2 (@C8_stash_target_bound samplePlatform sampleHandler 6 stashWorld))
                 (stashed 5 1) [stashed 7 2]); reflexivity.
  - apply (proj2 (proj2 (@C8_stash_target_bound samplePlatform sampleHandler 5 stashWorld))).
    unfold worldAfter.
    destruct (@applyStashedOpsAt samplePlatform sampleHandler (Some 5%Z) stashWorld).
    reflexivity.
Defined.

Lemma C9_empty_batch_ack_returns_nothing_witness :
  exists pm w2,
    pendingMessages
      (worldAfter (@onFlushEmptyBatch samplePlatform (emptyBatchPlaceholder 10) (Some 7%Z) false)
                  emptyWorld) = [pm] /\
    @processNextPendingMessage samplePlatform 200 None
      (worldAfter (@onFlushEmptyBatch samplePlatform (emptyBatchPlaceholder 10) (Some 7%Z) false)
                  emptyWorld)
      = (Ok LomEmptyBatch,
         @acked 200 pm []
           (worldAfter (@onFlushEmptyBatch samplePlatform (emptyBatchPlaceholder 10)
                          (Some 7%Z) false) emptyWorld)) /\
    @processInboundMessages samplePlatform
      (FullBatch [] (remoteBatchStart None "client-A" 7) 0) true
      (worldAfter (@onFlushEmptyBatch samplePlatform (emptyBatchPlaceholder 10) (Some 7%Z) false)
                  emptyWorld)
      = (Ok [], w2).
Proof.
  destruct (@C9_empty_batch_ack_returns_nothing samplePlatform
              (emptyBatchPlaceholder 10) (Some 7%Z) []
              (remoteBatchStart None "client-A" 7) emptyWorld
              (worldAfter (@onFlushEmptyBatch samplePlatform (emptyBatchPlaceholder 10)
                             (Some 7%Z) false) emptyWorld))
    as (pm & w2 & Hq & Hnext & Hin & _); try (vm_compute; reflexivity).
  exists pm, w2. auto.
Defined.

(** C9, as stated, fails: the ack of a flushed empty-batch placeholder,
    processed by [processInboundMessages] with [local = true], returns
    the empty list, so no returned entry carries the
    [{ emptyBatch: true }] metadata. *)
Lemma C9_counterexample :
  ~ exists results w2,
      @processInboundMessages samplePlatform
        (FullBatch [] (remoteBatchStart None "client-A" 7) 0) true
        (worldAfter (@onFlushEmptyBatch samplePlatform (emptyBatchPlaceholder 10)
                       (Some 7%Z) false) emptyWorld)
        = (Ok results, w2) /\
      exists r, In r results /\ pr_localOpMetadata r = Some LomEmptyBatch.
Proof.
  intros (results & w2 & Hrun & r & Hin & _).
  vm_compute in Hrun. inversion Hrun; subst. destruct Hin.
Qed.

Lemma C10_mismatch_leaves_message_dequeued_witness :
  exists pm rest,
    pendingMessages oneOpWorld = pm :: rest /\
    pendingMessages
      (worldAfter (@processNextPendingMessage samplePlatform 100 (Some (inboundOp 2 100)))
                  oneOpWorld) = rest /\
    savedOps
      (worldAfter (@processNextPendingMessage samplePlatform 100 (Some (inboundOp 2 100)))
                  oneOpWorld)
      = savedOps oneOpWorld ++ [toSerializableForm (with_sequenceNumber 100 pm)].
Proof.
  destruct (@C10_mismatch_leaves_message_dequeued samplePlatform 100
              (Some (inboundOp 2 100)) oneOpWorld
              (worldAfter (@processNextPendingMessage samplePlatform 100
                             (Some (inboundOp 2 100))) oneOpWorld))
    as (pm & rest & Hq & Hq' & Hsaved & _); [vm_compute; reflexivity|].
  exists pm, rest. auto.
Defined.

(** ** The further properties at concrete inputs *)

Lemma findFirstCharacterMismatched_first_difference_witness :
  exists j,
    fst (fst (findFirstCharacterMismatched "abc" "abd")) = Z.of_nat j /\
    substring 0 j "abc" = substring 0 j "abd" /\ get j "abc" <> get j "abd".
Proof.
  apply (proj2 (findFirstCharacterMismatched_first_difference "abc" "abd")). discriminate.
Defined.

Lemma typesOfKeys_only_type_names_witness :
  typesOfKeys (opX 1) = Some [("type", JStr "string"); ("contents", JStr "object")] /\
  Forall (fun kv : string * JsValue => exists name, snd kv = JStr name /\ In name typeNames)
         [("type", JStr "string"); ("contents", JStr "object")].
Proof.
  split; [reflexivity|].
  apply (typesOfKeys_only_type_names (opX 1)). reflexivity.
Defined.

Lemma replayPendingStates_epilogue_witness :
  savedOps (worldAfter (@replayPendingStates samplePlatform sampleHandler None) mixedWorld) = [] /\
  clientIdFromLastReplay
    (worldAfter (@replayPendingStates samplePlatform sampleHandler None) mixedWorld)
    = h_clientId mixedWorld /\
  telemetry (worldAfter (@replayPendingStates samplePlatform sampleHandler None) mixedWorld)
    = telemetry mixedWorld
        ++ (if h_isActiveConnection mixedWorld
            then [replayedEvent (List.length (pendingMessages mixedWorld))
                                (h_clientId mixedWorld)]
            else []).
Proof.
  apply (@replayPendingStates_epilogue samplePlatform sampleHandler None mixedWorld).
  vm_compute. reflexivity.
Defined.

Lemma replayPendingStates_sink_metadata_witness :
  exists calls,
    reSubmitted
      (worldAfter (@replayPendingStates samplePlatform quietHandler
                     (Some {| committingStagedBatches := true; squash := true |}))
                  stagedWorld)
      = reSubmitted stagedWorld ++ calls /\
    Forall (fun call : list PendingMessageResubmitData * PendingBatchResubmitMetadata =>
              rm_squash (snd call) = true /\ rm_staged (snd call) = false) calls.
Proof.
  destruct (@replayPendingStates_sink_metadata samplePlatform quietHandler
              (Some {| committingStagedBatches := true; squash := true |}) stagedWorld)
    as (calls & Hlog & Hall).
  exists calls. split; [exact Hlog|].
  apply Forall_forall. intros call Hin. rewrite Forall_forall in Hall.
  destruct (Hall call Hin) as [Hsq Hst]. split; [exact Hsq | apply Hst; reflexivity].
Defined.

Lemma replayPendingStates_needs_drained_stash_witness :
  initialMessages stashWorld <> [] /\
  exists code w',
    @replayPendingStates samplePlatform sampleHandler None stashWorld
      = (Throw (AssertionError code), w') /\
    In code ["0x172"; "0x173"; "0x174"] /\
    reSubmitted w' = reSubmitted stashWorld.
Proof.
  assert (Hne : initialMessages stashWorld <> []) by (vm_compute; discriminate).
  split; [exact Hne|].
  destruct (@replayPendingStates_needs_drained_stash samplePlatform sampleHandler None
              stashWorld Hne) as (code & w' & Hrun & Hcode & _ & Hlog & _).
  exists code, w'. auto.
Defined.

Lemma onFlushBatch_all_or_nothing_witness :
  pendingMessagesCount
    (worldAfter (@onFlushBatch samplePlatform [localOp 1 (Some true); localOp 2 (Some false)]
                   (Some 4%Z) false None) emptyWorld) = 2.
Proof.
  destruct (@onFlushBatch_all_or_nothing samplePlatform
              [localOp 1 (Some true); localOp 2 (Some false)] (Some 4%Z) false None emptyWorld
              (Ok tt)
              (worldAfter (@onFlushBatch samplePlatform
                             [localOp 1 (Some true); localOp 2 (Some false)]
                             (Some 4%Z) false None) emptyWorld))
    as [(_ & Hcount & _) | (code & Hthrow & _)].
  - vm_compute. reflexivity.
  - exact Hcount.
  - discriminate.
Defined.


Lemma processInboundMessages_local_unmatched_witness :
  @processInboundMessages samplePlatform (NextBatchMessage (inboundOp 1 100)) true emptyWorld
    = (Throw (AssertionError "0x169"), emptyWorld) /\
  @processInboundMessages samplePlatform
    (BatchStartingMessage (remoteBatchStart None "client-A" 1) (inboundOp 1 100))
    true interleavedWorld
    = (Throw (AssertionError "0xb85"), interleavedWorld).
Proof.
  split.
  - apply (proj1 (@processInboundMessages_local_unmatched samplePlatform
                    (NextBatchMessage (inboundOp 1 100)) emptyWorld)).
    reflexivity.
  - apply (proj2 (@processInboundMessages_local_unmatched samplePlatform
                    (BatchStartingMessage (remoteBatchStart None "client-A" 1) (inboundOp 1 100))
                    interleavedWorld)
                 (sentPending (-1) 1 true (localOp 1 None))
                 [sentPending 2 1 false (localOp 2 None);
                  sentPending (-1) 1 true (localOp 3 None)]).
    + reflexivity.
    + reflexivity.
    + discriminate.
Defined.


Lemma getLocalState_returns_witness :
  exists state savedPart pendingPart,
    getLocalState (Some 10%Z) ackedWorld = (Ok state, ackedWorld) /\
    pendingStates state = savedPart ++ pendingPart /\
    List.length savedPart = 1 /\
    Forall2 stashedFrom (pendingMessages ackedWorld) pendingPart.
Proof.
  assert (Hrun : getLocalState (Some 10%Z) ackedWorld
                 = (Ok (match fst (getLocalState (Some 10%Z) ackedWorld) with
                        | Ok s => s
                        | Throw _ => {| pendingStates := [] |}
                        end), ackedWorld))
    by (vm_compute; reflexivity).
  destruct (getLocalState_returns (Some 10%Z) ackedWorld _ _ Hrun)
    as (savedPart & pendingPart & Hstate & Hsaved & _ & Hpending & _).
  eexists _, savedPart, pendingPart. split; [exact Hrun|].
  split; [exact Hstate|]. split; [rewrite Hsaved; vm_compute; reflexivity | exact Hpending].
Defined.



Lemma applyStashedOpsAt_detached_witness :
  (exists w',
      @applyStashedOpsAt samplePlatform quietHandler (Some 5%Z) detachedStashWorld = (Ok tt, w') /\
      initialMessages w' = [] /\
      pendingMessages w' = [] /\
      appliedStashedOps w' = [sampleStringify (opX 1); sampleStringify (opX 2)]) /\
  (exists w',
      @applyStashedOpsAt samplePlatform sampleHandler (Some 5%Z) detachedStashWorld
        = (Throw (@wrapIfUnrecognized samplePlatform detachedMetadataError "applyStashedOp"), w') /\
      initialMessages w' = [stashed 5 2] /\
      pendingMessages w' = []).
Proof.
  split.
  - apply (proj1 (@applyStashedOpsAt_detached samplePlatform quietHandler (Some 5%Z)
                    detachedStashWorld eq_refl)).
    + repeat (constructor; [split; vm_compute; reflexivity|]). constructor.
    + repeat (constructor; [reflexivity|]). constructor.
  - destruct (proj2 (@applyStashedOpsAt_detached samplePlatform sampleHandler (Some 5%Z)
                       detachedStashWorld eq_refl)
                    (stashed 5 1) [stashed 5 2] (LomData (JStr (sampleStringify (opX 1)))))
      as (w' & Hrun & Hinit & Hpend & _).
    + reflexivity.
    + reflexivity.
    + vm_compute. reflexivity.
    + reflexivity.
    + discriminate.
    + exists w'. repeat split; assumption.
Defined.

Lemma popStagedBatches_staged_before_unstaged_witness :
  popStagedBatches interleavedWorld
    = (Throw (AssertionError "0xb89"),
       set_pendingMessages [sentPending (-1) 1 true (localOp 1 None);
                            sentPending 2 1 false (localOp 2 None)] interleavedWorld).
Proof.
  apply (popStagedBatches_staged_before_unstaged interleavedWorld
           [sentPending (-1) 1 true (localOp 1 None); sentPending 2 1 false (localOp 2 None)]
           [sentPending (-1) 1 true (localOp 3 None)]).
  - reflexivity.
  - repeat constructor.
  - intros m Hm. vm_compute in Hm. inversion Hm. reflexivity.
  - apply Exists_cons_hd. reflexivity.
Defined.

Lemma popStagedBatches_idempotent_witness :
  popStagedBatches (worldAfter popStagedBatches stagedWorld)
    = (Ok [], worldAfter popStagedBatches stagedWorld).
Proof.
  apply (popStagedBatches_idempotent stagedWorld
           [sentPending (-1) 1 true (localOp 3 None); sentPending (-1) 1 true (localOp 2 None)]).
  vm_compute. reflexivity.
Defined.

Lemma hasPendingUserChanges_counts_witness :
  @hasPendingUserChanges sampleRuntime mixedWorld = true /\
  hasPendingMessages mixedWorld = true /\
  @hasPendingUserChanges sampleRuntime
    (withQueue [sentPending 5 1 false (emptyBatchPlaceholder 10)]) = false.
Proof.
  split; [reflexivity|]. split.
  - apply (proj1 (proj2 (@hasPendingUserChanges_counts sampleRuntime mixedWorld))).
    reflexivity.
  - apply (proj2 (proj2 (@hasPendingUserChanges_counts sampleRuntime
                           (withQueue [sentPending 5 1 false (emptyBatchPlaceholder 10)])))).
    + reflexivity.
    + repeat constructor.
Defined.

Lemma stash_round_trip_witness :
  exists state w',
    getLocalState (Some 10%Z) ackedWorld = (Ok state, ackedWorld) /\
    @applyStashedOpsAt samplePlatform sampleHandler None
      (newPendingStateManager (Some state) emptyWorld) = (Ok tt, w') /\
    initialMessages w' = [] /\
    Forall2 restores
      (filter (newerThan (Some 10%Z)) (savedOps ackedWorld) ++ pendingMessages ackedWorld)
      (pendingMessages w').
Proof.
  assert (Hrun : getLocalState (Some 10%Z) ackedWorld
                 = (Ok (match fst (getLocalState (Some 10%Z) ackedWorld) with
                        | Ok s => s
                        | Throw _ => {| pendingStates := [] |}
                        end), ackedWorld))
    by (vm_compute; reflexivity).
  destruct (@stash_round_trip samplePlatform sampleHandler (Some 10%Z) ackedWorld _ _
              emptyWorld Hrun eq_refl) as (w' & Happly & Hinit & Hall).
  - vm_compute.
    repeat (constructor; [right; split; [reflexivity | eexists; reflexivity]|]). constructor.
  - eexists _, w'. split; [exact Hrun|]. repeat split; assumption.
Defined.

Lemma replayPendingStates_staged_then_unstaged_witness :
  exists pushed w2,
    @replayPendingStates samplePlatform quietHandler
      (Some {| committingStagedBatches := true; squash := false |}) interleavedWorld
      = (Throw (AssertionError "0xb86"),
         set_pendingMessages ([sentPending (-1) 1 true (localOp 3 None)] ++ pushed) w2) /\
    List.length (reSubmitted w2) = 1 /\
    savedOps w2 = savedOps interleavedWorld.
Proof.
  destruct (@replayPendingStates_staged_then_unstaged samplePlatform quietHandler
              (Some {| committingStagedBatches := true; squash := false |}) interleavedWorld
              (sentPending (-1) 1 true (localOp 1 None))
              (sentPending 2 1 false (localOp 2 None))
              [sentPending (-1) 1 true (localOp 3 None)]
              [{| rd_runtimeOp := lbm_runtimeOp (localOp 1 None);
                  rd_localOpMetadata := LomData (JNum 1);
                  rd_opMetadata := None |}]
              (worldAfter
                 (@reSubmitBatch samplePlatform quietHandler
                    [{| rd_runtimeOp := lbm_runtimeOp (localOp 1 None);
                        rd_localOpMetadata := LomData (JNum 1);
                        rd_opMetadata := None |}]
                    (@resubmitMetadata samplePlatform false
                       (unstaged (sentPending (-1) 1 true (localOp 1 None)))))
                 (set_pendingMessages
                    [sentPending 2 1 false (localOp 2 None);
                     sentPending (-1) 1 true (localOp 3 None)]
                    (set_clientIdFromLastReplay (h_clientId interleavedWorld)
                                                interleavedWorld))))
    as (pushed & Hrun & _ & Hlog & _ & Hsaved); try (vm_compute; reflexivity).
  eexists pushed, _. split; [exact Hrun|]. split; [rewrite Hlog; reflexivity | exact Hsaved].
Defined.

Lemma replayPendingStates_batch_in_chunks_witness :
  @replayPendingStates samplePlatform sampleHandler None chunkWorld
    = (Throw (AssertionError "0x41b"),
       set_pendingMessages [] (set_clientIdFromLastReplay (h_clientId chunkWorld) chunkWorld)).
Proof.
  apply (@replayPendingStates_batch_in_chunks samplePlatform sampleHandler None chunkWorld
           (sentPending 1 2 false (localOp 1 (Some false))) []);
    try reflexivity.
  intros H. discriminate H.
Defined.

Lemma applyStashedOpsAt_idempotent_witness :
  @applyStashedOpsAt samplePlatform sampleHandler (Some 5%Z)
    (worldAfter (@applyStashedOpsAt samplePlatform sampleHandler (Some 5%Z)) stashWorld)
    = (Ok tt, worldAfter (@applyStashedOpsAt samplePlatform sampleHandler (Some 5%Z)) stashWorld).
Proof.
  apply (@applyStashedOpsAt_idempotent samplePlatform sampleHandler (Some 5%Z) stashWorld).
  vm_compute. reflexivity.
Defined.
